(** * mindful-study-hub: day-summary classifier, wellbeing statistics and
      schedule-generation proxy

    A shallow embedding of the derived-state logic of the application:

    - [src/hooks/useEndOfDaySummary.ts]: [generateMessage], the feature
      extraction of [fetchDaySummary], and the popup trigger policy
      ([checkAndShowSummary], [triggerOnAllSessionsComplete],
      [dismissSummary], [showSummaryNow]) with [checkAllSessionsComplete],
      in one mount of the hook and across mounts;
    - [src/hooks/useWellbeingStats.ts]: the weekly aggregation of [fetchStats],
      and the study-session hook kept in the same file ([createSession],
      [updateSession], [endSession]);
    - [src/pages/Wellbeing.tsx] and [src/pages/StudyTracker.tsx]: what the
      pages derive from the statistics;
    - [supabase/functions/generate-schedule/index.ts]: the request handler.

    Numbers.  Array lengths are [nat] and integer database columns are [Z].
    The numbers computed from them are read in two ways.  [JS.number] reads a
    number as the exact rational the source text denotes, without the
    rounding of binary64 operations: it serves for the case analysis of the
    code, for orderings and for bounds.  [Binary64] reads the same
    expressions as IEEE 754 binary64 values with the operations of the
    language.  The two part where the rounding of a quotient, a product or a
    sum decides a comparison or a [Math.round]:
    [Math.round((23 / 40) * 100)] is 57 in the language and 58 in exact
    arithmetic.  The statements on the decision table of the classifier, on
    the wellness score, on the completion rate and on the emotion shares are
    made in [Binary64], and say where the two readings part. *)

From Stdlib Require Import ZArith QArith Qround Bool List Lia.
From Stdlib Require Import Ascii String DecimalString.
From Stdlib Require Import Lqa.
From Stdlib Require Import Qpower.
From Stdlib Require Floats Uint63.
From stdpp Require Import gmap strings.
Import ListNotations.

Declare Scope js_scope.
Delimit Scope js_scope with js.

(** ** The platform: numbers, strings, dates *)

Module JS.

(** A number read as the exact rational it denotes.  [Binary64], further
    down, reads numbers as the language computes them. *)
Definition number := Q.

Definition of_nat (n : nat) : number := inject_Z (Z.of_nat n).
Definition of_Z (z : Z) : number := inject_Z z.

(** Relational operators of the language on numbers. *)
Definition lt (x y : number) : bool :=
  match (x ?= y)%Q with Lt => true | _ => false end.
Definition le (x y : number) : bool :=
  match (x ?= y)%Q with Gt => false | _ => true end.
Definition gt (x y : number) : bool := lt y x.
Definition ge (x y : number) : bool := le y x.
Definition strict_eq (x y : number) : bool :=
  match (x ?= y)%Q with Eq => true | _ => false end.

(** [Math.round]: the nearest integer, a tie going to the larger one. *)
Definition Math_round (x : number) : Z := Qfloor (x + (1 # 2))%Q.

Definition Math_min (x y : number) : number := if lt y x then y else x.

(** Truthiness of a nullable integer column ([null] and [0] are falsy) and of
    a nullable string ([null] and the empty string are falsy). *)
Definition truthyZ (v : option Z) : bool :=
  match v with Some z => negb (z =? 0)%Z | None => false end.
Definition truthyS (v : option string) : bool :=
  match v with Some EmptyString => false | Some _ => true | None => false end.

(** [v || 0] on a nullable integer column. *)
Definition or0 (v : option Z) : Z :=
  match v with Some z => z | None => 0%Z end.

(** [String(n)] for an array length, and for an integer. *)
Definition string_of_nat (n : nat) : string :=
  NilZero.string_of_uint (Nat.to_uint n).
Definition string_of_Z (z : Z) : string :=
  NilZero.string_of_int (Z.to_int z).

(** [x.toFixed(1)]: the integer [n] for which [n / 10] is nearest to [|x|],
    the larger one on a tie, written with one digit after the point and the
    sign of [x] in front (fixed notation, which the language uses below 1e21). *)
Definition toFixed1 (x : number) : string :=
  let a := if lt x 0%Q then (- x)%Q else x in
  let n := Qfloor (a * 10 + (1 # 2))%Q in
  String.concat ""
    [ if lt x 0%Q then "-" else "";
      string_of_Z (n / 10)%Z; "."; string_of_Z (n mod 10)%Z ]%string.

(** The observations the code makes of a [Date]: the local hour and weekday,
    the UTC calendar date of [toISOString().split("T")[0]], and the weekday
    name of [toLocaleDateString("en-US", {weekday: "long"})]. *)
Record Date := {
  getHours : nat;
  getDay : nat;
  isoDate : string;
  weekdayLong : string
}.

(** ASCII part of [String.prototype.toLowerCase]. *)
Definition lower_ascii (c : ascii) : ascii :=
  let n := nat_of_ascii c in
  if ((65 <=? n) && (n <=? 90))%nat then ascii_of_nat (n + 32) else c.

Fixpoint toLowerCase (s : string) : string :=
  match s with
  | EmptyString => EmptyString
  | String c s' => String (lower_ascii c) (toLowerCase s')
  end.

(** [Array.prototype.sort(cmp)]: a stable sort; [cmp a b > 0] orders [b]
    before [a].  Insertion from the left keeps equal elements in their
    original order. *)
Fixpoint sort_insert {A} (cmp : A -> A -> number) (x : A) (l : list A) : list A :=
  match l with
  | [] => [x]
  | y :: l' => if gt (cmp y x) 0%Q then x :: l else y :: sort_insert cmp x l'
  end.

Definition Array_sort {A} (cmp : A -> A -> number) (l : list A) : list A :=
  fold_left (fun acc x => sort_insert cmp x acc) l [].

(** An object used as a [Record<string, V>]: [Object.entries] lists the keys
    in insertion order (for keys that are not array indices, as the labels
    stored here). *)
Definition Obj (V : Type) := list (string * V).

Fixpoint obj_get {V} (o : Obj V) (k : string) : option V :=
  match o with
  | [] => None
  | (k', v) :: o' => if String.eqb k' k then Some v else obj_get o' k
  end.

Fixpoint obj_set {V} (o : Obj V) (k : string) (v : V) : Obj V :=
  match o with
  | [] => [(k, v)]
  | (k', v') :: o' =>
      if String.eqb k' k then (k', v) :: o' else (k', v') :: obj_set o' k v
  end.

(** [o[k] = (o[k] || 0) + x] *)
Definition obj_add (o : Obj number) (k : string) (x : number) : Obj number :=
  obj_set o k (match obj_get o k with Some v => v | None => 0 end + x)%Q.

(** A promise of a query: it rejects (the [await] throws), or resolves to
    [{ data }] where [data] is [null] when the backend reported an error. *)
Inductive response (A : Type) :=
  | Rejected
  | Resolved (data : option A).
Arguments Rejected {A}.
Arguments Resolved {A} data.

(** [await r], inside a [try]: [None] stands for the thrown exception. *)
Definition await {A} (r : response A) : option (option A) :=
  match r with Rejected => None | Resolved d => Some d end.

(** [data || []] *)
Definition or_empty {A} (d : option (list A)) : list A :=
  match d with Some l => l | None => [] end.

End JS.

Notation "x <? y" := (JS.lt x y) : js_scope.
Notation "x <=? y" := (JS.le x y) : js_scope.
Notation "x >? y" := (JS.gt x y) : js_scope.
Notation "x >=? y" := (JS.ge x y) : js_scope.
Notation "x =? y" := (JS.strict_eq x y) : js_scope.

(** ** The tables the hooks read

    A row carries the columns the hooks use; [created_at] is given as the
    [Date] that [new Date(created_at)] builds. *)

Module emotion_logs.
Record row := {
  emotion : string;
  mood : option string;
  focus_level : option Z;
  stress_level : option Z;
  created_at : JS.Date
}.
End emotion_logs.

Module study_sessions.
Record row := {
  duration_seconds : option Z;
  created_at : JS.Date
}.
End study_sessions.

Module schedule_session_completions.
Record row := {
  status : string;
  subject : string;
  duration_seconds : Z;
  created_at : JS.Date
}.
End schedule_session_completions.

Module study_schedules.
(** A planned session; [duration] is in minutes and may be absent. *)
Record session := { duration : option Z }.
Record dayPlan := { day : string; sessions : option (list session) }.
Record row := { id : string; weekly_plan : option (list dayPlan) }.
End study_schedules.

(** ** End-of-day summary: the classifier

    The feature tuple and the classifier are read in exact arithmetic here,
    and in binary64 in [Binary64.Summary]: the two part where the rounding of
    [studyHours], of [goalHours * 0.8] or of the completion rate decides a
    comparison, and in the digit [toFixed(1)] prints. *)

Module EndOfDaySummary.

Local Open Scope Q_scope.
Local Open Scope js_scope.

(** [DaySummary['state']] *)
Inductive State :=
  | motivated | tired_but_consistent | stressed | proud
  | discouraged | balanced | recovering | strong_start.

(** [Omit<DaySummary, 'message' | 'closingLine' | 'state'>], the feature
    tuple; the three counts are array lengths. *)
Record BaseData := {
  studyHours : JS.number;
  goalHours : JS.number;
  completedSessions : nat;
  totalSessions : nat;
  dominantEmotion : option string;
  avgFocus : JS.number;
  avgStress : JS.number;
  emotionCount : nat
}.

Record Message := {
  state : State;
  message : string;
  closingLine : string
}.

(** A template literal is the concatenation of its pieces. *)
Definition template (pieces : list string) : string := String.concat "" pieces.

Definition dquote : string := String (ascii_of_nat 34) EmptyString.

Definition generateMessage (data : BaseData) : Message :=
  let '{| studyHours := studyHours; goalHours := goalHours;
          completedSessions := completedSessions; totalSessions := totalSessions;
          dominantEmotion := dominantEmotion; avgFocus := avgFocus;
          avgStress := avgStress; emotionCount := emotionCount |} := data in
  let completionRate : JS.number :=
    if (0 <? totalSessions)%nat
    then JS.of_nat completedSessions / JS.of_nat totalSessions else 0 in
  let goalReached : bool :=
    if goalHours >? 0 then studyHours >=? goalHours * 0.8 else studyHours >? 0 in
  let isStressed := avgStress >=? 7 in
  let isFocused := avgFocus >=? 6 in
  let hasEmotionData := (0 <? emotionCount)%nat in
  if isStressed && (completionRate <? 0.5) then
    {| state := stressed;
       message := template
         [ "Today felt heavy, and that's okay. You showed up despite the stress, and that takes real courage. ";
           if studyHours >? 0
           then template ["You still put in "; JS.toFixed1 studyHours; " hours of effort."]
           else "Sometimes rest is the most productive choice." ]%string;
       closingLine := "Tomorrow is a fresh start. Be gentle with yourself tonight. 🌙" |}
  else if (completionRate >=? 0.8) && goalReached then
    {| state := proud;
       message := template
         [ "What an amazing day! You completed "; JS.string_of_nat completedSessions;
           " of "; JS.string_of_nat totalSessions; " sessions and studied for ";
           JS.toFixed1 studyHours; " hours. Your dedication really shows." ]%string;
       closingLine := "You should feel proud of yourself. Rest well, champion! ⭐" |}
  else if (completionRate >=? 0.6) && isFocused then
    {| state := motivated;
       message := template
         [ "Great focus today! You maintained strong concentration throughout your ";
           JS.toFixed1 studyHours; " hours of study. ";
           if (0 <? completedSessions)%nat
           then template ["Completed "; JS.string_of_nat completedSessions; " sessions with purpose."]
           else "" ]%string;
       closingLine := "Keep this momentum going! You're on a great path. 🚀" |}
  else if (studyHours >? 0) && (completionRate <? 0.5) && negb isStressed then
    {| state := tired_but_consistent;
       message := template
         [ "You might not have hit every goal today, but you showed up. ";
           JS.toFixed1 studyHours;
           " hours of effort is still progress. Consistency matters more than perfection." ]%string;
       closingLine := "Every step forward counts. Sleep well and recharge. 💪" |}
  else if (studyHours =? 0) && hasEmotionData then
    {| state := recovering;
       message := template
         [ "Today was a rest day, and that's perfectly valid. Your emotions tell a story, and sometimes we need to pause. ";
           match dominantEmotion with
           | Some e =>
               if JS.truthyS dominantEmotion
               then template ["Feeling "; dquote; e; dquote; " is part of your journey."]
               else ""
           | None => ""
           end ]%string;
       closingLine := "Rest is part of growth. Tomorrow awaits with new energy. 🌱" |}
  else if (completionRate <? 0.3) && (goalHours >? 0) then
    {| state := discouraged;
       message := "Today didn't go as planned, but setbacks don't define you. You're still here, still trying. That resilience is what matters most.";
       closingLine := "One tough day doesn't erase your progress. You've got this. 💜" |}
  else if (studyHours >? 0) && negb hasEmotionData then
    {| state := strong_start;
       message := template
         [ "You put in "; JS.toFixed1 studyHours; " hours of study today. ";
           if (0 <? completedSessions)%nat
           then template ["Completed "; JS.string_of_nat completedSessions; " sessions."]
           else "";
           " Nice work showing up for yourself!" ]%string;
       closingLine := "Keep building those habits! You're doing great. ✨" |}
  else
    {| state := balanced;
       message := template
         [ "Today was a balanced day. ";
           if studyHours >? 0
           then template ["You studied for "; JS.toFixed1 studyHours; " hours"]
           else "You took time for yourself";
           if hasEmotionData then " and checked in with your feelings" else "";
           ". That's healthy progress." ]%string;
       closingLine := "Balance is the key to long-term success. Well done! 🌟" |}.

(** *** The feature tuple of [fetchDaySummary] *)

Record DaySummary := {
  base : BaseData;
  result : Message
}.

(** The four queries of one evaluation, as they settle. *)
Record DayQueries := {
  q_sessions : JS.response (list study_sessions.row);
  q_emotions : JS.response (list emotion_logs.row);
  q_completions : JS.response (list schedule_session_completions.row);
  q_schedule : JS.response study_schedules.row
}.

(** [weeklyPlan?.find(d => d.day.toLowerCase() === todayName.toLowerCase())] *)
Definition findTodayPlan (weeklyPlan : option (list study_schedules.dayPlan))
    (todayName : string) : option study_schedules.dayPlan :=
  match weeklyPlan with
  | None => None
  | Some plan =>
      List.find (fun d => String.eqb (JS.toLowerCase (study_schedules.day d))
                                     (JS.toLowerCase todayName)) plan
  end.

(** The [emotionsList.forEach] accumulator. *)
Record EmotionAcc := {
  emotionCounts : JS.Obj JS.number;
  focusSum : Z; focusCount : nat;
  stressSum : Z; stressCount : nat
}.

Definition emotionStep (acc : EmotionAcc) (e : emotion_logs.row) : EmotionAcc :=
  let counts := JS.obj_add (emotionCounts acc) (emotion_logs.emotion e) 1 in
  let '(fs, fc) :=
    if JS.truthyZ (emotion_logs.focus_level e)
    then ((focusSum acc + JS.or0 (emotion_logs.focus_level e))%Z, S (focusCount acc))
    else (focusSum acc, focusCount acc) in
  let '(ss, sc) :=
    if JS.truthyZ (emotion_logs.stress_level e)
    then ((stressSum acc + JS.or0 (emotion_logs.stress_level e))%Z, S (stressCount acc))
    else (stressSum acc, stressCount acc) in
  {| emotionCounts := counts; focusSum := fs; focusCount := fc;
     stressSum := ss; stressCount := sc |}.

Definition analyzeEmotions (emotionsList : list emotion_logs.row) : EmotionAcc :=
  fold_left emotionStep emotionsList
    {| emotionCounts := []; focusSum := 0; focusCount := 0;
       stressSum := 0; stressCount := 0 |}.

(** [baseData]: the tuple handed to [generateMessage]. *)
Definition baseData (today : JS.Date)
    (sessions : option (list study_sessions.row))
    (emotions : option (list emotion_logs.row))
    (completions : option (list schedule_session_completions.row))
    (schedule : option study_schedules.row) : BaseData :=
  let studyHours :=
    JS.of_Z (fold_left (fun sum s => (sum + JS.or0 (study_sessions.duration_seconds s))%Z)
                       (JS.or_empty sessions) 0%Z) / 3600 in
  let '(goalHours, totalSessions) :=
    match schedule with
    | Some sch =>
        let todayName := JS.weekdayLong today in
        match findTodayPlan (study_schedules.weekly_plan sch) todayName with
        | Some {| study_schedules.sessions := Some planned |} =>
            (JS.of_Z (fold_left (fun sum s => (sum + JS.or0 (study_schedules.duration s))%Z)
                                planned 0%Z) / 60,
             List.length planned)
        | _ => (0, 0%nat)
        end
    | None => (0, 0%nat)
    end in
  let completedSessions :=
    List.length (List.filter
      (fun c => String.eqb (schedule_session_completions.status c) "completed")
      (JS.or_empty completions)) in
  let emotionsList := JS.or_empty emotions in
  let acc := analyzeEmotions emotionsList in
  let dominantEmotion :=
    match JS.Array_sort (fun a b => snd b - snd a) (emotionCounts acc) with
    | (e, _) :: _ => if JS.truthyS (Some e) then Some e else None
    | [] => None
    end in
  let avgFocus :=
    if (0 <? focusCount acc)%nat
    then JS.of_Z (focusSum acc) / JS.of_nat (focusCount acc) else 5 in
  let avgStress :=
    if (0 <? stressCount acc)%nat
    then JS.of_Z (stressSum acc) / JS.of_nat (stressCount acc) else 3 in
  {| studyHours := studyHours; goalHours := goalHours;
     completedSessions := completedSessions; totalSessions := totalSessions;
     dominantEmotion := dominantEmotion;
     avgFocus := avgFocus; avgStress := avgStress;
     emotionCount := List.length emotionsList |}.

(** [fetchDaySummary]: [None] is the [null] returned without a user or from
    the [catch] block. *)
Definition fetchDaySummary (user : option string) (today : JS.Date)
    (q : DayQueries) : option DaySummary :=
  match user with
  | None => None
  | Some _ =>
      match JS.await (q_sessions q), JS.await (q_emotions q),
            JS.await (q_completions q), JS.await (q_schedule q) with
      | Some sessions, Some emotions, Some completions, Some schedule =>
          let b := baseData today sessions emotions completions schedule in
          Some {| base := b; result := generateMessage b |}
      | _, _, _, _ => None
      end
  end.

(** *** The trigger policy

    The hook's callbacks are asynchronous: each runs to its first [await],
    and its continuation runs when the awaited promise settles, with other
    callbacks free to run in between.  The state holds the React state and
    ref of the hook, [localStorage], and the continuations still waiting.
    A user is signed in throughout (the effect arms nothing otherwise), and
    what [fetchDaySummary] and [checkAllSessionsComplete] resolve to is given
    with the event that resumes the callback. *)

Definition SUMMARY_STORAGE_KEY : string := "mindsync_last_summary_date".
Definition ALL_SESSIONS_COMPLETE_KEY : string := "mindsync_sessions_complete_shown".

(** A callback suspended at an [await]. *)
Inductive Task :=
  | time_awaits_summary
      (** [checkAndShowSummary] at [await fetchDaySummary()] *)
  | complete_awaits_check (today : string)
      (** [triggerOnAllSessionsComplete] at [await checkAllSessionsComplete()] *)
  | complete_awaits_summary (today : string)
      (** [triggerOnAllSessionsComplete] at [await fetchDaySummary()] *)
  | manual_awaits_summary.
      (** [showSummaryNow] at [await fetchDaySummary()] *)

Record Hook := {
  summary : option DaySummary;
  showPopup : bool;
  loading : bool;
  hasTriggeredRef : bool;
  localStorage : gmap string string;
  pending : list Task
}.

Definition suspend (t : Task) (h : Hook) : Hook :=
  {| summary := summary h; showPopup := showPopup h; loading := loading h;
     hasTriggeredRef := hasTriggeredRef h; localStorage := localStorage h;
     pending := pending h ++ [t] |}.

(** [fetchDaySummary()] up to its first [await]: [setLoading(true)]. *)
Definition fetch_started (h : Hook) : Hook :=
  {| summary := summary h; showPopup := showPopup h; loading := true;
     hasTriggeredRef := hasTriggeredRef h; localStorage := localStorage h;
     pending := pending h |}.

(** [fetchDaySummary()] from its last [await] on: [setLoading(false)]. *)
Definition fetch_finished (h : Hook) : Hook :=
  {| summary := summary h; showPopup := showPopup h; loading := false;
     hasTriggeredRef := hasTriggeredRef h; localStorage := localStorage h;
     pending := pending h |}.

(** [setSummary(summaryData); setShowPopup(true)] *)
Definition show (summaryData : DaySummary) (h : Hook) : Hook :=
  {| summary := Some summaryData; showPopup := true; loading := loading h;
     hasTriggeredRef := hasTriggeredRef h; localStorage := localStorage h;
     pending := pending h |}.

Definition checkAndShowSummary (now : JS.Date) (h : Hook) : Hook :=
  if (JS.getHours now <? 20)%nat then h
  else
    let today := JS.isoDate now in
    let lastShown := localStorage h !! SUMMARY_STORAGE_KEY in
    if bool_decide (lastShown = Some today) then h
    else suspend time_awaits_summary (fetch_started h).

Definition checkAndShowSummary_resume (summaryData : option DaySummary)
    (h : Hook) : Hook :=
  let h := fetch_finished h in
  match summaryData with
  | Some s => show s h
  | None => h
  end.

Definition triggerOnAllSessionsComplete (now : JS.Date) (h : Hook) : Hook :=
  if hasTriggeredRef h then h
  else
    let today := JS.isoDate now in
    let alreadyShown := localStorage h !! ALL_SESSIONS_COMPLETE_KEY in
    if bool_decide (alreadyShown = Some today) then h
    else suspend (complete_awaits_check today) h.

Definition triggerOnAllSessionsComplete_checked (today : string)
    (allComplete : bool) (h : Hook) : Hook :=
  if allComplete then suspend (complete_awaits_summary today) (fetch_started h)
  else h.

Definition triggerOnAllSessionsComplete_resume (today : string)
    (summaryData : option DaySummary) (h : Hook) : Hook :=
  let h := fetch_finished h in
  match summaryData with
  | Some s =>
      let h := show s h in
      {| summary := summary h; showPopup := showPopup h; loading := loading h;
         hasTriggeredRef := true;
         localStorage := <[ALL_SESSIONS_COMPLETE_KEY := today]> (localStorage h);
         pending := pending h |}
  | None => h
  end.

Definition dismissSummary (now : JS.Date) (h : Hook) : Hook :=
  let today := JS.isoDate now in
  {| summary := summary h; showPopup := false; loading := loading h;
     hasTriggeredRef := true;
     localStorage :=
       <[ALL_SESSIONS_COMPLETE_KEY := today]>
         (<[SUMMARY_STORAGE_KEY := today]> (localStorage h));
     pending := pending h |}.

Definition showSummaryNow (h : Hook) : Hook :=
  suspend manual_awaits_summary (fetch_started h).

(** The body of the subscribing effect: it re-arms the flag on a new day and
    starts both evaluations. *)
Definition effect (now : JS.Date) (h : Hook) : Hook :=
  let today := JS.isoDate now in
  let alreadyShown := localStorage h !! ALL_SESSIONS_COMPLETE_KEY in
  let h :=
    if bool_decide (alreadyShown = Some today) then h
    else {| summary := summary h; showPopup := showPopup h; loading := loading h;
            hasTriggeredRef := false; localStorage := localStorage h;
            pending := pending h |} in
  checkAndShowSummary now (triggerOnAllSessionsComplete now h).

(** What an awaited promise settles to. *)
Inductive Settled :=
  | check_result (allComplete : bool)
  | summary_result (summaryData : option DaySummary).

(** One turn of the event loop. *)
Inductive Event :=
  | Mount (now : JS.Date)          (** the effect runs *)
  | Tick (now : JS.Date)           (** the 30-minute interval fires *)
  | Completion (now : JS.Date)     (** a realtime change, after its 500 ms delay *)
  | Settle (i : nat) (v : Settled) (** the [i]-th suspended callback resumes *)
  | Dismiss (now : JS.Date)        (** the dialog is closed *)
  | Manual.                        (** [showSummaryNow] is called *)

Definition remove_nth {A} (i : nat) (l : list A) : list A :=
  firstn i l ++ skipn (S i) l.

Definition set_pending (p : list Task) (h : Hook) : Hook :=
  {| summary := summary h; showPopup := showPopup h; loading := loading h;
     hasTriggeredRef := hasTriggeredRef h; localStorage := localStorage h;
     pending := p |}.

Definition resume (t : Task) (v : Settled) (h : Hook) : option Hook :=
  match t, v with
  | time_awaits_summary, summary_result s => Some (checkAndShowSummary_resume s h)
  | complete_awaits_check today, check_result b =>
      Some (triggerOnAllSessionsComplete_checked today b h)
  | complete_awaits_summary today, summary_result s =>
      Some (triggerOnAllSessionsComplete_resume today s h)
  | manual_awaits_summary, summary_result s => Some (checkAndShowSummary_resume s h)
  | _, _ => None
  end.

(** An event that cannot happen (no such suspended callback, or a value of
    the wrong kind) leaves the state as it is. *)
Definition step (e : Event) (h : Hook) : Hook :=
  match e with
  | Mount now => effect now h
  | Tick now => checkAndShowSummary now h
  | Completion now => triggerOnAllSessionsComplete now h
  | Settle i v =>
      match nth_error (pending h) i with
      | Some t =>
          match resume t v (set_pending (remove_nth i (pending h)) h) with
          | Some h' => h'
          | None => h
          end
      | None => h
      end
  | Dismiss now => dismissSummary now h
  | Manual => showSummaryNow h
  end.

(** The popup appears when [showPopup] goes from [false] to [true]. *)
Definition appears (before after : Hook) : nat :=
  if negb (showPopup before) && showPopup after then 1 else 0.

Fixpoint run (trace : list Event) (h : Hook) : Hook :=
  match trace with
  | [] => h
  | e :: trace' => run trace' (step e h)
  end.

Fixpoint appearances (trace : list Event) (h : Hook) : nat :=
  match trace with
  | [] => 0
  | e :: trace' => appears h (step e h) + appearances trace' (step e h)
  end.

End EndOfDaySummary.

(** ** Weekly wellbeing statistics *)

Module useWellbeingStats.

Local Open Scope Q_scope.
Local Open Scope js_scope.

Module MoodTrend.
Record t := { mood : string; count : JS.number }.
End MoodTrend.

Module WeeklyEmotion.
Record t := { day : string; focus : Z; stress : Z; mood : string }.
End WeeklyEmotion.

Module EmotionShare.
Record t := { emotion : string; percentage : Z }.
End EmotionShare.

Module WellbeingStats.
Record t := {
  wellnessScore : Z;
  burnoutRisk : string;
  breakEfficiency : Z;
  avgFocusLevel : Z;
  avgStressLevel : Z;
  moodTrends : list MoodTrend.t;
  weeklyEmotions : list WeeklyEmotion.t;
  focusTrend : list Z;
  stressTrend : list Z;
  totalBreakTime : Z;
  totalStudyTime : Z;
  emotionDistribution : list EmotionShare.t
}.
End WellbeingStats.

Module DailyBreakdown.
Record t := { day : string; studyHours : JS.number; breakHours : JS.number; sessions : nat }.
End DailyBreakdown.

Module EmotionTrend.
Record t := { day : string; emotion : string; focus : Z; stress : Z }.
End EmotionTrend.

Module SubjectHours.
Record t := { subject : string; hours : JS.number }.
End SubjectHours.

Module WeeklyAnalytics.
Record t := {
  totalStudyHours : JS.number;
  completionRate : Z;
  avgFocusLevel : Z;
  avgStressLevel : Z;
  breakVsStudyRatio : Z;
  dailyBreakdown : list DailyBreakdown.t;
  emotionTrends : list EmotionTrend.t;
  subjectDistribution : list SubjectHours.t
}.
End WeeklyAnalytics.

(** The hook's state, with the initial values of its [useState] calls. *)
Record Hook := {
  stats : WellbeingStats.t;
  weeklyAnalytics : WeeklyAnalytics.t;
  loading : bool
}.

Definition initialStats : WellbeingStats.t :=
  {| WellbeingStats.wellnessScore := 0;
     WellbeingStats.burnoutRisk := "Low";
     WellbeingStats.breakEfficiency := 0;
     WellbeingStats.avgFocusLevel := 0;
     WellbeingStats.avgStressLevel := 0;
     WellbeingStats.moodTrends := [];
     WellbeingStats.weeklyEmotions := [];
     WellbeingStats.focusTrend := [];
     WellbeingStats.stressTrend := [];
     WellbeingStats.totalBreakTime := 0;
     WellbeingStats.totalStudyTime := 0;
     WellbeingStats.emotionDistribution := [] |}.

Definition initialWeeklyAnalytics : WeeklyAnalytics.t :=
  {| WeeklyAnalytics.totalStudyHours := 0;
     WeeklyAnalytics.completionRate := 0;
     WeeklyAnalytics.avgFocusLevel := 0;
     WeeklyAnalytics.avgStressLevel := 0;
     WeeklyAnalytics.breakVsStudyRatio := 0;
     WeeklyAnalytics.dailyBreakdown := [];
     WeeklyAnalytics.emotionTrends := [];
     WeeklyAnalytics.subjectDistribution := [] |}.

Definition initialHook : Hook :=
  {| stats := initialStats; weeklyAnalytics := initialWeeklyAnalytics;
     loading := true |}.

(** *** The expressions of [fetchStats], by the names of its locals

    They are read in exact arithmetic here.  The wellness score, the
    completion rate and the emotion shares, which round a quotient or a sum,
    are read in binary64 in [Binary64.Stats]; the hours of the subject
    distribution, sums of binary64 quotients in the order of the records, are
    read in exact arithmetic only. *)

(** [l.reduce((a, b) => a + b, 0)] *)
Definition sum_of (l : list Z) : Z := fold_left Z.add l 0%Z.

(** [l.length > 0 ? Math.round(l.reduce((a, b) => a + b, 0) / l.length) : 0] *)
Definition average (l : list Z) : Z :=
  if (0 <? List.length l)%nat
  then JS.Math_round (JS.of_Z (sum_of l) / JS.of_nat (List.length l))
  else 0%Z.

Definition focusLevels (emotionsList : list emotion_logs.row) : list Z :=
  map (fun e => JS.or0 (emotion_logs.focus_level e))
      (List.filter (fun e => JS.truthyZ (emotion_logs.focus_level e)) emotionsList).

Definition stressLevels (emotionsList : list emotion_logs.row) : list Z :=
  map (fun e => JS.or0 (emotion_logs.stress_level e))
      (List.filter (fun e => JS.truthyZ (emotion_logs.stress_level e)) emotionsList).

Definition moodTrends (emotionsList : list emotion_logs.row) : list MoodTrend.t :=
  let moodCounts :=
    fold_left
      (fun counts e =>
         let mood := match emotion_logs.mood e with
                     | Some m => if JS.truthyS (Some m) then m else emotion_logs.emotion e
                     | None => emotion_logs.emotion e
                     end in
         JS.obj_add counts mood 1)
      emotionsList [] in
  JS.Array_sort (fun a b => MoodTrend.count b - MoodTrend.count a)
    (map (fun '(mood, count) => {| MoodTrend.mood := mood; MoodTrend.count := count |})
         moodCounts).

Definition dayNames : list string :=
  ["Sun"; "Mon"; "Tue"; "Wed"; "Thu"; "Fri"; "Sat"]%string.

(** [dayNames[new Date(created_at).getDay()] === day] *)
Definition onDay (created_at : JS.Date) (day : string) : bool :=
  match nth_error dayNames (JS.getDay created_at) with
  | Some name => String.eqb name day
  | None => false
  end.

Definition weeklyEmotions (emotionsList : list emotion_logs.row) : list WeeklyEmotion.t :=
  map (fun day =>
         let dayEmotions :=
           List.filter (fun e => onDay (emotion_logs.created_at e) day) emotionsList in
         let dominantMood :=
           match List.last (map (fun e => Some (emotion_logs.emotion e)) dayEmotions) None with
           | Some m => m
           | None => "neutral"%string
           end in
         {| WeeklyEmotion.day := day;
            WeeklyEmotion.focus := average (focusLevels dayEmotions);
            WeeklyEmotion.stress := average (stressLevels dayEmotions);
            WeeklyEmotion.mood := dominantMood |})
      dayNames.

(** [l.slice(-7)] *)
Definition slice_last7 {A} (l : list A) : list A := skipn (List.length l - 7) l.

Definition totalStudyTime (sessionsList : list study_sessions.row) : Z :=
  fold_left (fun acc s => (acc + JS.or0 (study_sessions.duration_seconds s))%Z)
            sessionsList 0%Z.

(** Break time is estimated as 20% of the study time, in whole seconds. *)
Definition totalBreakTime (totalStudyTime : Z) : Z :=
  JS.Math_round (JS.of_Z totalStudyTime * 0.2).

Definition emotionDistribution (emotionsList : list emotion_logs.row)
    : list EmotionShare.t :=
  let emotionCounts :=
    fold_left (fun counts e => JS.obj_add counts (emotion_logs.emotion e) 1)
              emotionsList [] in
  let totalEmotions :=
    if (0 <? List.length emotionsList)%nat then JS.of_nat (List.length emotionsList) else 1 in
  JS.Array_sort
    (fun a b => JS.of_Z (EmotionShare.percentage b) - JS.of_Z (EmotionShare.percentage a))
    (map (fun '(emotion, count) =>
            {| EmotionShare.emotion := emotion;
               EmotionShare.percentage := JS.Math_round (count / totalEmotions * 100) |})
         emotionCounts).

Definition wellnessScore (avgFocusLevel avgStressLevel : Z) (emotionCount : nat) : Z :=
  let focusContrib := JS.of_Z avgFocusLevel * 0.4 in
  let stressContrib := (100 - JS.of_Z avgStressLevel) * 0.3 in
  let consistencyContrib := JS.Math_min (JS.of_nat emotionCount * 5) 30 in
  JS.Math_round (focusContrib + stressContrib + consistencyContrib).

Definition burnoutRisk (avgStressLevel totalStudyTime : Z) : string :=
  if ((avgStressLevel >? 70) || (totalStudyTime >? 25 * 3600))%Z then "High"
  else if ((avgStressLevel >? 50) || (totalStudyTime >? 20 * 3600))%Z then "Medium"
  else "Low".

Definition breakEfficiency (totalStudyTime : Z) : Z :=
  if (totalStudyTime >? 0)%Z
  then Z.min (JS.Math_round
                (JS.of_Z (totalBreakTime totalStudyTime)
                 / (JS.of_Z totalStudyTime * 0.25) * 100))
             100
  else 0%Z.

(** [day.sessions?.length || 0] *)
Definition planned_on (day : study_schedules.dayPlan) : nat :=
  match study_schedules.sessions day with
  | Some l => List.length l
  | None => 0%nat
  end.

Definition plannedSessions (schedule : option study_schedules.row) : nat :=
  match schedule with
  | Some sch =>
      match study_schedules.weekly_plan sch with
      | Some weeklyPlan =>
          fold_left (fun acc day => (acc + planned_on day)%nat) weeklyPlan 0%nat
      | None => 0%nat
      end
  | None => 0%nat
  end.

Definition completionRate (completionsList : list schedule_session_completions.row)
    (schedule : option study_schedules.row) : Z :=
  let plannedSessions := plannedSessions schedule in
  if (0 <? plannedSessions)%nat
  then JS.Math_round
         (JS.of_nat (List.length completionsList) / JS.of_nat plannedSessions * 100)
  else 0%Z.

(** [Math.round(x * 10) / 10] *)
Definition round1 (x : JS.number) : JS.number := JS.of_Z (JS.Math_round (x * 10)) / 10.

Definition dailyBreakdown (sessionsList : list study_sessions.row)
    : list DailyBreakdown.t :=
  map (fun day =>
         let daySessions :=
           List.filter (fun s => onDay (study_sessions.created_at s) day) sessionsList in
         let studySeconds := totalStudyTime daySessions in
         let breakSeconds := JS.Math_round (JS.of_Z studySeconds * 0.2) in
         {| DailyBreakdown.day := day;
            DailyBreakdown.studyHours := round1 (JS.of_Z studySeconds / 3600);
            DailyBreakdown.breakHours := round1 (JS.of_Z breakSeconds / 3600);
            DailyBreakdown.sessions := List.length daySessions |})
      dayNames.

Definition subjectDistribution
    (completionsList : list schedule_session_completions.row) : list SubjectHours.t :=
  let subjectHours :=
    fold_left
      (fun acc c =>
         JS.obj_add acc (schedule_session_completions.subject c)
           (JS.of_Z (schedule_session_completions.duration_seconds c) / 3600))
      completionsList [] in
  JS.Array_sort (fun a b => SubjectHours.hours b - SubjectHours.hours a)
    (map (fun '(subject, hours) =>
            {| SubjectHours.subject := subject; SubjectHours.hours := round1 hours |})
         subjectHours).

(** *** [fetchStats] *)

Record WeekQueries := {
  q_emotions : JS.response (list emotion_logs.row);
  q_sessions : JS.response (list study_sessions.row);
  q_completions : JS.response (list schedule_session_completions.row);
  q_schedule : JS.response study_schedules.row
}.

(** What the [try] block computes from the settled data. *)
Definition aggregate
    (emotions : option (list emotion_logs.row))
    (sessions : option (list study_sessions.row))
    (completions : option (list schedule_session_completions.row))
    (schedule : option study_schedules.row)
    : WellbeingStats.t * WeeklyAnalytics.t :=
  let emotionsList := JS.or_empty emotions in
  let sessionsList := JS.or_empty sessions in
  let completionsList := JS.or_empty completions in
  let avgFocusLevel := average (focusLevels emotionsList) in
  let avgStressLevel := average (stressLevels emotionsList) in
  let weeklyEmotions := weeklyEmotions emotionsList in
  let totalStudyTime := totalStudyTime sessionsList in
  let totalBreakTime := totalBreakTime totalStudyTime in
  let totalStudyHours := JS.of_Z totalStudyTime / 3600 in
  ( {| WellbeingStats.wellnessScore :=
         wellnessScore avgFocusLevel avgStressLevel (List.length emotionsList);
       WellbeingStats.burnoutRisk := burnoutRisk avgStressLevel totalStudyTime;
       WellbeingStats.breakEfficiency := breakEfficiency totalStudyTime;
       WellbeingStats.avgFocusLevel := avgFocusLevel;
       WellbeingStats.avgStressLevel := avgStressLevel;
       WellbeingStats.moodTrends := moodTrends emotionsList;
       WellbeingStats.weeklyEmotions := weeklyEmotions;
       WellbeingStats.focusTrend := slice_last7 (focusLevels emotionsList);
       WellbeingStats.stressTrend := slice_last7 (stressLevels emotionsList);
       WellbeingStats.totalBreakTime := totalBreakTime;
       WellbeingStats.totalStudyTime := totalStudyTime;
       WellbeingStats.emotionDistribution := emotionDistribution emotionsList |},
    {| WeeklyAnalytics.totalStudyHours := round1 totalStudyHours;
       WeeklyAnalytics.completionRate := completionRate completionsList schedule;
       WeeklyAnalytics.avgFocusLevel := avgFocusLevel;
       WeeklyAnalytics.avgStressLevel := avgStressLevel;
       WeeklyAnalytics.breakVsStudyRatio :=
         if (totalStudyTime >? 0)%Z
         then JS.Math_round (JS.of_Z totalBreakTime / JS.of_Z totalStudyTime * 100)
         else 20%Z;
       WeeklyAnalytics.dailyBreakdown := dailyBreakdown sessionsList;
       WeeklyAnalytics.emotionTrends :=
         map (fun we =>
                {| EmotionTrend.day := WeeklyEmotion.day we;
                   EmotionTrend.emotion := WeeklyEmotion.mood we;
                   EmotionTrend.focus := WeeklyEmotion.focus we;
                   EmotionTrend.stress := WeeklyEmotion.stress we |})
             weeklyEmotions;
       WeeklyAnalytics.subjectDistribution := subjectDistribution completionsList |} ).

(** How a call of [fetchStats] ends: it never throws to its caller; an
    exception from an [await] is caught and logged. *)
Inductive Outcome :=
  | no_user
  | caught
  | completed.

(** The [try] block: the four queries are awaited in turn, a rejection
    leaving for the [catch] block before anything is stored. *)
Definition try_block (q : WeekQueries)
    : option (WellbeingStats.t * WeeklyAnalytics.t) :=
  match JS.await (q_emotions q) with
  | None => None
  | Some emotions =>
  match JS.await (q_sessions q) with
  | None => None
  | Some sessions =>
  match JS.await (q_completions q) with
  | None => None
  | Some completions =>
  match JS.await (q_schedule q) with
  | None => None
  | Some schedule => Some (aggregate emotions sessions completions schedule)
  end end end end.

Definition fetchStats (user : option string) (q : WeekQueries) (h : Hook)
    : Hook * Outcome :=
  match user with
  | None => (h, no_user)
  | Some _ =>
      match try_block q with
      | Some (s, w) =>
          ({| stats := s; weeklyAnalytics := w; loading := false |}, completed)
      | None =>
          ({| stats := stats h; weeklyAnalytics := weeklyAnalytics h;
              loading := false |}, caught)
      end
  end.

End useWellbeingStats.

(** ** The schedule-generation function *)

Module generate_schedule.

(** An operation in a [try] block either throws an [Error] with a message or
    returns. *)
Inductive attempt (A : Type) :=
  | threw (message : string)
  | returned (a : A).
Arguments threw {A} message.
Arguments returned {A} a.

(** The handler's effects: exceptions, and calls of [fetch], counted.  The
    outcome of the [n]-th call of [fetch] is given by the environment. *)
Definition M (E A : Type) : Type := (nat -> E) -> nat -> attempt A * nat.

Definition ret {E A} (a : A) : M E A := fun _ n => (returned a, n).
Definition throw {E A} (message : string) : M E A := fun _ n => (threw message, n).
Definition bind {E A B} (m : M E A) (k : A -> M E B) : M E B :=
  fun env n =>
    match m env n with
    | (threw msg, n') => (threw msg, n')
    | (returned a, n') => k a env n'
    end.
Definition lift {E A} (a : attempt A) : M E A := fun _ n => (a, n).
Definition call_fetch {E} : M E E := fun env n => (returned (env n), S n).

Notation "'let!' x ':=' m 'in' k" := (bind m (fun x => k))
  (at level 10, x pattern, m at level 100, k at level 200).

(** *** Strings: [replace] of a fence with an optional newline, and [trim] *)

Definition newline : ascii := ascii_of_nat 10.

Fixpoint strip_prefix (p s : string) : option string :=
  match p, s with
  | EmptyString, _ => Some s
  | String a p', String b s' => if Ascii.eqb a b then strip_prefix p' s' else None
  | String _ _, EmptyString => None
  end.

(** [s.replace(/<fence>\n?/g, '')]: every occurrence of [fence], left to right
    and without overlap, is removed together with a newline that follows it.
    [skip] counts the characters of the current match still to be dropped. *)
Fixpoint remove_fences (fence : string) (skip : nat) (s : string) : string :=
  match s with
  | EmptyString => EmptyString
  | String c s' =>
      match skip with
      | S k => remove_fences fence k s'
      | O =>
          match strip_prefix fence s with
          | Some rest =>
              let matched :=
                (String.length fence +
                 match rest with
                 | String d _ => if Ascii.eqb d newline then 1 else 0
                 | EmptyString => 0
                 end)%nat in
              remove_fences fence (matched - 1) s'
          | None => String c (remove_fences fence 0 s')
          end
      end
  end.

(** White space, as far as ASCII goes: tab, line feed, vertical tab, form
    feed, carriage return, space. *)
Definition is_space (c : ascii) : bool :=
  let n := nat_of_ascii c in
  (((9 <=? n) && (n <=? 13)) || (n =? 32))%nat.

Fixpoint trim_start (s : string) : string :=
  match s with
  | String c s' => if is_space c then trim_start s' else s
  | EmptyString => EmptyString
  end.

(** The string without its trailing white space. *)
Fixpoint trim_end (s : string) : string :=
  match s with
  | EmptyString => EmptyString
  | String c s' =>
      match trim_end s' with
      | EmptyString => if is_space c then EmptyString else String c EmptyString
      | t => String c t
      end
  end.

Definition trim (s : string) : string := trim_end (trim_start s).

Definition json_fence : string :=
  String "`" (String "`" (String "`" "json")).
Definition fence : string :=
  String "`" (String "`" (String "`" EmptyString)).

(** [content.replace(/```json\n?/g, '').replace(/```\n?/g, '').trim()] *)
Definition clean_markdown (scheduleContent : string) : string :=
  trim (remove_fences fence 0 (remove_fences json_fence 0 scheduleContent)).

(** *** Requests and responses *)

Record Subject := {
  name : string;
  hoursPerWeek : string;
  deadline : option string
}.

(** The [subjects] member of the body, which may be any JSON value, as far
    as the prompt's [subjects.map(s => ...)] reads it: absent, [null], a value
    that is not an array (it has no [map], or its member [map] is not a
    function), or an array.  An element of the array is [null] ([None]) or
    another value, which is read by its members [name], [hoursPerWeek] and
    [deadline]; a member that is missing reads as [undefined] and does not
    throw. *)
Inductive Subjects :=
  | absent
  | null_value
  | not_an_array
  | elements (l : list (option Subject)).

(** What [subjects.map(s => ...)] throws, with the messages of the engine. *)
Definition prompt_subjects (s : Subjects) : attempt unit :=
  match s with
  | absent => threw "Cannot read properties of undefined (reading 'map')"
  | null_value => threw "Cannot read properties of null (reading 'map')"
  | not_an_array => threw "subjects.map is not a function"
  | elements l =>
      if forallb (fun s => match s with Some _ => true | None => false end) l
      then returned tt
      else threw "Cannot read properties of null (reading 'name')"
  end.

(** The JSON body of the request, destructured (a body that is [null]
    cannot be destructured: this throws with [req.json()]). *)
Record Body := {
  subjects : Subjects;
  instituteTimetable : option string;
  personalEvents : option string;
  startDate : option string;
  endDate : option string
}.

Record Request := {
  method : string;
  json : attempt Body  (** [await req.json()], destructured *)
}.

(** The reply of the model gateway: its status, [await response.text()], and
    [(await response.json()).choices[0].message.content] as a string (going
    there throws when the reply has another shape). *)
Record Reply := {
  reply_status : nat;
  reply_text : attempt string;
  reply_content : attempt string
}.

Definition ok (r : Reply) : bool :=
  ((200 <=? reply_status r) && (reply_status r <=? 299))%nat.

Inductive Payload (Json : Type) :=
  | no_body
  | error_body (error : string)
  | schedule_body (schedule : Json).
Arguments no_body {Json}.
Arguments error_body {Json} error.
Arguments schedule_body {Json} schedule.

Record Response (Json : Type) := {
  status : nat;
  headers : list (string * string);
  payload : Payload Json
}.
Arguments status {Json} r.
Arguments headers {Json} r.
Arguments payload {Json} r.

Definition corsHeaders : list (string * string) :=
  [ ("Access-Control-Allow-Origin", "*");
    ("Access-Control-Allow-Headers",
     "authorization, x-client-info, apikey, content-type") ]%string.

Definition jsonHeaders : list (string * string) :=
  corsHeaders ++ [("Content-Type", "application/json")]%string.

Section Handler.

(** [JSON.parse] and the values it yields belong to the platform. *)
Variable Json : Type.
Variable JSON_parse : string -> attempt Json.

(** The outcome of one call of [fetch]: a rejection, or a reply. *)
Definition Fetched : Type := attempt Reply.

(** The four shapes of response the handler builds. *)
Definition rate_limited : Response Json :=
  {| status := 429; headers := jsonHeaders;
     payload := error_body "Rate limit exceeded. Please try again in a moment." |}.

Definition credits_exhausted : Response Json :=
  {| status := 402; headers := jsonHeaders;
     payload := error_body "AI credits exhausted. Please add credits to continue." |}.

Definition internal_error (message : string) : Response Json :=
  {| status := 500; headers := jsonHeaders; payload := error_body message |}.

Definition generated (schedule : Json) : Response Json :=
  {| status := 200; headers := jsonHeaders; payload := schedule_body schedule |}.

(** The [try] block. *)
Definition try_block (req : Request) (LOVABLE_API_KEY : option string)
    : M Fetched (Response Json) :=
  let! body := lift (json req) in
  let! _ := match LOVABLE_API_KEY with
            | Some (String _ _) => ret tt
            | _ => throw "LOVABLE_API_KEY is not configured"
            end in
  let! _ := lift (prompt_subjects (subjects body)) in
  let! fetched := call_fetch in
  let! response := lift fetched in
  if negb (ok response) then
    if (reply_status response =? 429)%nat then ret rate_limited
    else if (reply_status response =? 402)%nat then ret credits_exhausted
    else
      let! errorText := lift (reply_text response) in
      throw (String.append "AI Gateway error: " (JS.string_of_nat (reply_status response)))
  else
    let! scheduleContent := lift (reply_content response) in
    let! schedule := lift (JSON_parse (clean_markdown scheduleContent)) in
    ret (generated schedule).

(** The handler: the response, and the number of calls of [fetch] made. *)
Definition serve (req : Request) (LOVABLE_API_KEY : option string)
    (env : nat -> Fetched) : Response Json * nat :=
  if String.eqb (method req) "OPTIONS" then
    ({| status := 200; headers := corsHeaders; payload := no_body |}, 0%nat)
  else
    match try_block req LOVABLE_API_KEY env 0%nat with
    | (returned r, calls) => (r, calls)
    | (threw message, calls) => (internal_error message, calls)
    end.

End Handler.

Arguments rate_limited {Json}.
Arguments credits_exhausted {Json}.
Arguments internal_error {Json} message.
Arguments generated {Json} schedule.

End generate_schedule.

(** ** The decision table of the summary, as the specification words it *)

Module DecisionTable.

Import EndOfDaySummary.
Local Open Scope Q_scope.
Local Open Scope js_scope.

(** [completedSessions / totalSessions], 0 if [totalSessions == 0]. *)
Definition completionRate (d : BaseData) : JS.number :=
  if (totalSessions d =? 0)%nat then 0
  else JS.of_nat (completedSessions d) / JS.of_nat (totalSessions d).

(** [studyHours >= 0.8 * goalHours] if [goalHours > 0], else [studyHours > 0]. *)
Definition goalReached (d : BaseData) : bool :=
  if goalHours d >? 0 then studyHours d >=? 0.8 * goalHours d
  else studyHours d >? 0.

(** The eight rows, in order. *)
Definition rows : list ((BaseData -> bool) * State) :=
  [ (fun d => (avgStress d >=? 7) && (completionRate d <? 0.5), stressed);
    (fun d => (completionRate d >=? 0.8) && goalReached d, proud);
    (fun d => (completionRate d >=? 0.6) && (avgFocus d >=? 6), motivated);
    (fun d => (studyHours d >? 0) && (completionRate d <? 0.5) && (avgStress d <? 7),
     tired_but_consistent);
    (fun d => (studyHours d =? 0) && (0 <? emotionCount d)%nat, recovering);
    (fun d => (completionRate d <? 0.3) && (goalHours d >? 0), discouraged);
    (fun d => (studyHours d >? 0) && (emotionCount d =? 0)%nat, strong_start);
    (fun _ => true, balanced) ].

(** Evaluation of an ordered decision list: the rows are tried in order and
    the first whose predicate holds decides. *)
Fixpoint first_match {A B} (table : list ((A -> bool) * B)) (a : A) : option B :=
  match table with
  | [] => None
  | (p, b) :: table' => if p a then Some b else first_match table' a
  end.

(** The eight states. *)
Definition all_states : list State :=
  [ motivated; tired_but_consistent; stressed; proud;
    discouraged; balanced; recovering; strong_start ].

(** Two feature tuples that hold the same values: numbers are compared as
    numbers, whatever fraction denotes them. *)
Definition same_features (d d' : BaseData) : Prop :=
  studyHours d == studyHours d' /\ goalHours d == goalHours d' /\
  completedSessions d = completedSessions d' /\
  totalSessions d = totalSessions d' /\
  dominantEmotion d = dominantEmotion d' /\
  avgFocus d == avgFocus d' /\ avgStress d == avgStress d' /\
  emotionCount d = emotionCount d'.

End DecisionTable.

(** ** Runs of the trigger policy within one day *)

Module TriggerRuns.

Import EndOfDaySummary.

(** The event happens on the calendar date [day] (the date the callbacks
    compare with the stored ones). *)
Definition on_day (day : string) (e : Event) : Prop :=
  match e with
  | Mount now | Tick now | Completion now | Dismiss now => JS.isoDate now = day
  | Settle _ _ | Manual => True
  end.

(** The event is not the manual trigger, which bypasses the guards. *)
Definition automatic (e : Event) : Prop := e <> Manual.

(** No evaluation is in flight whenever the dialog is dismissed. *)
Fixpoint quiet_dismissals (trace : list Event) (h : Hook) : Prop :=
  match trace with
  | [] => True
  | e :: trace' =>
      match e with Dismiss _ => pending h = [] | _ => True end /\
      quiet_dismissals trace' (step e h)
  end.

(** After a dismissal with nothing in flight, the day is closed: both stored
    dates are today's, the flag is set, and no callback is waiting. *)
Definition closed_for (day : string) (h : Hook) : Prop :=
  showPopup h = false /\ pending h = [] /\ hasTriggeredRef h = true /\
  localStorage h !! SUMMARY_STORAGE_KEY = Some day /\
  localStorage h !! ALL_SESSIONS_COMPLETE_KEY = Some day.

(** The hook as it is mounted in a browser that has stored nothing yet. *)
Definition mounted : Hook :=
  {| summary := None; showPopup := false; loading := false;
     hasTriggeredRef := false; localStorage := ∅; pending := [] |}.

End TriggerRuns.

(** ** The summary hook across mounts

    The component that uses the hook can be removed and mounted again (the
    page is left and entered again).  Every mount has its own state and its
    own [hasTriggeredRef]; [localStorage] is the browser's and is shared.  A
    mount that has been removed shows nothing any more, its interval is
    cleared and its channel closed; but a completion event its timer already
    delays still runs, and its suspended callbacks still resume, and what
    they store is seen by the present mount. *)

Module Mounts.

Import EndOfDaySummary.

Record Page := {
  live : Hook;         (** the present mount; its [localStorage] is the browser's *)
  behind : list Hook   (** the mounts removed, oldest first *)
}.

Definition with_storage (s : gmap string string) (h : Hook) : Hook :=
  {| summary := summary h; showPopup := showPopup h; loading := loading h;
     hasTriggeredRef := hasTriggeredRef h; localStorage := s;
     pending := pending h |}.

(** The initial values of the hook's [useState] and [useRef] calls. *)
Definition fresh (s : gmap string string) : Hook :=
  {| summary := None; showPopup := false; loading := false;
     hasTriggeredRef := false; localStorage := s; pending := [] |}.

Inductive Event :=
  | On (e : EndOfDaySummary.Event)
      (** an event of the present mount *)
  | Remount (now : JS.Date)
      (** the component is removed and mounted again: the effect runs in a
          new instance *)
  | Behind (k : nat) (e : EndOfDaySummary.Event).
      (** a delayed completion event or a resuming callback of the [k]-th
          removed mount *)

Definition step (e : Event) (p : Page) : Page :=
  match e with
  | On e => {| live := EndOfDaySummary.step e (live p); behind := behind p |}
  | Remount now =>
      {| live := effect now (fresh (localStorage (live p)));
         behind := behind p ++ [live p] |}
  | Behind k e =>
      match nth_error (behind p) k with
      | Some h =>
          match e with
          | Completion _ | Settle _ _ =>
              let h' := EndOfDaySummary.step e (with_storage (localStorage (live p)) h) in
              {| live := with_storage (localStorage h') (live p);
                 behind := <[k := h']> (behind p) |}
          | _ => p
          end
      | None => p
      end
  end.

Fixpoint run (trace : list Event) (p : Page) : Page :=
  match trace with
  | [] => p
  | e :: trace' => run trace' (step e p)
  end.

(** The popup the user sees is the present mount's. *)
Fixpoint appearances (trace : list Event) (p : Page) : nat :=
  match trace with
  | [] => 0
  | e :: trace' => appears (live p) (live (step e p)) + appearances trace' (step e p)
  end.

(** The page as it is opened in a browser that has stored nothing yet. *)
Definition opened : Page := {| live := fresh ∅; behind := [] |}.

(** The event happens on the calendar date [day] (the UTC date the callbacks
    compare with the stored ones). *)
Definition on_day (day : string) (e : Event) : Prop :=
  match e with
  | On e | Behind _ e =>
      match e with
      | Mount now | Tick now | Completion now | Dismiss now => JS.isoDate now = day
      | Settle _ _ | Manual => True
      end
  | Remount now => JS.isoDate now = day
  end.

(** The event is not the manual trigger, which bypasses the guards. *)
Definition automatic (e : Event) : Prop := e <> On Manual.

(** No evaluation of the present mount is in flight whenever the dialog is
    dismissed. *)
Fixpoint quiet_dismissals (trace : list Event) (p : Page) : Prop :=
  match trace with
  | [] => True
  | e :: trace' =>
      match e with On (Dismiss _) => pending (live p) = [] | _ => True end /\
      quiet_dismissals trace' (step e p)
  end.

(** The component is not removed while the dialog is open. *)
Fixpoint stays_while_open (trace : list Event) (p : Page) : Prop :=
  match trace with
  | [] => True
  | e :: trace' =>
      match e with Remount _ => showPopup (live p) = false | _ => True end /\
      stays_while_open trace' (step e p)
  end.

(** The date a suspended completion evaluation will store is [day]. *)
Definition dated (day : string) (t : Task) : Prop :=
  match t with
  | complete_awaits_check today | complete_awaits_summary today => today = day
  | time_awaits_summary | manual_awaits_summary => True
  end.

(** Every evaluation in flight was begun on [day]. *)
Definition begun_on (day : string) (p : Page) : Prop :=
  Forall (dated day) (pending (live p)) /\
  Forall (fun h => Forall (dated day) (pending h)) (behind p).

(** Both stored dates are [day]'s. *)
Definition stored (day : string) (s : gmap string string) : Prop :=
  s !! SUMMARY_STORAGE_KEY = Some day /\ s !! ALL_SESSIONS_COMPLETE_KEY = Some day.

(** The day is over for the popup: the dialog is closed, the present mount
    has nothing in flight, and both stored dates are today's. *)
Definition shut (day : string) (p : Page) : Prop :=
  showPopup (live p) = false /\ pending (live p) = [] /\
  stored day (localStorage (live p)).

End Mounts.

(** ** The outcomes of the schedule-generation function *)

Module GatewayCases.

Import generate_schedule.

(** The request gets as far as the call of [fetch]: its body parses, the key
    is configured and the prompt can be written from the subjects of the
    body. *)
Definition reaches_fetch (req : Request) (LOVABLE_API_KEY : option string) : Prop :=
  exists body key, json req = returned body /\
    LOVABLE_API_KEY = Some key /\ key <> EmptyString /\
    prompt_subjects (subjects body) = returned tt.

Section Answers.

Variable Json : Type.
Variable JSON_parse : string -> attempt Json.

(** What the handler answers once [fetch] has settled to [fetched]. *)
Definition after_fetch (fetched : Fetched) (resp : Response Json) : Prop :=
  match fetched with
  | threw message => resp = internal_error message
  | returned r =>
      if ok r then
        match reply_content r with
        | threw message => resp = internal_error message
        | returned content =>
            match JSON_parse (clean_markdown content) with
            | threw message => resp = internal_error message
            | returned schedule => resp = generated schedule
            end
        end
      else if (reply_status r =? 429)%nat then resp = rate_limited
      else if (reply_status r =? 402)%nat then resp = credits_exhausted
      else exists message, resp = internal_error message
  end.

End Answers.

End GatewayCases.

(** ** The formulas of the statistics, as the specification words them *)

Module ClaimedFormulas.

Local Open Scope Q_scope.

(** [round(0.4*avgFocus + 0.3*(100-avgStress) + min(emotionCount*5, 30))] *)
Definition wellnessScore (avgFocus avgStress : Z) (emotionCount : nat) : Z :=
  JS.Math_round
    (0.4 * JS.of_Z avgFocus + 0.3 * (100 - JS.of_Z avgStress)
     + JS.Math_min (JS.of_nat emotionCount * 5) 30).

(** [min(round(estimatedBreakSeconds / (totalStudySeconds*0.25) * 100), 100)]
    with [estimatedBreakSeconds = 0.2 * totalStudySeconds]. *)
Definition breakEfficiency (totalStudySeconds : Z) : Z :=
  let estimatedBreakSeconds := 0.2 * JS.of_Z totalStudySeconds in
  Z.min (JS.Math_round
           (estimatedBreakSeconds / (JS.of_Z totalStudySeconds * 0.25) * 100))
        100.

(** [completions / plannedSessionsInActiveSchedule], 0 if none planned. *)
Definition completionRate (completions planned : nat) : JS.number :=
  if (planned =? 0)%nat then 0 else JS.of_nat completions / JS.of_nat planned.

End ClaimedFormulas.

(** ** The all-sessions-complete check of the summary hook *)

Module SessionsCheck.

Import EndOfDaySummary.

(** The two queries of [checkAllSessionsComplete], as they settle.  The
    completions are the rows its filters let through: this user, this
    schedule, today's weekday name and today's date. *)
Record CheckQueries := {
  c_schedule : JS.response study_schedules.row;
  c_completions : JS.response (list schedule_session_completions.row)
}.

(** [(completions || []).filter(c => c.status === 'completed').length] *)
Definition completedCount
    (completions : option (list schedule_session_completions.row)) : nat :=
  List.length (List.filter
    (fun c => String.eqb (schedule_session_completions.status c) "completed")
    (JS.or_empty completions)).

(** [checkAllSessionsComplete]: [false] without a user, without an active
    schedule, without sessions planned today, and from the [catch] block. *)
Definition checkAllSessionsComplete (user : option string) (today : JS.Date)
    (q : CheckQueries) : bool :=
  match user with
  | None => false
  | Some _ =>
      match JS.await (c_schedule q) with
      | None => false
      | Some None => false
      | Some (Some schedule) =>
          match findTodayPlan (study_schedules.weekly_plan schedule)
                              (JS.weekdayLong today) with
          | Some {| study_schedules.sessions := Some planned |} =>
              if (List.length planned =? 0)%nat then false
              else
                let totalSessions := List.length planned in
                match JS.await (c_completions q) with
                | None => false
                | Some completions =>
                    (totalSessions <=? completedCount completions)%nat
                    && (0 <? totalSessions)%nat
                end
          | _ => false
          end
      end
  end.

End SessionsCheck.

(** ** The pages that read the weekly statistics *)

(** [src/pages/Wellbeing.tsx]: what the page derives from [stats]. *)
Module WellbeingPage.

Import useWellbeingStats.

Definition hasData (stats : WellbeingStats.t) : bool :=
  (0 <? List.length (WellbeingStats.moodTrends stats))%nat
  || (WellbeingStats.avgFocusLevel stats >? 0)%Z.

Definition focusInsightTitle (stats : WellbeingStats.t) : string :=
  if (WellbeingStats.avgFocusLevel stats >=? 70)%Z
  then "Great Focus!" else "Boost Your Focus".

Definition stressInsightTitle (stats : WellbeingStats.t) : string :=
  if (WellbeingStats.avgStressLevel stats <=? 40)%Z
  then "Low Stress" else "Manage Stress".

(** The value of a card: [None] stands for the dash shown in place of a
    number. *)
Definition wellnessValue (stats : WellbeingStats.t) : option Z :=
  if (WellbeingStats.wellnessScore stats >? 0)%Z
  then Some (WellbeingStats.wellnessScore stats) else None.

Definition wellnessSubtitle (stats : WellbeingStats.t) : string :=
  if (WellbeingStats.wellnessScore stats >=? 70)%Z then "Excellent"
  else if (WellbeingStats.wellnessScore stats >=? 50)%Z then "Good"
  else "Needs attention".

(** The three texts of the daily wellness tip. *)
Inductive Tip := breathing_technique | pomodoro_technique | keep_balance.

Definition dailyTip (stats : WellbeingStats.t) : Tip :=
  if (WellbeingStats.avgStressLevel stats >? 50)%Z then breathing_technique
  else if (WellbeingStats.avgFocusLevel stats <? 50)%Z then pomodoro_technique
  else keep_balance.

End WellbeingPage.

(** [src/pages/StudyTracker.tsx], the analytics page: what it derives from
    [weeklyAnalytics]. *)
Module AnalyticsPage.

Import useWellbeingStats.
Local Open Scope js_scope.

Definition hasData (weeklyAnalytics : WeeklyAnalytics.t) : bool :=
  (WeeklyAnalytics.totalStudyHours weeklyAnalytics >? 0%Q)
  || existsb (fun d => DailyBreakdown.studyHours d >? 0%Q)
             (WeeklyAnalytics.dailyBreakdown weeklyAnalytics).

End AnalyticsPage.

(** ** The study-session hook

    [useStudySession], kept in [src/hooks/useWellbeingStats.ts].  Its three
    callbacks are asynchronous; as for the summary hook, each runs to its
    [await] and resumes when the request settles.  The requests issued are
    logged.  A request resolves to [{ data, error }]: [Resolved (Some data)]
    without an error, [Resolved None] with one.

    The callbacks are created anew by every render.  [updateSession] and
    [endSession] read the [currentSession] of the render that created them,
    which is [captured] below, not the state at the time of the call; the ref
    is read when the callback runs. *)

Module useStudySession.

Record StudySession := {
  id : string;
  duration_seconds : option Z
}.

Inductive Request :=
  | insert_session                 (** [.insert({ user_id, login_timestamp })] *)
  | update_session (id : string)   (** [.update(updates).eq("id", id)] *)
  | close_session (id : string).   (** [.update({ logout_timestamp, ... }).eq("id", id)] *)

Inductive Task :=
  | create_awaits_insert
  | update_awaits_row
  | end_awaits_update.

Record Hook := {
  currentSession : option StudySession;
  isCreatingSession : bool;
  sessionCreatedRef : bool;
  requests : list Request;
  pending : list Task
}.

Definition initialHook : Hook :=
  {| currentSession := None; isCreatingSession := false;
     sessionCreatedRef := false; requests := []; pending := [] |}.

(** A request is sent and the callback suspends. *)
Definition send (r : Request) (t : Task) (h : Hook) : Hook :=
  {| currentSession := currentSession h;
     isCreatingSession := isCreatingSession h;
     sessionCreatedRef := sessionCreatedRef h;
     requests := requests h ++ [r];
     pending := pending h ++ [t] |}.

Definition createSession (user : option string) (h : Hook) : Hook :=
  match user with
  | None => h
  | Some _ =>
      if sessionCreatedRef h then h
      else
        send insert_session create_awaits_insert
          {| currentSession := currentSession h;
             isCreatingSession := true;
             sessionCreatedRef := true;
             requests := requests h;
             pending := pending h |}
  end.

Definition createSession_resume (r : JS.response StudySession) (h : Hook) : Hook :=
  match r with
  | JS.Resolved (Some data) =>
      {| currentSession := Some data; isCreatingSession := false;
         sessionCreatedRef := sessionCreatedRef h;
         requests := requests h; pending := pending h |}
  | _ =>
      {| currentSession := currentSession h; isCreatingSession := false;
         sessionCreatedRef := false;
         requests := requests h; pending := pending h |}
  end.

Definition updateSession (captured : option StudySession) (h : Hook) : Hook :=
  match captured with
  | None => h
  | Some s => send (update_session (id s)) update_awaits_row h
  end.

Definition updateSession_resume (r : JS.response StudySession) (h : Hook) : Hook :=
  match r with
  | JS.Resolved (Some data) =>
      {| currentSession := Some data;
         isCreatingSession := isCreatingSession h;
         sessionCreatedRef := sessionCreatedRef h;
         requests := requests h; pending := pending h |}
  | _ => h
  end.

Definition endSession (captured : option StudySession) (h : Hook) : Hook :=
  match captured with
  | None => h
  | Some s => send (close_session (id s)) end_awaits_update h
  end.

Definition endSession_resume (r : JS.response unit) (h : Hook) : Hook :=
  match r with
  | JS.Resolved (Some _) =>
      {| currentSession := None;
         isCreatingSession := isCreatingSession h;
         sessionCreatedRef := false;
         requests := requests h; pending := pending h |}
  | _ => h
  end.

(** What a request settles to. *)
Inductive Settled :=
  | row_result (r : JS.response StudySession)
  | done_result (r : JS.response unit).

Inductive Event :=
  | Create (user : option string)
  | Update (captured : option StudySession)
  | End_ (captured : option StudySession)
  | Settle (i : nat) (v : Settled).

Definition set_pending (p : list Task) (h : Hook) : Hook :=
  {| currentSession := currentSession h;
     isCreatingSession := isCreatingSession h;
     sessionCreatedRef := sessionCreatedRef h;
     requests := requests h; pending := p |}.

Definition resume (t : Task) (v : Settled) (h : Hook) : option Hook :=
  match t, v with
  | create_awaits_insert, row_result r => Some (createSession_resume r h)
  | update_awaits_row, row_result r => Some (updateSession_resume r h)
  | end_awaits_update, done_result r => Some (endSession_resume r h)
  | _, _ => None
  end.

Definition step (e : Event) (h : Hook) : Hook :=
  match e with
  | Create user => createSession user h
  | Update captured => updateSession captured h
  | End_ captured => endSession captured h
  | Settle i v =>
      match nth_error (pending h) i with
      | Some t =>
          match resume t v
                  (set_pending (EndOfDaySummary.remove_nth i (pending h)) h) with
          | Some h' => h'
          | None => h
          end
      | None => h
      end
  end.

Fixpoint run (trace : list Event) (h : Hook) : Hook :=
  match trace with
  | [] => h
  | e :: trace' => run trace' (step e h)
  end.

(** A call that is awaited before anything else happens: the callback, then
    the settling of its request.  [update_then] and [end_then] call the
    callback of the latest render, which has captured the present
    [currentSession]; [kept_update_then] and [kept_end_then] call a callback
    kept from a render in which [currentSession] was [captured]. *)
Inductive Call :=
  | create_then (user : option string) (r : JS.response StudySession)
  | update_then (r : JS.response StudySession)
  | end_then (r : JS.response unit)
  | kept_update_then (captured : option StudySession) (r : JS.response StudySession)
  | kept_end_then (captured : option StudySession) (r : JS.response unit).

Definition events_of (c : Call) (h : Hook) : list Event :=
  match c with
  | create_then user r => [Create user; Settle 0 (row_result r)]
  | update_then r => [Update (currentSession h); Settle 0 (row_result r)]
  | end_then r => [End_ (currentSession h); Settle 0 (done_result r)]
  | kept_update_then captured r => [Update captured; Settle 0 (row_result r)]
  | kept_end_then captured r => [End_ captured; Settle 0 (done_result r)]
  end.

Fixpoint perform (calls : list Call) (h : Hook) : Hook :=
  match calls with
  | [] => h
  | c :: calls' => perform calls' (run (events_of c h) h)
  end.

(** The call uses a callback of the latest render. *)
Definition latest (c : Call) : bool :=
  match c with
  | create_then _ _ | update_then _ | end_then _ => true
  | kept_update_then _ _ | kept_end_then _ _ => false
  end.

(** What an awaited [updateSession] and an awaited [endSession] do, by the
    session their render captured. *)
Definition updated (captured : option StudySession) (r : JS.response StudySession)
    (h : Hook) : Hook :=
  match captured with
  | None => h
  | Some s =>
      updateSession_resume r
        {| currentSession := currentSession h;
           isCreatingSession := isCreatingSession h;
           sessionCreatedRef := sessionCreatedRef h;
           requests := requests h ++ [update_session (id s)];
           pending := [] |}
  end.

Definition ended (captured : option StudySession) (r : JS.response unit)
    (h : Hook) : Hook :=
  match captured with
  | None => h
  | Some s =>
      endSession_resume r
        {| currentSession := currentSession h;
           isCreatingSession := isCreatingSession h;
           sessionCreatedRef := sessionCreatedRef h;
           requests := requests h ++ [close_session (id s)];
           pending := [] |}
  end.

Definition inserts (l : list Request) : nat :=
  List.length (List.filter
    (fun r => match r with insert_session => true | _ => false end) l).

(** Nothing in flight, and the guard set exactly when a session is open. *)
Definition settled (h : Hook) : Prop :=
  pending h = []
  /\ isCreatingSession h = false
  /\ (sessionCreatedRef h = true <-> currentSession h <> None).

Definition ends_session (c : Call) : bool :=
  match c with
  | end_then (JS.Resolved (Some _)) => true
  | kept_end_then (Some _) (JS.Resolved (Some _)) => true
  | _ => false
  end.

End useStudySession.

(** ** Replies of the model gateway wrapped in a code fence *)

Module Markdown.

Import generate_schedule.

Fixpoint has_backquote (s : string) : bool :=
  match s with
  | EmptyString => false
  | String c s' => Ascii.eqb c "`" || has_backquote s'
  end.

Definition line_end : string := String newline EmptyString.

(** The text between a fence that opens with [opening] and the closing
    fence, each on a line of its own. *)
Definition fenced (opening text : string) : string :=
  String.append opening
    (String.append line_end
       (String.append text (String.append line_end fence))).

(** A request that gets as far as the gateway. *)
Definition well_formed (req : Request) (LOVABLE_API_KEY : option string) : Prop :=
  method req <> "OPTIONS"%string
  /\ (exists body l, json req = returned body /\ subjects body = elements (map Some l))
  /\ (exists c k, LOVABLE_API_KEY = Some (String c k)).

End Markdown.

(** ** Counting labels, and lists in descending order *)

Module Tally.

(** The number of occurrences of a label. *)
Definition occurrences (k : string) (labels : list string) : nat :=
  List.length (List.filter (String.eqb k) labels).

(** Each element is at least as large as every later one. *)
Fixpoint descending (l : list Q) : Prop :=
  match l with
  | [] => True
  | x :: l' => (forall y, In y l' -> (y <= x)%Q) /\ descending l'
  end.

Fixpoint total (l : list Q) : Q :=
  match l with
  | [] => 0%Q
  | x :: l' => (x + total l')%Q
  end.

(** The label a mood trend counts: [e.mood || e.emotion]. *)
Definition mood_label (e : emotion_logs.row) : string :=
  match emotion_logs.mood e with
  | Some m => if JS.truthyS (Some m) then m else emotion_logs.emotion e
  | None => emotion_logs.emotion e
  end.

(** The levels of a log lie on the sliders' scale. *)
Definition in_scale (lo hi : Z) (v : option Z) : Prop :=
  match v with
  | Some z => (lo <= z <= hi)%Z
  | None => True
  end.

End Tally.

(** ** The same computations with their numbers in binary64

    Where a result depends on how a quotient, a product or a sum is rounded,
    exact arithmetic and the program part: [Math.round((23 / 40) * 100)] is
    57 in the language and 58 in exact arithmetic, and
    [(8640 / 3600) >= 3 * 0.8] is false in the language.  This part reads the
    numbers of those computations as IEEE 754 binary64 values, with the
    operations of the primitive floats (round to nearest, ties to even, as in
    the language).  Array lengths and integer columns stay [nat] and [Z] and
    are converted where the code divides or multiplies them. *)

Module Binary64.

Import Floats.
#[local] Set Warnings "-inexact-float".

Declare Scope b64_scope.
Delimit Scope b64_scope with b64.

Definition number := float.

(** An integer as a number: the nearest binary64 value (the integer itself
    up to 2^53), by the conversion of the machine where the integer fits 63
    bits. *)
Definition of_Z (z : Z) : number :=
  if (0 <=? z)%Z && (z <? 2 ^ 63)%Z then PrimFloat.of_uint63 (Uint63.of_Z z)
  else if (- 2 ^ 63 <? z)%Z && (z <? 0)%Z
       then PrimFloat.opp (PrimFloat.of_uint63 (Uint63.of_Z (- z)))
       else SF2Prim (binary_normalize prec emax z 0 false).
Definition of_nat (n : nat) : number := of_Z (Z.of_nat n).

(** Relational operators: each is [false] when an operand is [NaN]. *)
Definition lt (x y : number) : bool := PrimFloat.ltb x y.
Definition le (x y : number) : bool := PrimFloat.leb x y.
Definition gt (x y : number) : bool := PrimFloat.ltb y x.
Definition ge (x y : number) : bool := PrimFloat.leb y x.
Definition strict_eq (x y : number) : bool := PrimFloat.eqb x y.

(** [!Number.isNaN(x)] *)
Definition is_number (x : number) : bool := PrimFloat.eqb x x.

(** [Math.round] of a finite number [n * 2^e], as an integer:
    [floor(n * 2^e + 1/2)], the nearest integer, a tie going to the larger
    one; for [e < 0] this is [(2 * n + 2^(-e))] shifted right by [1 - e].  The code rounds quotients of array lengths and of integer columns,
    which are finite; [Math.round] leaves [NaN] and the infinities as they
    are, and no integer stands for them (the model gives 0 there, as for a
    zero). *)
Definition Math_round (x : number) : Z :=
  match Prim2SF x with
  | S754_finite s m e =>
      let n := if s then Z.neg m else Z.pos m in
      if (0 <=? e)%Z then Z.shiftl n e
      else Z.shiftr (2 * n + Z.shiftl 1 (- e)) (1 - e)
  | _ => 0
  end.

(** [Math.min(x, y)]: [NaN] if an operand is [NaN], the smaller operand
    otherwise (zeros of either sign are not told apart). *)
Definition Math_min (x y : number) : number :=
  if is_number x && is_number y then (if lt y x then y else x) else nan.

(** The rational a finite number denotes. *)
Definition to_Q (x : number) : option Q :=
  match Prim2SF x with
  | S754_zero _ => Some 0%Q
  | S754_finite s m e =>
      Some (inject_Z (if s then Z.neg m else Z.pos m) * Qpower 2 e)%Q
  | S754_infinity _ | S754_nan => None
  end.

(** [x.toFixed(1)]: the digits are chosen for the value the number denotes. *)
Definition toFixed1 (x : number) : string :=
  match Prim2SF x with
  | S754_nan => "NaN"
  | S754_infinity s => if s then "-Infinity" else "Infinity"
  | _ => match to_Q x with Some q => JS.toFixed1 q | None => "" end
  end.

Notation "x <? y" := (lt x y) : b64_scope.
Notation "x <=? y" := (le x y) : b64_scope.
Notation "x >? y" := (gt x y) : b64_scope.
Notation "x >=? y" := (ge x y) : b64_scope.
Notation "x =? y" := (strict_eq x y) : b64_scope.
Notation "x * y" := (PrimFloat.mul x y) : b64_scope.
Notation "x / y" := (PrimFloat.div x y) : b64_scope.
Notation "x + y" := (PrimFloat.add x y) : b64_scope.
Notation "x - y" := (PrimFloat.sub x y) : b64_scope.

(** *** The classifier *)

Module Summary.

Import EndOfDaySummary.
Local Open Scope b64_scope.

(** The feature tuple, its four measures as numbers. *)
Record BaseData := {
  studyHours : number;
  goalHours : number;
  completedSessions : nat;
  totalSessions : nat;
  dominantEmotion : option string;
  avgFocus : number;
  avgStress : number;
  emotionCount : nat
}.

Definition generateMessage (data : BaseData) : Message :=
  let '{| studyHours := studyHours; goalHours := goalHours;
          completedSessions := completedSessions; totalSessions := totalSessions;
          dominantEmotion := dominantEmotion; avgFocus := avgFocus;
          avgStress := avgStress; emotionCount := emotionCount |} := data in
  let completionRate : number :=
    if (0 <? totalSessions)%nat
    then of_nat completedSessions / of_nat totalSessions else 0%float in
  let goalReached : bool :=
    if goalHours >? 0%float then studyHours >=? goalHours * 0.8%float
    else studyHours >? 0%float in
  let isStressed := avgStress >=? 7%float in
  let isFocused := avgFocus >=? 6%float in
  let hasEmotionData := (0 <? emotionCount)%nat in
  if isStressed && (completionRate <? 0.5%float) then
    {| state := stressed;
       message := template
         [ "Today felt heavy, and that's okay. You showed up despite the stress, and that takes real courage. ";
           if studyHours >? 0%float
           then template ["You still put in "; toFixed1 studyHours; " hours of effort."]
           else "Sometimes rest is the most productive choice." ]%string;
       closingLine := "Tomorrow is a fresh start. Be gentle with yourself tonight. 🌙" |}
  else if (completionRate >=? 0.8%float) && goalReached then
    {| state := proud;
       message := template
         [ "What an amazing day! You completed "; JS.string_of_nat completedSessions;
           " of "; JS.string_of_nat totalSessions; " sessions and studied for ";
           toFixed1 studyHours; " hours. Your dedication really shows." ]%string;
       closingLine := "You should feel proud of yourself. Rest well, champion! ⭐" |}
  else if (completionRate >=? 0.6%float) && isFocused then
    {| state := motivated;
       message := template
         [ "Great focus today! You maintained strong concentration throughout your ";
           toFixed1 studyHours; " hours of study. ";
           if (0 <? completedSessions)%nat
           then template ["Completed "; JS.string_of_nat completedSessions; " sessions with purpose."]
           else "" ]%string;
       closingLine := "Keep this momentum going! You're on a great path. 🚀" |}
  else if (studyHours >? 0%float) && (completionRate <? 0.5%float) && negb isStressed then
    {| state := tired_but_consistent;
       message := template
         [ "You might not have hit every goal today, but you showed up. ";
           toFixed1 studyHours;
           " hours of effort is still progress. Consistency matters more than perfection." ]%string;
       closingLine := "Every step forward counts. Sleep well and recharge. 💪" |}
  else if (studyHours =? 0%float) && hasEmotionData then
    {| state := recovering;
       message := template
         [ "Today was a rest day, and that's perfectly valid. Your emotions tell a story, and sometimes we need to pause. ";
           match dominantEmotion with
           | Some e =>
               if JS.truthyS dominantEmotion
               then template ["Feeling "; dquote; e; dquote; " is part of your journey."]
               else ""
           | None => ""
           end ]%string;
       closingLine := "Rest is part of growth. Tomorrow awaits with new energy. 🌱" |}
  else if (completionRate <? 0.3%float) && (goalHours >? 0%float) then
    {| state := discouraged;
       message := "Today didn't go as planned, but setbacks don't define you. You're still here, still trying. That resilience is what matters most.";
       closingLine := "One tough day doesn't erase your progress. You've got this. 💜" |}
  else if (studyHours >? 0%float) && negb hasEmotionData then
    {| state := strong_start;
       message := template
         [ "You put in "; toFixed1 studyHours; " hours of study today. ";
           if (0 <? completedSessions)%nat
           then template ["Completed "; JS.string_of_nat completedSessions; " sessions."]
           else "";
           " Nice work showing up for yourself!" ]%string;
       closingLine := "Keep building those habits! You're doing great. ✨" |}
  else
    {| state := balanced;
       message := template
         [ "Today was a balanced day. ";
           if studyHours >? 0%float
           then template ["You studied for "; toFixed1 studyHours; " hours"]
           else "You took time for yourself";
           if hasEmotionData then " and checked in with your feelings" else "";
           ". That's healthy progress." ]%string;
       closingLine := "Balance is the key to long-term success. Well done! 🌟" |}.

(** The study time and the goal of the tuple, as [fetchDaySummary] computes
    them from the seconds studied ([... / 3600]) and from the minutes planned
    for the day ([... / 60]). *)
Definition studyHours_of (totalSeconds : Z) : number := of_Z totalSeconds / 3600%float.
Definition goalHours_of (totalMinutes : Z) : number := of_Z totalMinutes / 60%float.

(** The values a tuple of finite numbers holds, as a tuple of the exact
    model. *)
Definition denotation (d : BaseData) : option EndOfDaySummary.BaseData :=
  match to_Q (studyHours d), to_Q (goalHours d), to_Q (avgFocus d), to_Q (avgStress d) with
  | Some sh, Some gh, Some af, Some ast =>
      Some {| EndOfDaySummary.studyHours := sh;
              EndOfDaySummary.goalHours := gh;
              EndOfDaySummary.completedSessions := completedSessions d;
              EndOfDaySummary.totalSessions := totalSessions d;
              EndOfDaySummary.dominantEmotion := dominantEmotion d;
              EndOfDaySummary.avgFocus := af;
              EndOfDaySummary.avgStress := ast;
              EndOfDaySummary.emotionCount := emotionCount d |}
  | _, _, _, _ => None
  end.

End Summary.

(** The decision table of the summary as the specification words it, its
    comparisons and its arithmetic those of the language. *)
Module Table.

Import EndOfDaySummary Summary.
Local Open Scope b64_scope.

(** [completedSessions / totalSessions], 0 if [totalSessions == 0]. *)
Definition completionRate (d : BaseData) : number :=
  if (totalSessions d =? 0)%nat then 0%float
  else of_nat (completedSessions d) / of_nat (totalSessions d).

(** [studyHours >= 0.8 * goalHours] if [goalHours > 0], else [studyHours > 0]. *)
Definition goalReached (d : BaseData) : bool :=
  if goalHours d >? 0%float then studyHours d >=? 0.8%float * goalHours d
  else studyHours d >? 0%float.

(** The eight rows, in order; [calm] is the third test of row 4. *)
Definition table (calm : BaseData -> bool) : list ((BaseData -> bool) * State) :=
  [ (fun d => (avgStress d >=? 7%float) && (completionRate d <? 0.5%float), stressed);
    (fun d => (completionRate d >=? 0.8%float) && goalReached d, proud);
    (fun d => (completionRate d >=? 0.6%float) && (avgFocus d >=? 6%float), motivated);
    (fun d => (studyHours d >? 0%float) && (completionRate d <? 0.5%float) && calm d,
     tired_but_consistent);
    (fun d => (studyHours d =? 0%float) && (0 <? emotionCount d)%nat, recovering);
    (fun d => (completionRate d <? 0.3%float) && (goalHours d >? 0%float), discouraged);
    (fun d => (studyHours d >? 0%float) && (emotionCount d =? 0)%nat, strong_start);
    (fun _ => true, balanced) ].

(** Row 4 as the specification words it: [avgStress < 7]. *)
Definition rows : list ((BaseData -> bool) * State) :=
  table (fun d => avgStress d <? 7%float).

(** Row 4 with the test turned around: [avgStress >= 7] does not hold. *)
Definition rows_not_stressed : list ((BaseData -> bool) * State) :=
  table (fun d => negb (avgStress d >=? 7%float)).

End Table.

(** *** The weekly statistics *)

Module Stats.

Import useWellbeingStats.
Local Open Scope b64_scope.

Definition wellnessScore (avgFocusLevel avgStressLevel : Z) (emotionCount : nat) : Z :=
  let focusContrib := of_Z avgFocusLevel * 0.4%float in
  let stressContrib := (100%float - of_Z avgStressLevel) * 0.3%float in
  let consistencyContrib := Math_min (of_nat emotionCount * 5%float) 30%float in
  Math_round (focusContrib + stressContrib + consistencyContrib).

Definition completionRate (completionsList : list schedule_session_completions.row)
    (schedule : option study_schedules.row) : Z :=
  let plannedSessions := plannedSessions schedule in
  if (0 <? plannedSessions)%nat
  then Math_round
         (of_nat (List.length completionsList) / of_nat plannedSessions * 100%float)
  else 0%Z.

(** [counts[k] = (counts[k] || 0) + 1], the counts kept as whole numbers. *)
Definition count_up (counts : JS.Obj nat) (k : string) : JS.Obj nat :=
  JS.obj_set counts k
    (match JS.obj_get counts k with Some v => v | None => 0%nat end + 1)%nat.

(** An object that holds, for each label seen, the whole number of times it
    was seen. *)
Definition counts (o : JS.Obj nat) (labels : list string) : Prop :=
  List.NoDup (map fst o)
  /\ forall k,
       match JS.obj_get o k with
       | Some v => v = Tally.occurrences k labels /\ (0 < v)%nat
       | None => Tally.occurrences k labels = 0%nat
       end.

(** The percentages are whole numbers, so that the comparator of the sort,
    [b.percentage - a.percentage], is exact. *)
Definition emotionDistribution (emotionsList : list emotion_logs.row)
    : list EmotionShare.t :=
  let emotionCounts :=
    fold_left (fun counts e => count_up counts (emotion_logs.emotion e))
              emotionsList [] in
  let totalEmotions :=
    if (0 <? List.length emotionsList)%nat then List.length emotionsList else 1%nat in
  JS.Array_sort
    (fun a b => (JS.of_Z (EmotionShare.percentage b)
                 - JS.of_Z (EmotionShare.percentage a))%Q)
    (map (fun '(emotion, count) =>
            {| EmotionShare.emotion := emotion;
               EmotionShare.percentage :=
                 Math_round (of_nat count / of_nat totalEmotions * 100%float) |})
         emotionCounts).

End Stats.

(** *** What is checked number by number

    The rounding of a quotient or of a sum has no closed form; on the ranges
    below the results are computed and compared with the exactly rounded
    value, one input after the other. *)

Module Range.

Local Open Scope b64_scope.

(** [P] holds for the [n] integers from [z] on. *)
Fixpoint all_from (n : nat) (z : Z) (P : Z -> bool) : bool :=
  match n with
  | O => true
  | S n' => P z && all_from n' (z + 1)%Z P
  end.

(** [Math.round((count / total) * 100)] is not negative, and it is the
    exactly rounded percentage [floor((200 * count + total) / (2 * total))],
    or one less where the exact percentage is a tie. *)
Definition percentage_near (count total : Z) : bool :=
  let r := Math_round (of_Z count / of_Z total * 100%float) in
  let exact := ((200 * count + total) / (2 * total))%Z in
  ((0 <=? r) && (exact - 1 <=? r) && (r <=? exact)
   && (((200 * count) mod (2 * total) =? total) || (r =? exact)))%Z.

(** The same for the sum of the three contributions of the wellness score,
    the third being the whole number [m]. *)
Definition wellnessScore_near (f s m : Z) : bool :=
  let r := Math_round (of_Z f * 0.4%float + (100%float - of_Z s) * 0.3%float + of_Z m) in
  let exact := ((4 * f - 3 * s + 305 + 10 * m) / 10)%Z in
  ((exact - 1 <=? r) && (r <=? exact)
   && (((4 * f - 3 * s) mod 10 =? 5) || (r =? exact)))%Z.

(** [Math.min(n * 5, 30)] is the whole number [min(5 * n, 30)]. *)
Definition consistency_exact (n : Z) : bool :=
  PrimFloat.Leibniz.eqb (Math_min (of_Z n * 5%float) 30%float)
                        (of_Z (Z.min (5 * n) 30)).

End Range.


(** *** The formulas of the statistics, as the specification words them *)

Module Claimed.

Local Open Scope b64_scope.

(** [round(0.4*avgFocus + 0.3*(100-avgStress) + min(emotionCount*5, 30))],
    evaluated in the language. *)
Definition wellnessScore (avgFocus avgStress : Z) (emotionCount : nat) : Z :=
  Math_round
    (0.4%float * of_Z avgFocus + 0.3%float * (100%float - of_Z avgStress)
     + Math_min (of_nat emotionCount * 5%float) 30%float).

(** The exact value of the formula, [(4*avgFocus - 3*avgStress + 300) / 10]
    plus a whole number, lies halfway between two whole numbers. *)
Definition wellnessScore_tie (avgFocus avgStress : Z) : Prop :=
  ((4 * avgFocus - 3 * avgStress) mod 10 = 5)%Z.

(** The exact percentage [100 * count / total] lies halfway between two
    whole numbers. *)
Definition percentage_tie (count total : nat) : Prop :=
  ((200 * Z.of_nat count) mod (2 * Z.of_nat total) = Z.of_nat total)%Z.

End Claimed.

End Binary64.

(** * Sample data *)

Module Samples.

Module Day.

Import EndOfDaySummary.
Local Open Scope Q_scope.

(** Two tuples that hold the same values, written with different fractions. *)
Definition half_hour_day : BaseData :=
  {| studyHours := 1 # 2; goalHours := 3; completedSessions := 1;
     totalSessions := 4; dominantEmotion := Some "calm"%string;
     avgFocus := 5; avgStress := 3; emotionCount := 2 |}.

Definition half_hour_day' : BaseData :=
  {| studyHours := 2 # 4; goalHours := 6 # 2; completedSessions := 1;
     totalSessions := 4; dominantEmotion := Some "calm"%string;
     avgFocus := 10 # 2; avgStress := 3; emotionCount := 2 |}.

Definition noon : JS.Date :=
  {| JS.getHours := 12; JS.getDay := 1; JS.isoDate := "2025-12-08";
     JS.weekdayLong := "Monday" |}.

Definition bare_log : emotion_logs.row :=
  {| emotion_logs.emotion := "calm"; emotion_logs.mood := None;
     emotion_logs.focus_level := None; emotion_logs.stress_level := None;
     emotion_logs.created_at := noon |}.

Definition evening : JS.Date :=
  {| JS.getHours := 20; JS.getDay := 1; JS.isoDate := "2025-12-08";
     JS.weekdayLong := "Monday" |}.

Definition a_summary : DaySummary :=
  {| base := half_hour_day;
     result := generateMessage half_hour_day |}.

(** An evening on which both evaluations start at the mount and all planned
    sessions are complete: the time evaluation fetches its summary first and
    shows it, the dialog is dismissed, and the completion evaluation, which
    passed its guards at the mount, fetches its summary afterwards. *)
Definition overlapping_evening : list Event :=
  [ Mount evening;
    Settle 0 (check_result true);
    Settle 0 (summary_result (Some a_summary));
    Dismiss evening;
    Settle 0 (summary_result (Some a_summary)) ].

(** An evening on which the interval fires twice before the dialog is
    dismissed, and once more afterwards. *)
Definition tick_twice : list Event :=
  [ Tick evening;
    Settle 0 (summary_result (Some a_summary));
    Tick evening;
    Settle 0 (summary_result (Some a_summary));
    Dismiss evening;
    Tick evening ].

(** Three days of the kinds the specification lists. *)
Definition stressed_day : BaseData :=
  {| studyHours := 1; goalHours := 5; completedSessions := 3;
     totalSessions := 10; dominantEmotion := Some "fear"%string;
     avgFocus := 9; avgStress := 8; emotionCount := 4 |}.

Definition proud_day : BaseData :=
  {| studyHours := 3; goalHours := 3; completedSessions := 5;
     totalSessions := 5; dominantEmotion := None;
     avgFocus := 5; avgStress := 3; emotionCount := 0 |}.

Definition rest_day : BaseData :=
  {| studyHours := 0; goalHours := 2; completedSessions := 0;
     totalSessions := 2; dominantEmotion := Some "calm"%string;
     avgFocus := 5; avgStress := 3; emotionCount := 3 |}.

(** A Monday 15:00 and the same Monday 20:00 in a time zone five hours
    behind UTC: by 20:00 local time the UTC date is Tuesday's. *)
Definition monday_afternoon : JS.Date :=
  {| JS.getHours := 15; JS.getDay := 1; JS.isoDate := "2025-12-08";
     JS.weekdayLong := "Monday" |}.

Definition monday_evening_west : JS.Date :=
  {| JS.getHours := 20; JS.getDay := 1; JS.isoDate := "2025-12-09";
     JS.weekdayLong := "Monday" |}.

Definition dismissed_before_utc_midnight : list Event :=
  [ Completion monday_afternoon;
    Settle 0 (check_result true);
    Settle 0 (summary_result (Some a_summary));
    Dismiss monday_afternoon;
    Tick monday_evening_west;
    Settle 0 (summary_result (Some a_summary)) ].

End Day.

Module Week.

Import useWellbeingStats.

Definition planned_session : study_schedules.session :=
  {| study_schedules.duration := Some 45%Z |}.

Definition four_session_schedule : study_schedules.row :=
  {| study_schedules.id := "schedule-1";
     study_schedules.weekly_plan :=
       Some [ {| study_schedules.day := "Monday";
                 study_schedules.sessions :=
                   Some [planned_session; planned_session] |};
              {| study_schedules.day := "Tuesday";
                 study_schedules.sessions :=
                   Some [planned_session; planned_session] |} ] |}.

Definition one_completion : list schedule_session_completions.row :=
  [ {| schedule_session_completions.status := "completed";
       schedule_session_completions.subject := "Algebra";
       schedule_session_completions.duration_seconds := 2700;
       schedule_session_completions.created_at := Day.noon |} ].

(** Every query failed: each resolves to [{ data: null, error }]. *)
Definition failed_queries : WeekQueries :=
  {| q_emotions := JS.Resolved None; q_sessions := JS.Resolved None;
     q_completions := JS.Resolved None; q_schedule := JS.Resolved None |}.

End Week.

Module Gateway.

(** A request with a key and subjects, a toy parser, and a gateway that is
    busy at the first call and would answer well at a second one. *)
Definition toy_parse (s : string) : generate_schedule.attempt unit :=
  if String.eqb s "{}" then generate_schedule.returned tt
  else generate_schedule.threw "Unexpected token in JSON".

Definition post_request : generate_schedule.Request :=
  {| generate_schedule.method := "POST";
     generate_schedule.json :=
       generate_schedule.returned
         {| generate_schedule.subjects :=
              generate_schedule.elements
                [ Some {| generate_schedule.name := "Algebra";
                          generate_schedule.hoursPerWeek := "4";
                          generate_schedule.deadline := None |} ];
            generate_schedule.instituteTimetable := None;
            generate_schedule.personalEvents := None;
            generate_schedule.startDate := None;
            generate_schedule.endDate := None |} |}.

Definition busy_then_fine (n : nat) : generate_schedule.attempt generate_schedule.Reply :=
  match n with
  | O => generate_schedule.returned
           {| generate_schedule.reply_status := 429;
              generate_schedule.reply_text := generate_schedule.returned "busy";
              generate_schedule.reply_content := generate_schedule.threw "no content" |}
  | S _ => generate_schedule.returned
             {| generate_schedule.reply_status := 200;
                generate_schedule.reply_text := generate_schedule.returned "{}";
                generate_schedule.reply_content := generate_schedule.returned "{}" |}
  end.

End Gateway.

End Samples.

(** Data for the further properties: a week of logs and sessions, a day with
    its plan completed, a fenced reply of the gateway, and a session row. *)
Module Cases.

Import Samples.Day Samples.Week Samples.Gateway.

Definition tuesday : JS.Date :=
  {| JS.getHours := 9; JS.getDay := 2; JS.isoDate := "2025-12-09";
     JS.weekdayLong := "Tuesday" |}.

Definition log (emotion : string) (focus stress : Z) (at_ : JS.Date)
    : emotion_logs.row :=
  {| emotion_logs.emotion := emotion; emotion_logs.mood := None;
     emotion_logs.focus_level := Some focus;
     emotion_logs.stress_level := Some stress;
     emotion_logs.created_at := at_ |}.

Definition three_logs : list emotion_logs.row :=
  [ log "calm" 7 3 noon; log "tense" 4 8 noon; log "calm" 8 4 tuesday ].

Definition two_sessions : list study_sessions.row :=
  [ {| study_sessions.duration_seconds := Some 1500%Z;
       study_sessions.created_at := tuesday |};
    {| study_sessions.duration_seconds := Some 300%Z;
       study_sessions.created_at := noon |} ].

Definition completion (status : string) : schedule_session_completions.row :=
  {| schedule_session_completions.status := status;
     schedule_session_completions.subject := "Algebra";
     schedule_session_completions.duration_seconds := 2700;
     schedule_session_completions.created_at := noon |}.

(** Monday's two planned sessions, both completed, and a skipped one. *)
Definition monday_completions : list schedule_session_completions.row :=
  [ completion "completed"; completion "skipped"; completion "completed" ].

Definition keep_all (c : schedule_session_completions.row) : bool := true.

(** A schedule whose weekly plan has no entry for Monday. *)
Definition tuesday_only_schedule : study_schedules.row :=
  {| study_schedules.id := "schedule-2";
     study_schedules.weekly_plan :=
       Some [ {| study_schedules.day := "Tuesday";
                 study_schedules.sessions := Some [planned_session] |} ] |}.

Definition fenced_reply : generate_schedule.Reply :=
  {| generate_schedule.reply_status := 200;
     generate_schedule.reply_text := generate_schedule.returned "";
     generate_schedule.reply_content :=
       generate_schedule.returned
         (Markdown.fenced generate_schedule.json_fence "{}") |}.

Definition a_session : useStudySession.StudySession :=
  {| useStudySession.id := "session-1";
     useStudySession.duration_seconds := None |}.

Definition an_update : useStudySession.StudySession :=
  {| useStudySession.id := "session-1";
     useStudySession.duration_seconds := Some 600%Z |}.

(** The hook with a session open and nothing in flight. *)
Definition open_hook : useStudySession.Hook :=
  {| useStudySession.currentSession := Some a_session;
     useStudySession.isCreatingSession := false;
     useStudySession.sessionCreatedRef := true;
     useStudySession.requests := [useStudySession.insert_session];
     useStudySession.pending := [] |}.

End Cases.

(** Data for the computations in binary64. *)
Module Doubles.

Import Samples.Week.
Local Open Scope Z_scope.

(** A day of [seconds] studied against [minutes] planned, its three planned
    sessions completed, without emotion logs: the tuple in binary64 and in
    the exact model. *)
Definition studied (seconds minutes : Z) : Binary64.Summary.BaseData :=
  {| Binary64.Summary.studyHours := Binary64.Summary.studyHours_of seconds;
     Binary64.Summary.goalHours := Binary64.Summary.goalHours_of minutes;
     Binary64.Summary.completedSessions := 3;
     Binary64.Summary.totalSessions := 3;
     Binary64.Summary.dominantEmotion := None;
     Binary64.Summary.avgFocus := Binary64.of_Z 5;
     Binary64.Summary.avgStress := Binary64.of_Z 3;
     Binary64.Summary.emotionCount := 0 |}.

Definition studied_exactly (seconds minutes : Z) : EndOfDaySummary.BaseData :=
  {| EndOfDaySummary.studyHours := (JS.of_Z seconds / 3600)%Q;
     EndOfDaySummary.goalHours := (JS.of_Z minutes / 60)%Q;
     EndOfDaySummary.completedSessions := 3;
     EndOfDaySummary.totalSessions := 3;
     EndOfDaySummary.dominantEmotion := None;
     EndOfDaySummary.avgFocus := 5%Q;
     EndOfDaySummary.avgStress := 3%Q;
     EndOfDaySummary.emotionCount := 0 |}.

(** Two hours studied without a plan, by a tuple whose stress average is not
    a number. *)
Definition stress_unknown : Binary64.Summary.BaseData :=
  {| Binary64.Summary.studyHours := Binary64.of_Z 2;
     Binary64.Summary.goalHours := Binary64.of_Z 0;
     Binary64.Summary.completedSessions := 0;
     Binary64.Summary.totalSessions := 0;
     Binary64.Summary.dominantEmotion := None;
     Binary64.Summary.avgFocus := Binary64.of_Z 5;
     Binary64.Summary.avgStress := PrimFloat.nan;
     Binary64.Summary.emotionCount := 0 |}.

(** [n] completion records, and a schedule of five days of eight sessions. *)
Definition completions (n : nat) : list schedule_session_completions.row :=
  repeat {| schedule_session_completions.status := "completed";
            schedule_session_completions.subject := "Algebra";
            schedule_session_completions.duration_seconds := 2700;
            schedule_session_completions.created_at := Samples.Day.noon |} n.

Definition forty_session_schedule : study_schedules.row :=
  {| study_schedules.id := "schedule-3";
     study_schedules.weekly_plan :=
       Some (repeat {| study_schedules.day := "Monday";
                       study_schedules.sessions := Some (repeat planned_session 8) |}
                    5) |}.

(** [n] logs of the emotion [emotion]. *)
Definition logs (emotion : string) (n : nat) : list emotion_logs.row :=
  repeat {| emotion_logs.emotion := emotion; emotion_logs.mood := None;
            emotion_logs.focus_level := None; emotion_logs.stress_level := None;
            emotion_logs.created_at := Samples.Day.noon |} n.

End Doubles.

(** Traces of the summary hook across mounts. *)
Module Evenings.

Import EndOfDaySummary Mounts Samples.Day.

(** The overlapping evening of one mount, and the day on which the dialog
    is dismissed before the UTC date changes. *)
Definition overlapping : list Mounts.Event := map On overlapping_evening.

Definition across_utc_midnight : list Mounts.Event :=
  map On dismissed_before_utc_midnight.

(** An evening on which the page is left while the dialog is open, and
    entered again: the interval fires and the summary is shown; the
    component is removed and mounted again, and the time evaluation of the
    new mount, which finds no stored date, shows the summary again. *)
Definition left_open : list Mounts.Event :=
  [ On (Tick evening);
    On (Settle 0 (summary_result (Some a_summary)));
    Remount evening;
    On (Settle 1 (summary_result (Some a_summary))) ].

(** An evening with a dismissal between two mounts, and an evaluation of
    the first mount that resumes after the second mount has begun. *)
Definition dismissed_then_remounted : list Mounts.Event :=
  [ On (Mount evening);
    On (Settle 1 (summary_result (Some a_summary)));
    On (Settle 0 (check_result false));
    On (Dismiss evening);
    On (Completion evening);
    Remount evening;
    Behind 0 (Completion evening);
    On (Tick evening) ].

End Evenings.

(** * Properties *)

(** ** Numbers *)

Section Numbers.

Local Open Scope Q_scope.

Lemma lt_iff (x y : Q) : JS.lt x y = true <-> x < y.
Proof.
  unfold JS.lt. rewrite Qlt_alt.
  destruct (x ?= y); split; congruence.
Qed.

Lemma le_iff (x y : Q) : JS.le x y = true <-> x <= y.
Proof.
  unfold JS.le. rewrite Qle_alt.
  destruct (x ?= y); split; congruence.
Qed.

Lemma strict_eq_iff (x y : Q) : JS.strict_eq x y = true <-> x == y.
Proof.
  unfold JS.strict_eq. rewrite Qeq_alt.
  destruct (x ?= y); split; congruence.
Qed.

(** [!(x >= y)] is [x < y]: the order on numbers is total. *)
Lemma not_ge_lt (x y : Q) : negb (JS.ge x y) = JS.lt x y.
Proof.
  unfold JS.ge, JS.le, JS.lt.
  rewrite <- (Qcompare_antisym x y).
  destruct (x ?= y); reflexivity.
Qed.

#[export] Instance lt_proper : Proper (Qeq ==> Qeq ==> eq) JS.lt.
Proof. intros x x' Hx y y' Hy. unfold JS.lt. now rewrite Hx, Hy. Qed.

#[export] Instance le_proper : Proper (Qeq ==> Qeq ==> eq) JS.le.
Proof. intros x x' Hx y y' Hy. unfold JS.le. now rewrite Hx, Hy. Qed.

#[export] Instance gt_proper : Proper (Qeq ==> Qeq ==> eq) JS.gt.
Proof. intros x x' Hx y y' Hy. unfold JS.gt. now rewrite Hx, Hy. Qed.

#[export] Instance ge_proper : Proper (Qeq ==> Qeq ==> eq) JS.ge.
Proof. intros x x' Hx y y' Hy. unfold JS.ge. now rewrite Hx, Hy. Qed.

#[export] Instance strict_eq_proper : Proper (Qeq ==> Qeq ==> eq) JS.strict_eq.
Proof. intros x x' Hx y y' Hy. unfold JS.strict_eq. now rewrite Hx, Hy. Qed.

#[export] Instance Math_round_proper : Proper (Qeq ==> eq) JS.Math_round.
Proof. intros x x' Hx. unfold JS.Math_round. now rewrite Hx. Qed.

#[export] Instance toFixed1_proper : Proper (Qeq ==> eq) JS.toFixed1.
Proof.
  intros x x' Hx. unfold JS.toFixed1.
  rewrite <- (lt_proper x x' Hx 0 0 (Qeq_refl 0)).
  destruct (JS.lt x 0); now rewrite Hx.
Qed.

End Numbers.

(** ** Numbers in binary64 *)

Section Binary64Numbers.

Import Floats Binary64.
Local Open Scope b64_scope.

(** Multiplication commutes: [goalHours * 0.8] is [0.8 * goalHours]. *)
Lemma b64_mul_comm (x y : number) : x * y = y * x.
Proof.
  apply Prim2SF_inj. rewrite !FloatAxioms.mul_spec. unfold SF64mul, SFmul.
  destruct (Prim2SF x) as [sx|sx| |sx mx ex], (Prim2SF y) as [sy|sy| |sy my ey];
    try reflexivity; try (now rewrite (xorb_comm sx sy)).
  now rewrite (xorb_comm sx sy), (Pos.mul_comm mx my), (Z.add_comm ex ey).
Qed.

Lemma is_number_not_nan (x : number) : is_number x = true -> Prim2SF x <> S754_nan.
Proof.
  unfold is_number. rewrite FloatAxioms.eqb_spec. intros H E.
  rewrite E in H. discriminate.
Qed.

(** [!(x >= 7)] is [x < 7] for every number; not so for [NaN], for which
    both comparisons are false. *)
Lemma not_ge_7 (x : number) : is_number x = true -> negb (x >=? 7%float) = (x <? 7%float).
Proof.
  intros H. apply is_number_not_nan in H.
  unfold ge, lt. rewrite FloatAxioms.leb_spec, FloatAxioms.ltb_spec.
  unfold SFleb, SFltb.
  change (Prim2SF 7%float) with (S754_finite false 7881299347898368 (-50)).
  destruct (Prim2SF x) as [s|s| |s m e]; [| |congruence|].
  - reflexivity.
  - now destruct s.
  - cbn [SFcompare]. destruct s; [reflexivity|].
    rewrite (Z.compare_antisym e (-50)).
    destruct (e ?= -50)%Z; cbn [CompOpp]; try reflexivity.
    pose proof (Pos.compare_cont_antisym m 7881299347898368 Eq) as A.
    cbn [CompOpp] in A. rewrite <- A.
    now destruct (Pos.compare_cont Eq m 7881299347898368).
Qed.

Lemma binary_round_opp (m : positive) (e : Z) :
  binary_round prec emax true m e = SFopp (binary_round prec emax false m e).
Proof.
  unfold binary_round. destruct (shl_align _ _ _) as [mz ez].
  unfold binary_round_aux.
  destruct (shr_fexp prec emax (Z.pos mz) ez loc_Exact) as [mrs' e'].
  destruct (shr_fexp prec emax _ e' loc_Exact) as [mrs'' e''].
  destruct (shr_m mrs''); try reflexivity.
  now destruct (e'' <=? emax - prec)%Z.
Qed.

(** The conversion of an integer is the rounding to the nearest binary64
    value, whichever way it is computed. *)
Lemma of_Z_nearest (z : Z) :
  of_Z z = SF2Prim (binary_normalize prec emax z 0 false).
Proof.
  assert (Hw : Uint63.wB = (2 ^ 63)%Z) by reflexivity.
  unfold of_Z.
  destruct ((0 <=? z)%Z && (z <? 2 ^ 63)%Z) eqn:Hpos.
  - apply andb_prop in Hpos as [H0 H1]. apply Z.leb_le in H0. apply Z.ltb_lt in H1.
    rewrite <- (SF2Prim_Prim2SF (of_uint63 _)), of_uint63_spec, Uint63.of_Z_spec.
    now rewrite Z.mod_small by (rewrite Hw; lia).
  - destruct ((- 2 ^ 63 <? z)%Z && (z <? 0)%Z) eqn:Hneg; [|reflexivity].
    apply andb_prop in Hneg as [H0 H1]. apply Z.ltb_lt in H0, H1.
    rewrite <- (SF2Prim_Prim2SF (PrimFloat.opp _)), opp_spec, of_uint63_spec,
      Uint63.of_Z_spec.
    rewrite Z.mod_small by (rewrite Hw; lia).
    destruct z as [|p|p]; try lia. cbn [Z.opp binary_normalize].
    now rewrite binary_round_opp.
Qed.
(** [Math.round] is [floor(n * 2^e + 1/2)]. *)
Lemma Math_round_floor (x : number) (s : bool) (m : positive) (e : Z) :
  Prim2SF x = S754_finite s m e ->
  let n := if s then Z.neg m else Z.pos m in
  Math_round x
  = if (0 <=? e)%Z then (n * 2 ^ e)%Z else ((2 * n + 2 ^ (- e)) / 2 ^ (1 - e))%Z.
Proof.
  intros E n. unfold Math_round. rewrite E. fold n.
  destruct (Z.leb_spec 0 e).
  - now rewrite Z.shiftl_mul_pow2.
  - rewrite Z.shiftr_div_pow2, Z.shiftl_mul_pow2 by lia. now rewrite Z.mul_1_l.
Qed.

Lemma all_from_spec (n : nat) (z : Z) (P : Z -> bool) :
  Range.all_from n z P = true ->
  forall k, (z <= k < z + Z.of_nat n)%Z -> P k = true.
Proof.
  revert z. induction n as [|n IH]; intros z H k Hk; [lia|].
  cbn [Range.all_from] in H. apply andb_prop in H as [Hz Hn].
  destruct (Z.eq_dec k z) as [->|Hne]; [assumption|].
  apply (IH (z + 1)%Z Hn). lia.
Qed.

Lemma percentage_checked :
  Range.all_from 500 1 (fun total =>
    Range.all_from 501 0 (fun count => Range.percentage_near count total)) = true.
Proof. vm_compute. reflexivity. Qed.

Lemma wellnessScore_checked :
  Range.all_from 101 0 (fun f =>
    Range.all_from 101 0 (fun s =>
      Range.all_from 7 0 (fun k => Range.wellnessScore_near f s (5 * k)))) = true.
Proof. vm_compute. reflexivity. Qed.

Lemma consistency_checked :
  Range.all_from (Z.to_nat 100001) 0 Range.consistency_exact = true.
Proof. vm_compute. reflexivity. Qed.

(** The percentage of [count] in [total], for at most 500 of each. *)
Lemma percentage_near_exact (count total : nat) :
  (0 < total <= 500)%nat -> (count <= 500)%nat ->
  let r := Math_round (of_nat count / of_nat total * 100%float) in
  let exact := ((200 * Z.of_nat count + Z.of_nat total) / (2 * Z.of_nat total))%Z in
  (0 <= r)%Z /\ (exact - 1 <= r <= exact)%Z /\
  (~ Claimed.percentage_tie count total -> r = exact).
Proof.
  intros Ht Hc r exact.
  pose proof (all_from_spec _ _ _ percentage_checked (Z.of_nat total) ltac:(lia)) as H.
  cbv beta in H.
  pose proof (all_from_spec _ _ _ H (Z.of_nat count) ltac:(lia)) as H'.
  cbv beta in H'. unfold Range.percentage_near in H'. cbv zeta in H'.
  fold (of_nat count) (of_nat total) in H'. fold r exact in H'.
  apply andb_prop in H' as [H' Htie]. apply andb_prop in H' as [H' Hle].
  apply andb_prop in H' as [H0 Hge].
  apply Z.leb_le in H0, Hge, Hle.
  split; [assumption|]. split; [lia|].
  intros Hn. apply orb_prop in Htie as [Htie|Htie].
  - apply Z.eqb_eq in Htie. now elim Hn.
  - now apply Z.eqb_eq in Htie.
Qed.

(** The consistency contribution, for at most 100000 logs. *)
Lemma consistency_is_whole (n : nat) :
  (Z.of_nat n <= 100000)%Z ->
  Math_min (of_nat n * 5%float) 30%float = of_Z (Z.min (5 * Z.of_nat n) 30).
Proof.
  intros Hn.
  pose proof (all_from_spec _ _ _ consistency_checked (Z.of_nat n)
                ltac:(rewrite Z2Nat.id; lia)) as H.
  unfold Range.consistency_exact in H.
  now apply FloatAxioms.Leibniz.eqb_spec in H.
Qed.

Lemma wellnessScore_near_exact (f s : Z) (n : nat) :
  (0 <= f <= 100)%Z -> (0 <= s <= 100)%Z -> (Z.of_nat n <= 100000)%Z ->
  let r := Stats.wellnessScore f s n in
  let exact := ((4 * f - 3 * s + 305 + 10 * Z.min (5 * Z.of_nat n) 30) / 10)%Z in
  (exact - 1 <= r <= exact)%Z /\ (~ Claimed.wellnessScore_tie f s -> r = exact).
Proof.
  intros Hf Hs Hn r exact. subst r. unfold Stats.wellnessScore.
  rewrite consistency_is_whole by assumption.
  assert (Hm : exists k, (0 <= k < 7)%Z /\ Z.min (5 * Z.of_nat n) 30 = (5 * k)%Z).
  { destruct (Z.le_gt_cases 6 (Z.of_nat n)).
    - exists 6%Z. lia.
    - exists (Z.of_nat n). lia. }
  destruct Hm as (k & Hk & Em). subst exact. rewrite Em.
  pose proof (all_from_spec _ _ _ wellnessScore_checked f ltac:(lia)) as H.
  cbv beta in H.
  pose proof (all_from_spec _ _ _ H s ltac:(lia)) as H'. cbv beta in H'.
  pose proof (all_from_spec _ _ _ H' k ltac:(lia)) as H''. cbv beta in H''.
  unfold Range.wellnessScore_near in H''. cbv zeta in H''.
  set (r := Math_round _) in *.
  apply andb_prop in H'' as [H'' Htie]. apply andb_prop in H'' as [Hge Hle].
  apply Z.leb_le in Hge, Hle.
  split; [lia|].
  intros Hn'. apply orb_prop in Htie as [Htie|Htie].
  - apply Z.eqb_eq in Htie. now elim Hn'.
  - now apply Z.eqb_eq in Htie.
Qed.

End Binary64Numbers.

(** ** The classifier is its decision table *)

Section Classifier.

Import EndOfDaySummary DecisionTable.
Local Open Scope Q_scope.

(** What [first_match] returns is the entry of the first row that holds. *)
Lemma first_match_first {A B} (table : list ((A -> bool) * B)) (a : A) (b : B) :
  first_match table a = Some b ->
  exists i p,
    nth_error table i = Some (p, b) /\ p a = true /\
    forall j q c, (j < i)%nat -> nth_error table j = Some (q, c) -> q a = false.
Proof.
  induction table as [|[p0 b0] table IH]; cbn [first_match]; [discriminate|].
  destruct (p0 a) eqn:Hp0.
  - intros [= <-]. exists 0%nat, p0. repeat split; auto. intros; lia.
  - intros H. destruct (IH H) as (i & p & Hi & Hp & Hbefore).
    exists (S i), p. repeat split; auto.
    intros [|j] q c Hj Hq; cbn in Hq.
    + now injection Hq as <- _.
    + eapply Hbefore; [|eassumption]. lia.
Qed.

Lemma completionRate_code (c t : nat) :
  (if (0 <? t)%nat then JS.of_nat c / JS.of_nat t else 0)
  = (if (t =? 0)%nat then 0 else JS.of_nat c / JS.of_nat t).
Proof. now destruct t. Qed.

Lemma goalReached_code (s g : Q) :
  JS.ge s (g * 0.8) = JS.ge s (0.8 * g).
Proof. apply ge_proper; [reflexivity | apply Qmult_comm]. Qed.

Lemma hasEmotionData_code (n : nat) : negb (0 <? n)%nat = (n =? 0)%nat.
Proof. now destruct n. Qed.

Lemma generateMessage_table (d : BaseData) :
  first_match rows d = Some (state (generateMessage d)).
Proof.
  destruct d as [sh gh cs ts de af ast ec].
  unfold generateMessage, rows, first_match, goalReached, completionRate.
  cbn [studyHours goalHours completedSessions totalSessions avgFocus avgStress
       emotionCount].
  rewrite completionRate_code, goalReached_code, not_ge_lt, hasEmotionData_code.
  set (rate := if (ts =? 0)%nat then _ else _).
  repeat match goal with
         | |- context [if ?b then _ else _] => destruct b; cbn [andb state]; try reflexivity
         end.
Qed.

End Classifier.

(** ** The classifier in binary64 is its decision table *)

Section Binary64Classifier.

Import Floats.
Import EndOfDaySummary.
Import Binary64 Binary64.Summary Binary64.Table.
Local Open Scope b64_scope.

Lemma completionRate_code64 (c t : nat) :
  (if (0 <? t)%nat then of_nat c / of_nat t else 0%float)
  = (if (t =? 0)%nat then 0%float else of_nat c / of_nat t).
Proof. now destruct t. Qed.

Lemma generateMessage_table64 (d : BaseData) :
  DecisionTable.first_match rows_not_stressed d = Some (state (generateMessage d)).
Proof.
  destruct d as [sh gh cs ts de af ast ec].
  unfold generateMessage, rows_not_stressed, table, DecisionTable.first_match,
    goalReached, completionRate.
  cbn [studyHours goalHours completedSessions totalSessions avgFocus avgStress
       emotionCount].
  rewrite completionRate_code64, (b64_mul_comm gh), hasEmotionData_code.
  set (rate := if (ts =? 0)%nat then _ else _).
  repeat match goal with
         | |- context [if ?b then _ else _] => destruct b; cbn [andb negb state]; try reflexivity
         end.
Qed.

Lemma rows_of_number (d : BaseData) :
  is_number (avgStress d) = true ->
  DecisionTable.first_match rows d = DecisionTable.first_match rows_not_stressed d.
Proof.
  intros H. unfold rows, rows_not_stressed, table, DecisionTable.first_match.
  now rewrite (not_ge_7 _ H).
Qed.

(** C1, as the code has it.  The comparisons, the quotient
    [completedSessions / totalSessions] and the product [0.8 * goalHours] are
    those of the language, in binary64.  For every feature tuple the
    classifier returns the state of the first row that holds of the ordered
    eight-row table in which row 4 reads "[studyHours > 0] and
    [completionRate < 0.5] and not [avgStress >= 7]": evaluating the table in
    order yields the returned state; some row [i] holds and carries that
    state, and no row before it holds, so that what the later rows say is
    immaterial.  When [avgStress] is a number (not [NaN]) this is the table
    as stated, with [avgStress < 7] in row 4. *)
Theorem generateMessage_first_matching_row (d : BaseData) :
  let s := state (generateMessage d) in
  DecisionTable.first_match rows_not_stressed d = Some s /\
  (exists i p,
     nth_error rows_not_stressed i = Some (p, s) /\
     p d = true /\
     forall j q s', (j < i)%nat -> nth_error rows_not_stressed j = Some (q, s') ->
                    q d = false) /\
  (is_number (avgStress d) = true -> DecisionTable.first_match rows d = Some s).
Proof.
  intros s. subst s.
  pose proof (generateMessage_table64 d) as Htable.
  split; [exact Htable|]. split.
  - destruct (first_match_first rows_not_stressed d _ Htable)
      as (i & p & Hrow & Hholds & Hfirst).
    exists i, p. split; [exact Hrow|]. split; [exact Hholds|].
    intros j q s' Hj Hq. exact (Hfirst j q s' Hj Hq).
  - intros H. now rewrite (rows_of_number d H).
Qed.

(** The claim as stated fails in two ways.  With a stress average that is
    not a number the code still takes row 4 (it tests that [avgStress >= 7]
    does not hold), where the stated row 4 ([avgStress < 7]) does not hold
    and row 7 decides.  And the stated table read in exact arithmetic parts
    from the code where the rounding of a product or of a quotient decides
    the goal test: for 17040 seconds studied against 355 planned minutes the
    tuple's [studyHours] is below 0.8 times its [goalHours] by less than the
    rounding of the product, and the code answers [proud]; for 8640 seconds
    against 180 minutes (2.4 hours, four fifths of 3) the code answers
    [strong_start], since [8640 / 3600 < 3 * 0.8] in binary64. *)
Lemma generateMessage_not_the_stated_table :
  (state (generateMessage Doubles.stress_unknown) = tired_but_consistent /\
   DecisionTable.first_match rows Doubles.stress_unknown = Some strong_start) /\
  (state (generateMessage (Doubles.studied 17040 355)) = proud /\
   option_map (DecisionTable.first_match DecisionTable.rows)
              (denotation (Doubles.studied 17040 355))
   = Some (Some strong_start)) /\
  (state (generateMessage (Doubles.studied 8640 180)) = strong_start /\
   DecisionTable.first_match DecisionTable.rows (Doubles.studied_exactly 8640 180)
   = Some proud).
Proof. repeat split; vm_compute; reflexivity. Qed.

(** What the dialog prints for 1260 seconds: the quotient [1260 / 3600] is
    just below 0.35. *)
Lemma toFixed1_of_1260_seconds :
  toFixed1 (studyHours_of 1260) = "0.3"%string /\
  JS.toFixed1 (JS.of_Z 1260 / 3600)%Q = "0.4"%string.
Proof. split; vm_compute; reflexivity. Qed.

End Binary64Classifier.

(** ** The classifier is a function of the values of its features *)

Section Purity.

Import EndOfDaySummary DecisionTable Samples.Day.
Local Open Scope Q_scope.

Lemma state_in_all_states (s : State) : In s all_states.
Proof. destruct s; cbn; tauto. Qed.

Lemma all_states_NoDup : List.NoDup all_states.
Proof.
  unfold all_states.
  repeat (apply List.NoDup_cons; [cbn; intuition discriminate|]).
  apply List.NoDup_nil.
Qed.

Lemma generateMessage_same_features (d d' : BaseData) :
  same_features d d' -> generateMessage d = generateMessage d'.
Proof.
  destruct d as [sh gh cs ts de af ast ec], d' as [sh' gh' cs' ts' de' af' ast' ec'].
  unfold same_features;
    cbn [studyHours goalHours completedSessions totalSessions dominantEmotion
         avgFocus avgStress emotionCount].
  intros (Hsh & Hgh & -> & -> & -> & Haf & Hast & ->).
  unfold generateMessage.
  assert (E1 : JS.ge ast 7 = JS.ge ast' 7) by now rewrite Hast.
  assert (E2 : JS.ge af 6 = JS.ge af' 6) by now rewrite Haf.
  assert (E3 : JS.gt gh 0 = JS.gt gh' 0) by now rewrite Hgh.
  assert (E4 : JS.ge sh (gh * 0.8) = JS.ge sh' (gh' * 0.8)) by now rewrite Hsh, Hgh.
  assert (E5 : JS.gt sh 0 = JS.gt sh' 0) by now rewrite Hsh.
  assert (E6 : JS.strict_eq sh 0 = JS.strict_eq sh' 0) by now rewrite Hsh.
  assert (E7 : JS.toFixed1 sh = JS.toFixed1 sh') by now rewrite Hsh.
  now rewrite E1, E2, E3, E4, E5, E6, E7.
Qed.

(** C9.  The classifier is a total function of the feature values: every
    tuple is given one state, which is one of the eight (pairwise different)
    states, and two tuples holding the same values get the same state, the
    same message and the same closing line.  The function takes the tuple and
    nothing else, and returns these three values and nothing else. *)
Theorem generateMessage_total_deterministic :
  (forall d, exists! s, state (generateMessage d) = s /\ In s all_states) /\
  (List.NoDup all_states /\ List.length all_states = 8%nat) /\
  (forall d d', same_features d d' ->
     state (generateMessage d) = state (generateMessage d') /\
     message (generateMessage d) = message (generateMessage d') /\
     closingLine (generateMessage d) = closingLine (generateMessage d')).
Proof.
  split; [|split].
  - intros d. exists (state (generateMessage d)). split.
    + split; [reflexivity | apply state_in_all_states].
    + now intros s [<- _].
  - split; [apply all_states_NoDup | reflexivity].
  - intros d d' H. now rewrite (generateMessage_same_features d d' H).
Qed.

Lemma generateMessage_total_deterministic_witness :
  same_features half_hour_day half_hour_day' /\
  message (generateMessage half_hour_day) = message (generateMessage half_hour_day').
Proof.
  assert (H : same_features half_hour_day half_hour_day')
    by (unfold same_features; cbn; repeat split; reflexivity).
  split; [exact H|].
  exact (proj1 (proj2 (proj2 (proj2 generateMessage_total_deterministic)
                         half_hour_day half_hour_day' H))).
Defined.

End Purity.

(** ** The features of a day without emotion metrics *)

Section DayFeatures.

Import EndOfDaySummary Samples.Day.
Local Open Scope Q_scope.

(** Logs whose focus level is falsy ([null], or 0) add nothing to the focus
    accumulator. *)
Lemma analyzeEmotions_no_focus (l : list emotion_logs.row) (acc : EmotionAcc) :
  (forall e, In e l -> JS.truthyZ (emotion_logs.focus_level e) = false) ->
  focusCount (fold_left emotionStep l acc) = focusCount acc.
Proof.
  revert acc. induction l as [|e l IH]; intros acc H; [reflexivity|].
  cbn [fold_left]. rewrite IH by (intros; apply H; now right).
  unfold emotionStep. rewrite (H e) by now left.
  now destruct (JS.truthyZ (emotion_logs.stress_level e)).
Qed.

Lemma analyzeEmotions_no_stress (l : list emotion_logs.row) (acc : EmotionAcc) :
  (forall e, In e l -> JS.truthyZ (emotion_logs.stress_level e) = false) ->
  stressCount (fold_left emotionStep l acc) = stressCount acc.
Proof.
  revert acc. induction l as [|e l IH]; intros acc H; [reflexivity|].
  cbn [fold_left]. rewrite IH by (intros; apply H; now right).
  unfold emotionStep. rewrite (H e) by now left.
  now destruct (JS.truthyZ (emotion_logs.focus_level e)).
Qed.

Lemma avgFocus_baseData today sessions emotions completions schedule :
  avgFocus (baseData today sessions emotions completions schedule)
  = let acc := analyzeEmotions (JS.or_empty emotions) in
    if (0 <? focusCount acc)%nat
    then JS.of_Z (focusSum acc) / JS.of_nat (focusCount acc) else 5.
Proof.
  unfold baseData.
  destruct schedule as [sch|]; [|reflexivity].
  destruct (findTodayPlan _ _) as [[dy [planned|]]|]; reflexivity.
Qed.

Lemma avgStress_baseData today sessions emotions completions schedule :
  avgStress (baseData today sessions emotions completions schedule)
  = let acc := analyzeEmotions (JS.or_empty emotions) in
    if (0 <? stressCount acc)%nat
    then JS.of_Z (stressSum acc) / JS.of_nat (stressCount acc) else 3.
Proof.
  unfold baseData.
  destruct schedule as [sch|]; [|reflexivity].
  destruct (findTodayPlan _ _) as [[dy [planned|]]|]; reflexivity.
Qed.

(** The first row alone yields [stressed], the third alone [motivated]. *)
Lemma stressed_needs_stress (d : BaseData) :
  state (generateMessage d) = stressed -> JS.ge (avgStress d) 7 = true.
Proof.
  destruct d as [sh gh cs ts de af ast ec]. unfold generateMessage.
  cbn [avgStress].
  destruct (JS.ge ast 7); [reflexivity|]. cbn [andb negb].
  repeat match goal with
         | |- context [if ?b then _ else _] => destruct b; cbn [andb negb state]
         end; discriminate.
Qed.

Lemma motivated_needs_focus (d : BaseData) :
  state (generateMessage d) = motivated -> JS.ge (avgFocus d) 6 = true.
Proof.
  destruct d as [sh gh cs ts de af ast ec]. unfold generateMessage.
  cbn [avgFocus].
  destruct (JS.ge af 6); [reflexivity|]. rewrite andb_false_r.
  repeat match goal with
         | |- context [if ?b then _ else _] => destruct b; cbn [andb negb state]
         end; discriminate.
Qed.

(** C10.  When no emotion log of the day carries a focus level, the tuple
    handed to the classifier has [avgFocus = 5]; when none carries a stress
    level it has [avgStress = 3]; so with neither, the stress condition of
    row 1 and the focus condition of row 3 are false, and the day is
    classified neither [stressed] nor [motivated].  The tuple is the one
    [fetchDaySummary] builds from the settled queries and classifies. *)
Theorem baseData_without_metrics today sessions emotions completions schedule :
  let b := baseData today sessions emotions completions schedule in
  ((forall e, In e (JS.or_empty emotions) -> emotion_logs.focus_level e = None) ->
   avgFocus b = 5) /\
  ((forall e, In e (JS.or_empty emotions) -> emotion_logs.stress_level e = None) ->
   avgStress b = 3) /\
  ((forall e, In e (JS.or_empty emotions) ->
      emotion_logs.focus_level e = None /\ emotion_logs.stress_level e = None) ->
   JS.ge (avgStress b) 7 = false /\ JS.ge (avgFocus b) 6 = false /\
   state (generateMessage b) <> stressed /\ state (generateMessage b) <> motivated) /\
  (forall user,
     fetchDaySummary (Some user) today
       {| q_sessions := JS.Resolved sessions; q_emotions := JS.Resolved emotions;
          q_completions := JS.Resolved completions;
          q_schedule := JS.Resolved schedule |}
     = Some {| base := b; result := generateMessage b |}).
Proof.
  intros b.
  assert (HF : (forall e, In e (JS.or_empty emotions) ->
                  emotion_logs.focus_level e = None) -> avgFocus b = 5).
  { intros H. subst b. rewrite avgFocus_baseData. cbv zeta.
    unfold analyzeEmotions. rewrite analyzeEmotions_no_focus; [reflexivity|].
    intros e He. now rewrite (H e He). }
  assert (HS : (forall e, In e (JS.or_empty emotions) ->
                  emotion_logs.stress_level e = None) -> avgStress b = 3).
  { intros H. subst b. rewrite avgStress_baseData. cbv zeta.
    unfold analyzeEmotions. rewrite analyzeEmotions_no_stress; [reflexivity|].
    intros e He. now rewrite (H e He). }
  split; [exact HF|]. split; [exact HS|]. split; [|reflexivity].
  intros H. repeat split.
  - rewrite HS; [reflexivity | intros e He; now apply H].
  - rewrite HF; [reflexivity | intros e He; now apply H].
  - intros Hst. apply stressed_needs_stress in Hst.
    rewrite HS in Hst; [discriminate | intros e He; now apply H].
  - intros Hst. apply motivated_needs_focus in Hst.
    rewrite HF in Hst; [discriminate | intros e He; now apply H].
Qed.

Lemma baseData_without_metrics_witness :
  avgFocus (baseData noon None (Some [bare_log]) None None) = 5 /\
  avgStress (baseData noon None (Some [bare_log]) None None) = 3.
Proof.
  pose proof (baseData_without_metrics noon None (Some [bare_log]) None None) as H.
  cbv zeta in H. destruct H as (HF & HS & _).
  split; [apply HF | apply HS]; cbn; intros e [<-|[]]; reflexivity.
Defined.

End DayFeatures.

(** ** The composite scores of the weekly statistics *)

Section Scores.

Import useWellbeingStats.
Local Open Scope Q_scope.

(** In exact arithmetic the code's sum of contributions is the claimed
    formula. *)
Lemma wellnessScore_exact_reading (avgFocus avgStress : Z) (emotionCount : nat) :
  wellnessScore avgFocus avgStress emotionCount
  = ClaimedFormulas.wellnessScore avgFocus avgStress emotionCount.
Proof.
  unfold wellnessScore, ClaimedFormulas.wellnessScore.
  apply Math_round_proper. ring.
Qed.

(** C5.  For every average stress level and total study time (in seconds),
    the burnout risk is "High" exactly when [avgStress > 70] or the study time
    exceeds 25 hours; "Medium" exactly when neither of these holds and
    [avgStress > 50] or the study time exceeds 72000 seconds (20 hours); and
    "Low" exactly when none of the four holds.  [fetchStats] stores this value
    for the average stress and study time it stores. *)
Theorem burnoutRisk_cases :
  (forall avgStress totalStudySeconds : Z,
     (burnoutRisk avgStress totalStudySeconds = "High"%string <->
      (avgStress > 70 \/ totalStudySeconds > 25 * 3600)%Z) /\
     (burnoutRisk avgStress totalStudySeconds = "Medium"%string <->
      ~ (avgStress > 70 \/ totalStudySeconds > 25 * 3600)%Z /\
      (avgStress > 50 \/ totalStudySeconds > 72000)%Z) /\
     (burnoutRisk avgStress totalStudySeconds = "Low"%string <->
      ~ (avgStress > 70 \/ totalStudySeconds > 25 * 3600)%Z /\
      ~ (avgStress > 50 \/ totalStudySeconds > 72000)%Z)) /\
  (forall emotions sessions completions schedule,
     let s := fst (aggregate emotions sessions completions schedule) in
     WellbeingStats.burnoutRisk s
     = burnoutRisk (WellbeingStats.avgStressLevel s) (WellbeingStats.totalStudyTime s)).
Proof.
  split; [|reflexivity].
  intros s t. unfold burnoutRisk.
  destruct (Z.gtb_spec s 70), (Z.gtb_spec t (25 * 3600)),
           (Z.gtb_spec s 50), (Z.gtb_spec t (20 * 3600));
    cbn [orb]; repeat split; intros; try discriminate; try lia; try tauto.
Qed.

End Scores.

(** ** Break efficiency and completion rate *)

Section Ratios.

Import useWellbeingStats.
Local Open Scope Q_scope.

(** [Math.round] of a fraction of integers, as an integer division. *)
Lemma Math_round_frac (n d : Z) :
  (0 < d)%Z ->
  JS.Math_round (inject_Z n / inject_Z d) = ((2 * n + d) / (2 * d))%Z.
Proof.
  intros Hd. unfold JS.Math_round.
  assert (E : inject_Z n / inject_Z d + (1 # 2) == (2 * n + d) # (Z.to_pos (2 * d))).
  { unfold Qeq, Qdiv, Qmult, Qplus, Qinv, inject_Z.
    destruct d as [|p|p]; try lia. cbn. lia. }
  rewrite E. unfold Qfloor. cbn [Qnum Qden].
  rewrite Z2Pos.id by lia. reflexivity.
Qed.

(** The estimated break time is a fifth of the study time, to the nearest
    second. *)
Lemma totalBreakTime_div (T : Z) : totalBreakTime T = ((2 * T + 5) / 10)%Z.
Proof.
  unfold totalBreakTime, JS.of_Z.
  transitivity (JS.Math_round (inject_Z T / inject_Z 5)).
  - apply Math_round_proper. field.
  - now rewrite Math_round_frac by lia.
Qed.

Lemma breakEfficiency_div (T : Z) :
  (0 < T)%Z ->
  breakEfficiency T = Z.min ((800 * totalBreakTime T + T) / (2 * T)) 100.
Proof.
  intros HT. unfold breakEfficiency.
  destruct (Z.gtb_spec T 0) as [_|]; [|lia].
  f_equal. unfold JS.of_Z.
  replace (800 * totalBreakTime T + T)%Z with (2 * (400 * totalBreakTime T) + T)%Z by lia.
  rewrite <- (Math_round_frac (400 * totalBreakTime T) T) by lia.
  apply Math_round_proper.
  rewrite inject_Z_mult. field.
  intros H. apply (Qeq_bool_neq 0 (inject_Z T)); [|now symmetry].
  unfold Qeq_bool, inject_Z. cbn. destruct T; try lia; reflexivity.
Qed.

Lemma breakEfficiency_80 (T : Z) :
  (0 < T)%Z -> (T mod 5 = 0 \/ 320 < T)%Z -> breakEfficiency T = 80%Z.
Proof.
  intros HT H. rewrite breakEfficiency_div by assumption.
  rewrite totalBreakTime_div.
  assert (Hb : (10 * ((2 * T + 5) / 10) <= 2 * T + 5 < 10 * ((2 * T + 5) / 10) + 10)%Z).
  { pose proof (Z.div_mod (2 * T + 5) 10 ltac:(lia)).
    pose proof (Z.mod_pos_bound (2 * T + 5) 10 ltac:(lia)). lia. }
  set (b := ((2 * T + 5) / 10)%Z) in *.
  assert (E : ((800 * b + T) / (2 * T) = 80)%Z).
  { symmetry. apply (Z.div_unique_pos _ _ 80 (800 * b + T - 80 * (2 * T))); [|lia].
    destruct H as [H|H]; [|lia].
    apply Z.mod_divide in H; [|lia]. destruct H as [k Hk]. lia. }
  rewrite E. reflexivity.
Qed.

Lemma breakEfficiency_range (T : Z) : (0 <= breakEfficiency T <= 100)%Z.
Proof.
  unfold breakEfficiency. destruct (Z.gtb_spec T 0) as [HT|]; [|lia].
  pose proof (breakEfficiency_div T ltac:(lia)) as E.
  unfold breakEfficiency in E. destruct (Z.gtb_spec T 0); [|lia].
  rewrite E, totalBreakTime_div.
  assert (0 <= (2 * T + 5) / 10)%Z by (apply Z.div_pos; lia).
  assert (0 <= (800 * ((2 * T + 5) / 10) + T) / (2 * T))%Z by (apply Z.div_pos; lia).
  lia.
Qed.

(** C6, as the code has it.  The estimated break time is rounded to whole
    seconds before the ratio is taken: for a positive study time
    [breakEfficiency = min(round(estimatedBreakSeconds / (totalStudySeconds *
    0.25) * 100), 100)] with [estimatedBreakSeconds = round(0.2 *
    totalStudySeconds)], and without study time the result is 0.  The result
    lies between 0 and 100, and it is 80 whenever the study time is a positive
    multiple of 5 seconds or exceeds 320 seconds. *)
Theorem breakEfficiency_rounded_estimate (totalStudySeconds : Z) :
  ((totalStudySeconds <= 0)%Z -> breakEfficiency totalStudySeconds = 0%Z) /\
  ((0 < totalStudySeconds)%Z ->
   let estimatedBreakSeconds := JS.Math_round (0.2 * JS.of_Z totalStudySeconds) in
   breakEfficiency totalStudySeconds
   = Z.min (JS.Math_round
              (JS.of_Z estimatedBreakSeconds / (JS.of_Z totalStudySeconds * 0.25) * 100))
           100 /\
   (0 <= breakEfficiency totalStudySeconds <= 100)%Z /\
   ((totalStudySeconds mod 5 = 0 \/ 320 < totalStudySeconds)%Z ->
    breakEfficiency totalStudySeconds = 80%Z)).
Proof.
  split.
  - intros H. unfold breakEfficiency.
    destruct (Z.gtb_spec totalStudySeconds 0); [lia | reflexivity].
  - intros HT est. split; [|split].
    + unfold breakEfficiency. destruct (Z.gtb_spec totalStudySeconds 0); [|lia].
      subst est. unfold totalBreakTime.
      now rewrite (Qmult_comm 0.2 (JS.of_Z totalStudySeconds)).
    + apply breakEfficiency_range.
    + now apply breakEfficiency_80.
Qed.

Lemma breakEfficiency_rounded_estimate_witness :
  (0 <= breakEfficiency 3600 <= 100)%Z /\ breakEfficiency 3600 = 80%Z.
Proof.
  destruct (breakEfficiency_rounded_estimate 3600) as [_ H].
  specialize (H ltac:(lia)). cbv zeta in H. destruct H as (_ & Hr & H80).
  split; [exact Hr | apply H80; right; lia].
Defined.

(** The claim as stated fails: the estimate is not [0.2 * totalStudySeconds]
    but its rounding, and the result is not 80 for every positive study
    time.  After one second it is 0; after three seconds it is 100, where the
    stated formula gives 80. *)
Lemma breakEfficiency_not_always_80 :
  (0 < 1)%Z /\ breakEfficiency 1 = 0%Z /\
  (0 < 3)%Z /\ breakEfficiency 3 = 100%Z /\
  ClaimedFormulas.breakEfficiency 3 = 80%Z.
Proof. repeat split; try lia; reflexivity. Qed.

End Ratios.

(** ** Rounding in binary64 and in exact arithmetic *)

Section Binary64Rounding.

Import Floats Binary64.

(** [Math.round] of a finite number is [Math.round] of the rational it
    denotes. *)
Lemma Math_round_denoted (x : number) (q : Q) :
  to_Q x = Some q -> Math_round x = JS.Math_round q.
Proof.
  unfold to_Q, Math_round.
  destruct (Prim2SF x) as [s|s| |s m e]; try discriminate; intros [= <-].
  - reflexivity.
  - set (n := if s then Z.neg m else Z.pos m).
    destruct (Z.leb_spec 0 e) as [He|He].
    + rewrite Z.shiftl_mul_pow2 by assumption.
      assert (E : (inject_Z n * Qpower 2 e == inject_Z (n * 2 ^ e) / inject_Z 1)%Q).
      { rewrite inject_Z_mult, (Zpower_Qpower 2 e He). change (inject_Z 2) with 2%Q.
        field. }
      rewrite (Math_round_proper _ _ E), Math_round_frac by lia.
      apply Z.div_unique with (r := 1%Z); lia.
    + rewrite Z.shiftr_div_pow2, Z.shiftl_mul_pow2, Z.mul_1_l by lia.
      assert (Hp : (0 < 2 ^ (- e))%Z) by (apply Z.pow_pos_nonneg; lia).
      assert (E : (inject_Z n * Qpower 2 e == inject_Z n / inject_Z (2 ^ (- e)))%Q).
      { rewrite (Zpower_Qpower 2 (- e)) by lia. change (inject_Z 2) with 2%Q.
        rewrite Qpower_opp. unfold Qdiv. rewrite Qinv_involutive. reflexivity. }
      rewrite (Math_round_proper _ _ E), Math_round_frac by assumption.
      replace (1 - e)%Z with (1 + - e)%Z by lia.
      rewrite Z.pow_add_r, Z.pow_1_r by lia. reflexivity.
Qed.
End Binary64Rounding.

(** ** The completion rate *)

Section CompletionRate.

Import useWellbeingStats Samples.Week.
Local Open Scope Q_scope.

Lemma fold_left_add_init {A} (f : A -> nat) (l : list A) (n : nat) :
  fold_left (fun acc x => (acc + f x)%nat) l n
  = (n + list_sum (map f l))%nat.
Proof.
  revert n. induction l as [|x l IH]; intros n; cbn [fold_left map].
  - cbn. lia.
  - rewrite IH.
    change (list_sum (f x :: map f l)) with (f x + list_sum (map f l))%nat. lia.
Qed.

Lemma plannedSessions_sum (sch : study_schedules.row) (plan : list study_schedules.dayPlan) :
  study_schedules.weekly_plan sch = Some plan ->
  plannedSessions (Some sch) = list_sum (map planned_on plan).
Proof.
  intros H. unfold plannedSessions. rewrite H.
  now rewrite (fold_left_add_init planned_on).
Qed.

(** In exact arithmetic the percentage is an integer quotient. *)
Lemma completionRate_div (completionsList : list schedule_session_completions.row)
    (schedule : option study_schedules.row) :
  (0 < plannedSessions schedule)%nat ->
  completionRate completionsList schedule
  = ((200 * Z.of_nat (List.length completionsList) + Z.of_nat (plannedSessions schedule))
     / (2 * Z.of_nat (plannedSessions schedule)))%Z.
Proof.
  unfold completionRate.
  generalize (plannedSessions schedule) as planned.
  generalize (List.length completionsList) as completions.
  intros completions planned H.
  destruct (Nat.ltb_spec 0 planned); [|lia].
  replace (200 * Z.of_nat completions + Z.of_nat planned)%Z
    with (2 * (100 * Z.of_nat completions) + Z.of_nat planned)%Z by lia.
  rewrite <- Math_round_frac by lia.
  apply Math_round_proper. unfold JS.of_nat.
  rewrite inject_Z_mult. field.
  intros E. apply (Qeq_bool_neq 0 (inject_Z (Z.of_nat planned))); [|now symmetry].
  destruct planned; [lia | reflexivity].
Qed.

End CompletionRate.

(** ** The completion rate in binary64 *)

Section CompletionRate64.

Import useWellbeingStats Samples.Week.
Import Floats Binary64.

(** The percentage of the claimed quotient, rounded in exact arithmetic, as
    an integer quotient. *)
Lemma exact_percentage_div (completions planned : nat) :
  (0 < planned)%nat ->
  JS.Math_round (ClaimedFormulas.completionRate completions planned * 100)%Q
  = ((200 * Z.of_nat completions + Z.of_nat planned) / (2 * Z.of_nat planned))%Z.
Proof.
  intros H. unfold ClaimedFormulas.completionRate.
  destruct (Nat.eqb_spec planned 0); [lia|].
  replace (200 * Z.of_nat completions + Z.of_nat planned)%Z
    with (2 * (100 * Z.of_nat completions) + Z.of_nat planned)%Z by lia.
  rewrite <- Math_round_frac by lia.
  apply Math_round_proper. unfold JS.of_nat.
  rewrite inject_Z_mult. field.
  intros E. apply (Qeq_bool_neq 0 (inject_Z (Z.of_nat planned))); [|now symmetry].
  destruct planned; [lia | reflexivity].
Qed.

(** C7, as the code has it.  The completion rate of the weekly analytics is a
    whole percentage, [Math.round((completions / planned) * 100)] with the
    quotient and the product rounded as the language rounds them, where
    [completions] is the number of completion records and [planned] the
    number of sessions in the weekly plan of the active schedule (the sum
    over its days); it is 0 when no session is planned, and so when no
    schedule is active.  With at most 500 records and 500 planned sessions
    the rate is not negative, and it is the claimed quotient taken times 100
    and rounded to the nearest whole number, or one less than that where the
    exact percentage lies halfway between two whole numbers. *)
Theorem completionRate_percentage
    (completionsList : list schedule_session_completions.row)
    (schedule : option study_schedules.row) :
  let completions := List.length completionsList in
  let planned := plannedSessions schedule in
  let rate := Stats.completionRate completionsList schedule in
  (forall sch plan, schedule = Some sch -> study_schedules.weekly_plan sch = Some plan ->
     planned = list_sum (map planned_on plan)) /\
  (schedule = None -> planned = 0%nat) /\
  (planned = 0%nat -> rate = 0%Z) /\
  ((0 < planned)%nat ->
   rate = Math_round (of_nat completions / of_nat planned * 100%float)%b64) /\
  ((0 < planned <= 500)%nat -> (completions <= 500)%nat ->
   let exact := JS.Math_round (ClaimedFormulas.completionRate completions planned * 100)%Q in
   (0 <= rate)%Z /\ (exact - 1 <= rate <= exact)%Z /\
   (~ Claimed.percentage_tie completions planned -> rate = exact)).
Proof.
  intros completions planned rate. subst completions planned rate.
  split; [|split; [|split; [|split]]].
  - intros sch plan -> H. now apply plannedSessions_sum.
  - now intros ->.
  - intros H. unfold Stats.completionRate. now rewrite H.
  - intros H. unfold Stats.completionRate.
    destruct (Nat.ltb_spec 0 (plannedSessions schedule)); [reflexivity|lia].
  - intros Hp Hc exact. subst exact.
    rewrite exact_percentage_div by lia.
    unfold Stats.completionRate.
    destruct (Nat.ltb_spec 0 (plannedSessions schedule)); [|lia].
    apply percentage_near_exact; assumption.
Qed.

Lemma completionRate_percentage_witness :
  Stats.completionRate one_completion (Some four_session_schedule) = 25%Z.
Proof.
  pose proof (completionRate_percentage one_completion (Some four_session_schedule)) as H.
  cbv zeta in H. destruct H as (_ & _ & _ & _ & H).
  specialize (H ltac:(cbn; lia) ltac:(cbn; lia)).
  destruct H as (_ & _ & H). rewrite H.
  - reflexivity.
  - unfold Claimed.percentage_tie. cbn. discriminate.
Defined.

(** The claim as stated fails: with one completion record and four planned
    sessions the stored rate is 25, not the quotient 1/4.  Nor is the rate
    always the exactly rounded percentage: with 23 records and 40 planned
    sessions it is 57, the quotient [23 / 40] being just below 0.575, where
    exact arithmetic gives 57.5 and rounds it to 58. *)
Lemma completionRate_is_not_the_quotient :
  (plannedSessions (Some four_session_schedule) = 4%nat /\
   List.length one_completion = 1%nat /\
   Stats.completionRate one_completion (Some four_session_schedule) = 25%Z /\
   (ClaimedFormulas.completionRate 1 4 == 1 # 4)%Q /\
   ~ (JS.of_Z (Stats.completionRate one_completion (Some four_session_schedule))
      == ClaimedFormulas.completionRate 1 4)%Q) /\
  (plannedSessions (Some Doubles.forty_session_schedule) = 40%nat /\
   List.length (Doubles.completions 23) = 23%nat /\
   Stats.completionRate (Doubles.completions 23) (Some Doubles.forty_session_schedule)
   = 57%Z /\
   JS.Math_round (ClaimedFormulas.completionRate 23 40 * 100)%Q = 58%Z).
Proof.
  repeat split; try reflexivity.
  intros H. vm_compute in H. discriminate.
Qed.

End CompletionRate64.

(** ** An empty week *)

Section EmptyWeek.

Import useWellbeingStats Samples.Week.
Local Open Scope Q_scope.

(** C3, as the code has it.  When the weekly window is empty (each list
    query resolves to [null], as after a failed fetch, or to no rows, and no
    schedule is active), [fetchStats] completes without an exception reaching
    its caller, clears the loading flag, and stores: average focus and stress
    0, burnout risk "Low", break efficiency 0, study and break time 0, no mood
    trends, no focus or stress trend and no emotion distribution; a wellness
    score of 30 (the stress contribution [(100 - 0) * 0.3], in exact
    arithmetic and in binary64 alike); a completion rate of 0, no subject
    hours and a break-to-study ratio of 20; and, in each of the three per-day
    lists, one placeholder entry for each of the seven day names (focus 0,
    stress 0, mood "neutral"; zero hours and sessions).  A rejected query is
    caught: the stored statistics stay as they were. *)
Theorem fetchStats_empty_week
    (user : string) (h : Hook)
    (emotions : option (list emotion_logs.row))
    (sessions : option (list study_sessions.row))
    (completions : option (list schedule_session_completions.row)) :
  JS.or_empty emotions = [] -> JS.or_empty sessions = [] ->
  JS.or_empty completions = [] ->
  let q := {| q_emotions := JS.Resolved emotions; q_sessions := JS.Resolved sessions;
              q_completions := JS.Resolved completions;
              q_schedule := JS.Resolved None |} in
  let s := stats (fst (fetchStats (Some user) q h)) in
  let w := weeklyAnalytics (fst (fetchStats (Some user) q h)) in
  snd (fetchStats (Some user) q h) = completed /\
  loading (fst (fetchStats (Some user) q h)) = false /\
  (WellbeingStats.wellnessScore s = 30%Z /\
   WellbeingStats.avgFocusLevel s = 0%Z /\ WellbeingStats.avgStressLevel s = 0%Z /\
   WellbeingStats.burnoutRisk s = "Low"%string /\
   WellbeingStats.breakEfficiency s = 0%Z /\
   WellbeingStats.totalStudyTime s = 0%Z /\ WellbeingStats.totalBreakTime s = 0%Z /\
   WellbeingStats.moodTrends s = [] /\ WellbeingStats.focusTrend s = [] /\
   WellbeingStats.stressTrend s = [] /\ WellbeingStats.emotionDistribution s = []) /\
  (WellbeingStats.weeklyEmotions s
   = map (fun day => {| WeeklyEmotion.day := day; WeeklyEmotion.focus := 0;
                        WeeklyEmotion.stress := 0;
                        WeeklyEmotion.mood := "neutral" |}) dayNames) /\
  (WeeklyAnalytics.totalStudyHours w == 0 /\ WeeklyAnalytics.completionRate w = 0%Z /\
   WeeklyAnalytics.avgFocusLevel w = 0%Z /\ WeeklyAnalytics.avgStressLevel w = 0%Z /\
   WeeklyAnalytics.breakVsStudyRatio w = 20%Z /\
   WeeklyAnalytics.subjectDistribution w = [] /\
   map DailyBreakdown.day (WeeklyAnalytics.dailyBreakdown w) = dayNames /\
   Forall (fun d => DailyBreakdown.studyHours d == 0 /\ DailyBreakdown.breakHours d == 0
                    /\ DailyBreakdown.sessions d = 0%nat)
          (WeeklyAnalytics.dailyBreakdown w) /\
   WeeklyAnalytics.emotionTrends w
   = map (fun day => {| EmotionTrend.day := day; EmotionTrend.emotion := "neutral";
                        EmotionTrend.focus := 0; EmotionTrend.stress := 0 |}) dayNames) /\
  (Binary64.Stats.wellnessScore (WellbeingStats.avgFocusLevel s)
     (WellbeingStats.avgStressLevel s) (List.length (JS.or_empty emotions)) = 30%Z /\
   Binary64.Stats.completionRate (JS.or_empty completions) None = 0%Z /\
   Binary64.Stats.emotionDistribution (JS.or_empty emotions) = []) /\
  (forall q', try_block q' = None ->
     fetchStats (Some user) q' h
     = ({| stats := stats h; weeklyAnalytics := weeklyAnalytics h; loading := false |},
        caught)).
Proof.
  intros He Hs Hc q s w.
  assert (E : fetchStats (Some user) q h
              = (let '(s0, w0) := aggregate emotions sessions completions None in
                 {| stats := s0; weeklyAnalytics := w0; loading := false |}, completed)).
  { unfold fetchStats, try_block, q. cbn [JS.await q_emotions q_sessions q_completions q_schedule].
    now destruct (aggregate _ _ _ _). }
  subst s w. rewrite E. clear E q.
  unfold aggregate. rewrite He, Hs, Hc. cbn [fst snd stats weeklyAnalytics loading].
  repeat split; try reflexivity.
  - repeat constructor; reflexivity.
  - intros q' Hq'. unfold fetchStats. now rewrite Hq'.
Qed.

Lemma fetchStats_empty_week_witness :
  snd (fetchStats (Some "user-1"%string) failed_queries initialHook) = completed /\
  WellbeingStats.burnoutRisk
    (stats (fst (fetchStats (Some "user-1"%string) failed_queries initialHook)))
  = "Low"%string.
Proof.
  pose proof (fetchStats_empty_week "user-1" initialHook None None None
                eq_refl eq_refl eq_refl) as H.
  cbv zeta in H. destruct H as (Ho & _ & (_ & _ & _ & Hb & _) & _).
  split; [exact Ho | exact Hb].
Defined.

(** The claim as stated fails: over an empty week the stored statistics are
    not the all-zero defaults.  The wellness score is 30 (the stress term
    [(100 - 0) * 0.3]), the per-day lists hold seven placeholder entries, and
    the break-to-study ratio is 20. *)
Lemma fetchStats_empty_week_not_defaults :
  let h := fst (fetchStats (Some "user-1"%string) failed_queries initialHook) in
  WellbeingStats.wellnessScore (stats h) = 30%Z /\
  Binary64.Stats.wellnessScore 0 0 0 = 30%Z /\
  WellbeingStats.wellnessScore initialStats = 0%Z /\
  List.length (WellbeingStats.weeklyEmotions (stats h)) = 7%nat /\
  List.length (WeeklyAnalytics.emotionTrends (weeklyAnalytics h)) = 7%nat /\
  WeeklyAnalytics.breakVsStudyRatio (weeklyAnalytics h) = 20%Z /\
  stats h <> initialStats.
Proof.
  cbv zeta. repeat split; try reflexivity.
  intros H. apply (f_equal WellbeingStats.wellnessScore) in H.
  vm_compute in H. discriminate.
Qed.

End EmptyWeek.

(** ** The schedule-generation function: error mapping *)

Section ErrorMapping.

Import generate_schedule GatewayCases.

Variable Json : Type.
Variable JSON_parse : string -> attempt Json.

Lemma serve_cases (req : Request) (key : option string) (env : nat -> Fetched) :
  method req <> "OPTIONS"%string ->
  (~ reaches_fetch req key /\ snd (serve Json JSON_parse req key env) = 0%nat /\
   exists message, fst (serve Json JSON_parse req key env) = internal_error message) \/
  (reaches_fetch req key /\ snd (serve Json JSON_parse req key env) = 1%nat /\
   after_fetch Json JSON_parse (env 0%nat) (fst (serve Json JSON_parse req key env))).
Proof using Type.
  intros Hm. unfold serve.
  apply String.eqb_neq in Hm. rewrite Hm.
  unfold try_block, bind, lift, call_fetch, ret, throw, reaches_fetch.
  destruct (json req) as [msg|body] eqn:Hj.
  { left. cbn. split; [|split; [reflexivity|eauto]].
    intros (b & k & Hb & _). discriminate. }
  destruct key as [[|c k]|].
  2:{ destruct (prompt_subjects (subjects body)) as [msg|[]] eqn:Hs.
      1:{ left. cbn. split; [|split; [reflexivity|eauto]].
          intros (b & k' & [= <-] & _ & _ & H). congruence. }
      right. split; [exists body, (String c k); repeat split; congruence|].
      unfold after_fetch.
      destruct (env 0%nat) as [msg|r]; [cbn; auto|].
      destruct (ok r) eqn:Hok; cbn [negb].
      - destruct (reply_content r) as [msg|content]; [cbn; auto|].
        destruct (JSON_parse (clean_markdown content)); cbn; auto.
      - destruct (reply_status r =? 429)%nat; [cbn; auto|].
        destruct (reply_status r =? 402)%nat; [cbn; auto|].
        destruct (reply_text r); cbn; eauto. }
  all: left; cbn; (split; [|split; [reflexivity|eauto]]);
    intros (b & k' & _ & Hk & Hne & _); congruence.
Qed.


End ErrorMapping.


(** ** The popup appears at most once a day *)

Section PopupOnce.

Import EndOfDaySummary TriggerRuns Samples.Day.

Lemma keys_differ : SUMMARY_STORAGE_KEY <> ALL_SESSIONS_COMPLETE_KEY.
Proof. discriminate. Qed.

Lemma dismiss_closes (now : JS.Date) (h : Hook) :
  pending h = [] -> closed_for (JS.isoDate now) (dismissSummary now h).
Proof.
  intros Hp. unfold closed_for, dismissSummary; cbn.
  repeat split; auto.
  - rewrite lookup_insert_ne by (apply not_eq_sym, keys_differ).
    apply lookup_insert_eq.
  - apply lookup_insert_eq.
Qed.

Lemma checkAndShowSummary_closed (day : string) (now : JS.Date) (h : Hook) :
  JS.isoDate now = day -> localStorage h !! SUMMARY_STORAGE_KEY = Some day ->
  checkAndShowSummary now h = h.
Proof.
  intros <- Hk. unfold checkAndShowSummary.
  destruct (JS.getHours now <? 20)%nat; [reflexivity|].
  rewrite Hk. now rewrite bool_decide_eq_true_2.
Qed.

Lemma triggerOnAllSessionsComplete_closed (now : JS.Date) (h : Hook) :
  hasTriggeredRef h = true -> triggerOnAllSessionsComplete now h = h.
Proof. intros H. unfold triggerOnAllSessionsComplete. now rewrite H. Qed.

(** A closed day stays closed under every automatic event of that day. *)
Lemma step_closed (day : string) (e : Event) (h : Hook) :
  closed_for day h -> on_day day e -> automatic e -> closed_for day (step e h).
Proof.
  intros (Hs & Hp & Hr & Hk1 & Hk2) Hd Ha.
  destruct e as [now|now|now|i v|now|]; cbn [step on_day] in *.
  - unfold effect. subst day. rewrite Hk2, bool_decide_eq_true_2 by reflexivity.
    rewrite triggerOnAllSessionsComplete_closed by assumption.
    rewrite (checkAndShowSummary_closed (JS.isoDate now)) by auto.
    repeat split; assumption.
  - rewrite (checkAndShowSummary_closed day) by auto. repeat split; assumption.
  - rewrite triggerOnAllSessionsComplete_closed by assumption.
    repeat split; assumption.
  - rewrite Hp. destruct i; cbn; repeat split; assumption.
  - subst day. apply dismiss_closes. assumption.
  - now elim Ha.
Qed.

Lemma appearances_closed (day : string) (trace : list Event) (h : Hook) :
  closed_for day h -> Forall (on_day day) trace -> Forall automatic trace ->
  appearances trace h = 0%nat.
Proof.
  revert h. induction trace as [|e trace IH]; intros h Hc Hd Ha; [reflexivity|].
  inversion Hd; inversion Ha; subst.
  pose proof (step_closed day e h Hc ltac:(assumption) ltac:(assumption)) as Hc'.
  cbn [appearances]. rewrite (IH _ Hc') by assumption.
  unfold appears. destruct Hc' as (-> & _). now rewrite andb_false_r.
Qed.

(** The callbacks never close the dialog: only a dismissal does. *)
Lemma suspend_showPopup t h : showPopup (suspend t h) = showPopup h.
Proof. reflexivity. Qed.

Lemma checkAndShowSummary_showPopup now h :
  showPopup (checkAndShowSummary now h) = showPopup h.
Proof.
  unfold checkAndShowSummary.
  destruct (JS.getHours now <? 20)%nat; [reflexivity|].
  now destruct (bool_decide _).
Qed.

Lemma triggerOnAllSessionsComplete_showPopup now h :
  showPopup (triggerOnAllSessionsComplete now h) = showPopup h.
Proof.
  unfold triggerOnAllSessionsComplete.
  destruct (hasTriggeredRef h); [reflexivity|].
  now destruct (bool_decide _).
Qed.

Lemma effect_showPopup now h : showPopup (effect now h) = showPopup h.
Proof.
  unfold effect.
  rewrite checkAndShowSummary_showPopup, triggerOnAllSessionsComplete_showPopup.
  now destruct (bool_decide _).
Qed.

Lemma resume_showPopup t v h h' :
  resume t v h = Some h' -> showPopup h = true -> showPopup h' = true.
Proof.
  destruct t, v as [b|[s|]]; cbn; intros [= <-]; auto.
  unfold triggerOnAllSessionsComplete_checked. now destruct b.
Qed.

Lemma step_open (e : Event) (h : Hook) :
  showPopup h = true -> (forall now, e <> Dismiss now) -> showPopup (step e h) = true.
Proof.
  intros Hs He. destruct e as [now|now|now|i v|now|]; cbn [step].
  - now rewrite effect_showPopup.
  - now rewrite checkAndShowSummary_showPopup.
  - now rewrite triggerOnAllSessionsComplete_showPopup.
  - destruct (nth_error (pending h) i) as [t|]; [|assumption].
    destruct (resume t v _) as [h'|] eqn:Hr; [|assumption].
    eapply resume_showPopup; [exact Hr | exact Hs].
  - now elim (He now).
  - assumption.
Qed.

(** While the dialog is open nothing makes it appear. *)
Lemma appearances_open (day : string) (trace : list Event) (h : Hook) :
  showPopup h = true ->
  Forall (on_day day) trace -> Forall automatic trace -> quiet_dismissals trace h ->
  appearances trace h = 0%nat.
Proof.
  revert h. induction trace as [|e trace IH]; intros h Hs Hd Ha Hq; [reflexivity|].
  inversion Hd as [|? ? Hd1 Hd2]; inversion Ha as [|? ? Ha1 Ha2]; subst.
  destruct Hq as [Hq1 Hq2]. cbn [appearances].
  assert (Happ : appears h (step e h) = 0%nat)
    by (unfold appears; now rewrite Hs).
  rewrite Happ. cbn [Nat.add].
  assert (Hopen : (forall now, e <> Dismiss now) ->
                  appearances trace (step e h) = 0%nat).
  { intros He. apply IH; auto. now apply step_open. }
  destruct e as [now|now|now|i v|now|]; try (apply Hopen; discriminate).
  cbn [on_day] in Hd1.
  apply (appearances_closed day); auto.
  cbn [step]. subst day. now apply dismiss_closes.
Qed.

End PopupOnce.

(** ** The popup appears at most once a day, across mounts *)

Section PopupOncePerDay.

Import EndOfDaySummary Mounts Samples.Day.

Lemma triggerOnAllSessionsComplete_stored (day : string) (now : JS.Date) (h : Hook) :
  JS.isoDate now = day -> localStorage h !! ALL_SESSIONS_COMPLETE_KEY = Some day ->
  triggerOnAllSessionsComplete now h = h.
Proof.
  intros <- Hk. unfold triggerOnAllSessionsComplete.
  destruct (hasTriggeredRef h); [reflexivity|].
  rewrite Hk. now rewrite bool_decide_eq_true_2.
Qed.

(** With both dates stored, the effect of a mount starts nothing and leaves
    the flag as it is. *)
Lemma effect_stored (day : string) (now : JS.Date) (h : Hook) :
  JS.isoDate now = day -> stored day (localStorage h) -> effect now h = h.
Proof.
  intros Hd [Hk1 Hk2]. unfold effect. subst day.
  rewrite Hk2, bool_decide_eq_true_2 by reflexivity.
  rewrite (triggerOnAllSessionsComplete_stored (JS.isoDate now)) by auto.
  now apply (checkAndShowSummary_closed (JS.isoDate now)).
Qed.

Lemma stored_insert_complete (day : string) (s : gmap string string) :
  stored day s -> stored day (<[ALL_SESSIONS_COMPLETE_KEY := day]> s).
Proof.
  intros [Hk1 Hk2]. split.
  - rewrite lookup_insert_ne by (apply not_eq_sym, keys_differ). exact Hk1.
  - apply lookup_insert_eq.
Qed.

Lemma dismissSummary_stored (now : JS.Date) (h : Hook) :
  stored (JS.isoDate now) (localStorage (dismissSummary now h)).
Proof.
  unfold dismissSummary; cbn. split.
  - rewrite lookup_insert_ne by (apply not_eq_sym, keys_differ).
    apply lookup_insert_eq.
  - apply lookup_insert_eq.
Qed.

Lemma resume_stored (day : string) (t : Task) (v : Settled) (h h' : Hook) :
  dated day t -> stored day (localStorage h) -> resume t v h = Some h' ->
  stored day (localStorage h').
Proof.
  intros Ht Hs.
  destruct t as [|today|today|], v as [b|[s|]]; cbn [resume]; intros [= <-];
    try exact Hs.
  - unfold triggerOnAllSessionsComplete_checked. now destruct b.
  - cbn [dated] in Ht. subst today. cbn. now apply stored_insert_complete.
Qed.

(** On one date, whatever the hook does keeps two stored dates of that date
    in place, as long as the evaluations in flight were begun on it. *)
Lemma step_stored (day : string) (e : EndOfDaySummary.Event) (h : Hook) :
  on_day day (On e) -> Forall (dated day) (pending h) ->
  stored day (localStorage h) -> stored day (localStorage (EndOfDaySummary.step e h)).
Proof.
  intros Hd Hp Hs. destruct e as [now|now|now|i v|now|]; cbn [EndOfDaySummary.step on_day] in *.
  - now rewrite (effect_stored day).
  - destruct Hs as [Hk1 Hk2]. rewrite (checkAndShowSummary_closed day) by auto. now split.
  - destruct Hs as [Hk1 Hk2].
    rewrite (triggerOnAllSessionsComplete_stored day) by auto. now split.
  - destruct (nth_error (pending h) i) as [t|] eqn:Et; [|exact Hs].
    destruct (resume t v _) as [h'|] eqn:Er; [|exact Hs].
    refine (resume_stored day t v _ h' _ _ Er); [|exact Hs].
    apply nth_error_In in Et. rewrite List.Forall_forall in Hp. now apply Hp.
  - subst day. apply dismissSummary_stored.
  - exact Hs.
Qed.

Lemma dated_remove_nth (day : string) (i : nat) (l : list Task) :
  Forall (dated day) l -> Forall (dated day) (remove_nth i l).
Proof.
  intros H. unfold remove_nth. apply List.Forall_app. split.
  - now apply Forall_take.
  - now apply Forall_drop.
Qed.

Lemma checkAndShowSummary_dated (day : string) (now : JS.Date) (h : Hook) :
  Forall (dated day) (pending h) ->
  Forall (dated day) (pending (checkAndShowSummary now h)).
Proof.
  intros H. unfold checkAndShowSummary.
  destruct (JS.getHours now <? 20)%nat; [assumption|].
  destruct (bool_decide _); [assumption|]. cbn.
  apply List.Forall_app. split; [assumption|]. now repeat constructor.
Qed.

Lemma triggerOnAllSessionsComplete_dated (day : string) (now : JS.Date) (h : Hook) :
  JS.isoDate now = day -> Forall (dated day) (pending h) ->
  Forall (dated day) (pending (triggerOnAllSessionsComplete now h)).
Proof.
  intros Hd H. unfold triggerOnAllSessionsComplete.
  destruct (hasTriggeredRef h); [assumption|].
  destruct (bool_decide _); [assumption|]. cbn.
  apply List.Forall_app. split; [assumption|]. now repeat constructor.
Qed.

Lemma effect_dated (day : string) (now : JS.Date) (h : Hook) :
  JS.isoDate now = day -> Forall (dated day) (pending h) ->
  Forall (dated day) (pending (effect now h)).
Proof.
  intros Hd H. unfold effect.
  apply checkAndShowSummary_dated, triggerOnAllSessionsComplete_dated; [assumption|].
  now destruct (bool_decide _).
Qed.

Lemma resume_dated (day : string) (t : Task) (v : Settled) (h h' : Hook) :
  dated day t -> Forall (dated day) (pending h) -> resume t v h = Some h' ->
  Forall (dated day) (pending h').
Proof.
  intros Ht Hp.
  destruct t as [|today|today|], v as [b|[s|]]; cbn [resume]; intros [= <-];
    try exact Hp.
  unfold triggerOnAllSessionsComplete_checked. destruct b; [|exact Hp]. cbn.
  apply List.Forall_app. split; [assumption|]. now repeat constructor.
Qed.

(** On one date, the evaluations in flight stay evaluations of that date. *)
Lemma step_dated (day : string) (e : EndOfDaySummary.Event) (h : Hook) :
  on_day day (On e) -> Forall (dated day) (pending h) ->
  Forall (dated day) (pending (EndOfDaySummary.step e h)).
Proof.
  intros Hd Hp. destruct e as [now|now|now|i v|now|]; cbn [EndOfDaySummary.step on_day] in *.
  - now apply effect_dated.
  - now apply checkAndShowSummary_dated.
  - now apply triggerOnAllSessionsComplete_dated.
  - destruct (nth_error (pending h) i) as [t|] eqn:Et; [|exact Hp].
    destruct (resume t v _) as [h'|] eqn:Er; [|exact Hp].
    refine (resume_dated day t v _ h' _ _ Er).
    + apply nth_error_In in Et. rewrite List.Forall_forall in Hp. now apply Hp.
    + cbn. now apply dated_remove_nth.
  - exact Hp.
  - cbn. apply List.Forall_app. split; [assumption|]. now repeat constructor.
Qed.

Lemma behind_dated (day : string) (p : Page) (k : nat) (h : Hook) :
  begun_on day p -> nth_error (behind p) k = Some h -> Forall (dated day) (pending h).
Proof.
  intros [_ Hb] Hk. apply nth_error_In in Hk.
  rewrite List.Forall_forall in Hb. now apply Hb.
Qed.

Lemma step_begun_on (day : string) (e : Mounts.Event) (p : Page) :
  on_day day e -> begun_on day p -> begun_on day (Mounts.step e p).
Proof.
  intros Hd Hp. pose proof Hp as [Hl Hb].
  destruct e as [e|now|k e]; cbn [Mounts.step].
  - split; [|exact Hb]. cbn [live]. now apply step_dated.
  - cbn [on_day] in Hd. split; cbn [live behind].
    + apply effect_dated; [assumption|]. constructor.
    + apply List.Forall_app. split; [assumption|]. now repeat constructor.
  - destruct (nth_error (behind p) k) as [h|] eqn:Ek; [|exact Hp].
    pose proof (behind_dated day p k h Hp Ek) as Hh.
    assert (Hstep : Forall (dated day)
                      (pending (EndOfDaySummary.step e
                                  (with_storage (localStorage (live p)) h)))).
    { apply step_dated; [exact Hd | exact Hh]. }
    destruct e as [now|now|now|i v|now|]; try exact Hp.
    + split; cbn [live behind]; [exact Hl|]. now apply Forall_insert.
    + split; cbn [live behind]; [exact Hl|]. now apply Forall_insert.
Qed.

(** Once the day is shut, it stays shut under every automatic event of that
    day, in the present mount, at a new mount and in the mounts removed. *)
Lemma step_shut (day : string) (e : Mounts.Event) (p : Page) :
  shut day p -> begun_on day p -> on_day day e -> automatic e ->
  shut day (Mounts.step e p).
Proof.
  intros (Hs & Hp & Hk) Hb Hd Ha. unfold shut.
  destruct e as [e|now|k e]; cbn [Mounts.step].
  - destruct e as [now|now|now|i v|now|]; cbn [EndOfDaySummary.step on_day live] in *.
    + rewrite (effect_stored day) by assumption. auto.
    + destruct Hk as [Hk1 Hk2].
      rewrite (checkAndShowSummary_closed day) by assumption. now repeat split.
    + destruct Hk as [Hk1 Hk2].
      rewrite (triggerOnAllSessionsComplete_stored day) by assumption.
      now repeat split.
    + rewrite Hp. destruct i; cbn; auto.
    + subst day. split; [reflexivity|]. split; [exact Hp|].
      apply dismissSummary_stored.
    + now elim Ha.
  - cbn [on_day] in Hd. cbn [live].
    rewrite (effect_stored day) by assumption. cbn. auto.
  - destruct (nth_error (behind p) k) as [h|] eqn:Ek; [|auto].
    pose proof (behind_dated day p k h Hb Ek) as Hh.
    assert (Hstep : stored day
                      (localStorage (EndOfDaySummary.step e
                                       (with_storage (localStorage (live p)) h)))).
    { apply step_stored; [exact Hd | exact Hh | exact Hk]. }
    destruct e as [now|now|now|i v|now|]; auto;
      (split; [exact Hs|]; split; [exact Hp|]; exact Hstep).
Qed.

Lemma appearances_shut (day : string) (trace : list Mounts.Event) (p : Page) :
  shut day p -> begun_on day p ->
  Forall (on_day day) trace -> Forall automatic trace ->
  Mounts.appearances trace p = 0%nat.
Proof.
  revert p. induction trace as [|e trace IH]; intros p Hs Hb Hd Ha; [reflexivity|].
  inversion Hd; inversion Ha; subst.
  pose proof (step_shut day e p Hs Hb ltac:(assumption) ltac:(assumption)) as Hs'.
  pose proof (step_begun_on day e p ltac:(assumption) Hb) as Hb'.
  cbn [Mounts.appearances]. rewrite (IH _ Hs' Hb') by assumption.
  unfold appears. destruct Hs' as (-> & _). now rewrite andb_false_r.
Qed.

(** What a removed mount does leaves the dialog of the present one as it
    is. *)
Lemma behind_showPopup (k : nat) (e : EndOfDaySummary.Event) (p : Page) :
  showPopup (live (Mounts.step (Behind k e) p)) = showPopup (live p).
Proof.
  cbn [Mounts.step]. destruct (nth_error (behind p) k); [|reflexivity].
  now destruct e.
Qed.

(** While the dialog is open nothing makes it appear, and after its
    dismissal the day is shut. *)
Lemma appearances_while_open (day : string) (trace : list Mounts.Event) (p : Page) :
  showPopup (live p) = true -> begun_on day p ->
  Forall (on_day day) trace -> Forall automatic trace ->
  quiet_dismissals trace p -> stays_while_open trace p ->
  Mounts.appearances trace p = 0%nat.
Proof.
  revert p. induction trace as [|e trace IH]; intros p Hs Hb Hd Ha Hq Hw;
    [reflexivity|].
  inversion Hd as [|? ? Hd1 Hd2]; inversion Ha as [|? ? Ha1 Ha2]; subst.
  destruct Hq as [Hq1 Hq2], Hw as [Hw1 Hw2]. cbn [Mounts.appearances].
  assert (Happ : appears (live p) (live (Mounts.step e p)) = 0%nat)
    by (unfold appears; now rewrite Hs).
  rewrite Happ. cbn [Nat.add].
  pose proof (step_begun_on day e p Hd1 Hb) as Hb'.
  destruct e as [e|now|k e].
  - assert (Hopen : (forall now, e <> Dismiss now) ->
                    Mounts.appearances trace (Mounts.step (On e) p) = 0%nat).
    { intros He. apply IH; auto. cbn [Mounts.step live]. now apply step_open. }
    destruct e as [now|now|now|i v|now|]; try (apply Hopen; discriminate).
    cbn [on_day] in Hd1. apply (appearances_shut day); auto.
    cbn [Mounts.step]. subst day. split; [reflexivity|]. split; [exact Hq1|].
    cbn [live EndOfDaySummary.step]. apply dismissSummary_stored.
  - congruence.
  - apply IH; auto. now rewrite behind_showPopup.
Qed.

(** C2, as the code has it.  For every sequence of events of one calendar
    date (the UTC date the code compares and stores): mounts and remounts
    of the component, interval ticks before or after 20:00, completion
    events, fetches settling in any order, in the present mount and in the
    mounts removed, and dismissals, the manual trigger apart; with every
    evaluation in flight begun on that date; the popup appears at most once,
    provided no evaluation of the present mount is still in flight when the
    dialog is dismissed and the component is not removed while the dialog is
    open. *)
Theorem popup_appears_at_most_once (day : string) (trace : list Mounts.Event)
    (p : Page) :
  Forall (on_day day) trace -> Forall automatic trace ->
  begun_on day p -> quiet_dismissals trace p -> stays_while_open trace p ->
  (Mounts.appearances trace p <= 1)%nat.
Proof.
  revert p. induction trace as [|e trace IH]; intros p Hd Ha Hb Hq Hw; [cbn; lia|].
  inversion Hd as [|? ? Hd1 Hd2]; inversion Ha as [|? ? Ha1 Ha2]; subst.
  destruct Hq as [Hq1 Hq2], Hw as [Hw1 Hw2]. cbn [Mounts.appearances].
  pose proof (step_begun_on day e p Hd1 Hb) as Hb'.
  destruct (showPopup (live (Mounts.step e p))) eqn:Hs'.
  - rewrite (appearances_while_open day) by assumption.
    unfold appears. destruct (negb (showPopup (live p)) && showPopup (live (Mounts.step e p))); lia.
  - unfold appears. rewrite Hs', andb_false_r. cbn [Nat.add]. now apply IH.
Qed.

Lemma popup_appears_at_most_once_witness :
  (Mounts.appearances Evenings.dismissed_then_remounted opened <= 1)%nat.
Proof.
  apply (popup_appears_at_most_once "2025-12-08").
  - repeat constructor.
  - repeat constructor; discriminate.
  - split; constructor.
  - cbn. repeat split; reflexivity.
  - cbn. repeat split; reflexivity.
Defined.

(** The claim as stated fails, and each proviso is needed.  On one calendar
    date, with automatic events only and the page opened in a browser that
    has stored nothing, the popup appears twice:
    - when the dialog is dismissed while the completion evaluation, already
      past its guards, is still in flight: it shows the summary again after
      the dismissal has stored today's date under both keys;
    - when the page is left while the dialog is open and entered again:
      nothing was stored, and the time evaluation of the new mount shows the
      summary again.
    And with both provisos met the popup appears twice on one local
    calendar day when the UTC date changes in between: the date stored at
    the dismissal is no longer today's at 20:00. *)
Lemma popup_appears_twice :
  (Forall (on_day "2025-12-08") Evenings.overlapping /\
   Forall automatic Evenings.overlapping /\
   stays_while_open Evenings.overlapping opened /\
   (let dismissed := Mounts.run (firstn 4 Evenings.overlapping) opened in
    showPopup (live dismissed) = false /\
    stored "2025-12-08" (localStorage (live dismissed))) /\
   showPopup (live (Mounts.run Evenings.overlapping opened)) = true /\
   Mounts.appearances Evenings.overlapping opened = 2%nat) /\
  (Forall (on_day "2025-12-08") Evenings.left_open /\
   Forall automatic Evenings.left_open /\
   quiet_dismissals Evenings.left_open opened /\
   Mounts.appearances Evenings.left_open opened = 2%nat) /\
  (JS.getDay monday_afternoon = JS.getDay monday_evening_west /\
   Forall automatic Evenings.across_utc_midnight /\
   quiet_dismissals Evenings.across_utc_midnight opened /\
   stays_while_open Evenings.across_utc_midnight opened /\
   Mounts.appearances Evenings.across_utc_midnight opened = 2%nat).
Proof.
  split; [|split].
  - split; [repeat constructor|]. split; [repeat constructor; discriminate|].
    split; [cbn; repeat split; reflexivity|].
    split; [cbv zeta; repeat split; vm_compute; reflexivity|].
    split; vm_compute; reflexivity.
  - split; [repeat constructor|]. split; [repeat constructor; discriminate|].
    split; [cbn; repeat split; reflexivity | vm_compute; reflexivity].
  - split; [reflexivity|]. split; [repeat constructor; discriminate|].
    split; [cbn; repeat split; reflexivity|].
    split; [cbn; repeat split; reflexivity | vm_compute; reflexivity].
Qed.

End PopupOncePerDay.

(** ** Consequences for single days *)

Section SingleDays.

Import EndOfDaySummary DecisionTable TriggerRuns Samples.Day.
Local Open Scope Q_scope.

(** High stress with less than half of the sessions completed is [stressed],
    whatever the other features are: the first row decides. *)
Lemma stressed_short_circuits (d : BaseData) :
  JS.ge (avgStress d) 7 = true -> JS.lt (completionRate d) 0.5 = true ->
  state (generateMessage d) = stressed.
Proof.
  intros Hs Hr. pose proof (generateMessage_table d) as H.
  unfold rows, first_match in H. rewrite Hs, Hr in H.
  cbn [andb] in H. now injection H.
Qed.

Lemma stressed_short_circuits_witness : state (generateMessage stressed_day) = stressed.
Proof. apply stressed_short_circuits; reflexivity. Defined.

Lemma ge_not_lt (x y z : Q) : y < z -> JS.ge x z = true -> JS.lt x y = false.
Proof.
  intros Hyz H. unfold JS.ge in H. apply le_iff in H.
  destruct (JS.lt x y) eqn:E; [|reflexivity].
  apply lt_iff in E. exfalso.
  apply (Qlt_irrefl x). eapply Qlt_le_trans; [exact E|].
  apply Qlt_le_weak. eapply Qlt_le_trans; eassumption.
Qed.

(** With at least four fifths of the sessions completed and the goal reached,
    the day is [proud]. *)
Lemma proud_when_goal_reached (d : BaseData) :
  JS.ge (completionRate d) 0.8 = true -> goalReached d = true ->
  state (generateMessage d) = proud.
Proof.
  intros Hr Hg. pose proof (generateMessage_table d) as H.
  unfold rows, first_match in H.
  rewrite (ge_not_lt (completionRate d) 0.5 0.8) in H by (reflexivity || assumption).
  rewrite andb_false_r, Hr, Hg in H. cbn [andb] in H. now injection H.
Qed.

Lemma proud_when_goal_reached_witness : state (generateMessage proud_day) = proud.
Proof. apply proud_when_goal_reached; reflexivity. Defined.

(** Without study time and with emotion logs, a day that none of the first
    three rows claims is [recovering]. *)
Lemma recovering_rest_day (d : BaseData) :
  JS.strict_eq (studyHours d) 0 = true -> (0 < emotionCount d)%nat ->
  state (generateMessage d) <> stressed ->
  state (generateMessage d) <> proud ->
  state (generateMessage d) <> motivated ->
  state (generateMessage d) = recovering.
Proof.
  intros H0 He N1 N2 N3. pose proof (generateMessage_table d) as H.
  unfold rows, first_match in H.
  assert (Hgt : JS.gt (studyHours d) 0 = false).
  { unfold JS.gt. apply strict_eq_iff in H0.
    destruct (JS.lt 0 (studyHours d)) eqn:E; [|reflexivity].
    apply lt_iff in E. rewrite H0 in E. now apply Qlt_irrefl in E. }
  rewrite Hgt, H0 in H. apply Nat.ltb_lt in He. rewrite He in H.
  cbn [andb] in H.
  repeat match type of H with
         | (if ?b then _ else _) = _ => destruct b
         end; injection H as H; congruence.
Qed.

Lemma recovering_rest_day_witness : state (generateMessage rest_day) = recovering.
Proof.
  apply recovering_rest_day; try reflexivity; try (cbn; lia);
    vm_compute; discriminate.
Defined.

(** Once the dialog has been dismissed with nothing in flight, neither
    trigger does anything for the rest of that day. *)
Lemma dismissal_blocks_triggers (now later : JS.Date) (h : Hook) :
  pending h = [] -> JS.isoDate later = JS.isoDate now ->
  checkAndShowSummary later (dismissSummary now h) = dismissSummary now h /\
  triggerOnAllSessionsComplete later (dismissSummary now h) = dismissSummary now h.
Proof.
  intros Hp Hd. destruct (dismiss_closes now h Hp) as (_ & _ & Hr & Hk & _).
  split.
  - now apply (checkAndShowSummary_closed (JS.isoDate now)).
  - now apply triggerOnAllSessionsComplete_closed.
Qed.

(** The stored date is the UTC date while the hour is local: a dismissal
    does not block the time trigger once the UTC date has moved on, even on
    the same local day and with nothing in flight at the dismissal. *)
Lemma utc_date_rearms_time_trigger :
  JS.getDay monday_afternoon = JS.getDay monday_evening_west /\
  Forall automatic dismissed_before_utc_midnight /\
  quiet_dismissals dismissed_before_utc_midnight mounted /\
  appearances dismissed_before_utc_midnight mounted = 2%nat.
Proof.
  split; [reflexivity|]. split; [repeat constructor; discriminate|].
  split; [cbn; repeat split; reflexivity | vm_compute; reflexivity].
Qed.

Lemma dismissal_blocks_triggers_witness :
  checkAndShowSummary evening (dismissSummary evening mounted)
  = dismissSummary evening mounted.
Proof.
  exact (proj1 (dismissal_blocks_triggers evening evening mounted eq_refl eq_refl)).
Defined.

End SingleDays.

(** * Further properties *)

(** ** Sorting by a key, largest first *)

Section Sorting.

Local Open Scope Q_scope.
Import Tally.

Context {A : Type} (key : A -> Q).

Let cmp : A -> A -> JS.number := fun a b => key b - key a.

Lemma sort_insert_Permutation (x : A) (l : list A) :
  Permutation (JS.sort_insert cmp x l) (x :: l).
Proof using Type.
  induction l as [|y l IH]; cbn [JS.sort_insert].
  - reflexivity.
  - destruct (JS.gt (cmp y x) 0).
    + reflexivity.
    + rewrite IH. apply perm_swap.
Qed.

Lemma Array_sort_Permutation (l : list A) : Permutation (JS.Array_sort cmp l) l.
Proof using Type.
  unfold JS.Array_sort.
  enough (H : forall acc, Permutation
            (fold_left (fun acc x => JS.sort_insert cmp x acc) l acc) (acc ++ l))
    by apply (H []).
  induction l as [|x l IH]; intros acc; cbn [fold_left].
  - rewrite app_nil_r. reflexivity.
  - rewrite IH, sort_insert_Permutation.
    change (x :: acc ++ l) with ((x :: acc) ++ l).
    rewrite (Permutation_middle acc l x). reflexivity.
Qed.

Lemma sort_insert_descending (x : A) (l : list A) :
  descending (map key l) -> descending (map key (JS.sort_insert cmp x l)).
Proof using Type.
  induction l as [|y l IH]; cbn [JS.sort_insert map descending].
  - intros _. split; [intros ? []|exact I].
  - intros [Hy Hl].
    destruct (JS.gt (cmp y x) 0) eqn:E; cbn [map descending].
    + apply lt_iff in E. unfold cmp in E.
      assert (Hyx : key y <= key x) by lra.
      split; [|split; assumption].
      intros z [<-|Hz]; [assumption|].
      apply Qle_trans with (key y); auto.
    + assert (Hxy : key x <= key y).
      { destruct (Qlt_le_dec (key y) (key x)) as [Hlt|]; [|assumption].
        assert (JS.gt (cmp y x) 0 = true) by (apply lt_iff; unfold cmp; lra).
        congruence. }
      split; [|auto].
      intros z Hz.
      apply (Permutation_in z (Permutation_map key (sort_insert_Permutation x l))) in Hz.
      destruct Hz as [<-|Hz]; auto.
Qed.

Lemma Array_sort_descending (l : list A) :
  descending (map key (JS.Array_sort cmp l)).
Proof using Type.
  unfold JS.Array_sort.
  enough (H : forall acc, descending (map key acc) ->
            descending (map key (fold_left (fun acc x => JS.sort_insert cmp x acc) l acc)))
    by (apply H; exact I).
  induction l as [|x l IH]; intros acc Hacc; cbn [fold_left].
  - assumption.
  - apply IH, sort_insert_descending, Hacc.
Qed.

Lemma Array_sort_length (l : list A) : List.length (JS.Array_sort cmp l) = List.length l.
Proof using Type. apply Permutation_length, Array_sort_Permutation. Qed.

End Sorting.

(** ** Counting labels in an object *)

(** [ring], with the sums of lists as atoms. *)
Ltac ring_total :=
  repeat (let t := fresh "t" in set (t := Tally.total _); clearbody t);
  ring.

Section Counting.

Local Open Scope Q_scope.
Import Tally.

Lemma obj_get_set_eq {V} (o : JS.Obj V) (k : string) (v : V) :
  JS.obj_get (JS.obj_set o k v) k = Some v.
Proof.
  induction o as [|[k' v'] o IH]; cbn [JS.obj_set JS.obj_get].
  - now rewrite String.eqb_refl.
  - destruct (String.eqb k' k) eqn:E; cbn [JS.obj_get]; rewrite E; auto.
Qed.

Lemma obj_get_set_ne {V} (o : JS.Obj V) (k k' : string) (v : V) :
  k <> k' -> JS.obj_get (JS.obj_set o k v) k' = JS.obj_get o k'.
Proof.
  intros Hne.
  induction o as [|[k0 v0] o IH]; cbn [JS.obj_set JS.obj_get].
  - destruct (String.eqb k k') eqn:E; [apply String.eqb_eq in E; contradiction|reflexivity].
  - destruct (String.eqb k0 k) eqn:E; cbn [JS.obj_get].
    + apply String.eqb_eq in E. subst k0.
      destruct (String.eqb k k') eqn:E'; [apply String.eqb_eq in E'; contradiction|reflexivity].
    + now rewrite IH.
Qed.

Lemma obj_get_None {V} (o : JS.Obj V) (k : string) :
  JS.obj_get o k = None <-> ~ In k (map fst o).
Proof.
  induction o as [|[k' v'] o IH]; cbn [JS.obj_get map fst In].
  - tauto.
  - destruct (String.eqb k' k) eqn:E.
    + apply String.eqb_eq in E. split; [discriminate|tauto].
    + apply String.eqb_neq in E. rewrite IH. tauto.
Qed.

Lemma obj_get_In {V} (o : JS.Obj V) (k : string) (v : V) :
  JS.obj_get o k = Some v -> In (k, v) o.
Proof.
  induction o as [|[k' v'] o IH]; cbn [JS.obj_get In]; [discriminate|].
  destruct (String.eqb k' k) eqn:E.
  - apply String.eqb_eq in E. intros [= ->]. subst. now left.
  - auto.
Qed.

Lemma In_obj_get {V} (o : JS.Obj V) (k : string) (v : V) :
  List.NoDup (map fst o) -> In (k, v) o -> JS.obj_get o k = Some v.
Proof.
  induction o as [|[k' v'] o IH]; cbn [JS.obj_get In map fst]; [tauto|].
  intros Hnd [Heq|Hin].
  - injection Heq as -> ->. now rewrite String.eqb_refl.
  - apply List.NoDup_cons_iff in Hnd as [Hk' Hnd].
    destruct (String.eqb k' k) eqn:E.
    + apply String.eqb_eq in E. subst k'.
      exfalso. apply Hk'. apply (in_map fst) in Hin. exact Hin.
    + auto.
Qed.

Lemma obj_set_keys {V} (o : JS.Obj V) (k : string) (v : V) :
  map fst (JS.obj_set o k v)
  = match JS.obj_get o k with
    | Some _ => map fst o
    | None => map fst o ++ [k]
    end.
Proof.
  induction o as [|[k' v'] o IH]; cbn [JS.obj_set JS.obj_get map fst app].
  - reflexivity.
  - destruct (String.eqb k' k) eqn:E; cbn [map fst].
    + reflexivity.
    + rewrite IH. now destruct (JS.obj_get o k).
Qed.

Lemma obj_set_NoDup {V} (o : JS.Obj V) (k : string) (v : V) :
  List.NoDup (map fst o) -> List.NoDup (map fst (JS.obj_set o k v)).
Proof.
  intros Hnd. rewrite obj_set_keys.
  destruct (JS.obj_get o k) eqn:E; [assumption|].
  apply obj_get_None in E.
  apply NoDup_ListNoDup, NoDup_app. repeat split.
  - now apply NoDup_ListNoDup.
  - intros x Hx Hk. apply list_elem_of_In in Hx.
    apply list_elem_of_In in Hk. destruct Hk as [<-|[]]. contradiction.
  - apply NoDup_ListNoDup. constructor; [intros []|constructor].
Qed.

Lemma obj_set_total (o : JS.Obj Q) (k : string) (x : Q) :
  total (map snd (JS.obj_add o k x)) == total (map snd o) + x.
Proof.
  unfold JS.obj_add.
  induction o as [|[k' v'] o IH]; cbn [JS.obj_set JS.obj_get map snd total].
  - ring.
  - destruct (String.eqb k' k) eqn:E; cbn [map snd total].
    + ring_total.
    + rewrite IH. ring_total.
Qed.

Lemma occurrences_app (k : string) (l l' : list string) :
  occurrences k (l ++ l') = (occurrences k l + occurrences k l')%nat.
Proof. unfold occurrences. now rewrite List.filter_app, List.length_app. Qed.

Lemma occurrences_In (k : string) (l : list string) :
  (0 < occurrences k l)%nat <-> In k l.
Proof.
  unfold occurrences. induction l as [|x l IH]; cbn [List.filter In].
  - cbn. lia.
  - destruct (String.eqb k x) eqn:E.
    + apply String.eqb_eq in E. cbn [List.length]. split; [auto|lia].
    + apply String.eqb_neq in E. rewrite IH. split; [auto|intros [?|?]; congruence].
Qed.

(** An object that holds, for each label seen, the number of times it was
    seen. *)
Definition tallies (o : JS.Obj JS.number) (labels : list string) : Prop :=
  List.NoDup (map fst o)
  /\ forall k,
       match JS.obj_get o k with
       | Some v => v == JS.of_nat (occurrences k labels) /\ (0 < occurrences k labels)%nat
       | None => occurrences k labels = 0%nat
       end.

Lemma tallies_nil : tallies [] [].
Proof. split; [constructor|intros k; reflexivity]. Qed.

Lemma tallies_add (o : JS.Obj JS.number) (labels : list string) (k : string) :
  tallies o labels -> tallies (JS.obj_add o k 1) (labels ++ [k]).
Proof.
  intros [Hnd Hget]. split.
  - now apply obj_set_NoDup.
  - intros k'. rewrite occurrences_app. unfold JS.obj_add.
    destruct (String.eqb_spec k k') as [<-|Hne].
    + rewrite obj_get_set_eq. specialize (Hget k).
      assert (Hk : occurrences k [k] = 1%nat)
        by (unfold occurrences; cbn [List.filter]; now rewrite String.eqb_refl).
      rewrite Hk. split; [|lia].
      unfold JS.of_nat. rewrite Nat2Z.inj_add, inject_Z_plus.
      destruct (JS.obj_get o k) as [v|].
      * destruct Hget as [-> _]. reflexivity.
      * rewrite Hget. reflexivity.
    + rewrite obj_get_set_ne by assumption. specialize (Hget k').
      assert (Hk : occurrences k' [k] = 0%nat).
      { unfold occurrences; cbn [List.filter].
        destruct (String.eqb_spec k' k); [congruence|reflexivity]. }
      rewrite Hk, Nat.add_0_r. exact Hget.
Qed.

Lemma tallies_fold {A} (label : A -> string) (l : list A) :
  tallies (fold_left (fun counts e => JS.obj_add counts (label e) 1) l [])
          (map label l).
Proof.
  enough (H : forall o labels, tallies o labels ->
            tallies (fold_left (fun counts e => JS.obj_add counts (label e) 1) l o)
                    (labels ++ map label l))
    by apply (H [] [] tallies_nil).
  induction l as [|x l IH]; intros o labels Ht; cbn [fold_left map].
  - now rewrite app_nil_r.
  - change (label x :: map label l) with ([label x] ++ map label l).
    rewrite app_assoc. apply IH, tallies_add, Ht.
Qed.

Lemma tallies_entry (o : JS.Obj JS.number) (labels : list string) (k : string) (v : Q) :
  tallies o labels -> In (k, v) o ->
  v == JS.of_nat (occurrences k labels) /\ In k labels.
Proof.
  intros [Hnd Hget] Hin.
  specialize (Hget k). rewrite (In_obj_get o k v Hnd Hin) in Hget.
  destruct Hget as [Hv Hpos]. split; [assumption|now apply occurrences_In].
Qed.

Lemma tallies_label (o : JS.Obj JS.number) (labels : list string) (k : string) :
  tallies o labels -> In k labels ->
  exists v, In (k, v) o /\ v == JS.of_nat (occurrences k labels).
Proof.
  intros [Hnd Hget] Hin. apply occurrences_In in Hin.
  specialize (Hget k). destruct (JS.obj_get o k) as [v|] eqn:E; [|lia].
  exists v. split; [now apply obj_get_In|apply Hget].
Qed.

Lemma total_fold {A} (label : A -> string) (x : A -> Q) (l : list A) (o : JS.Obj Q) :
  total (map snd (fold_left (fun counts e => JS.obj_add counts (label e) (x e)) l o))
  == total (map snd o) + total (map x l).
Proof.
  revert o. induction l as [|e l IH]; intros o; cbn [fold_left map total].
  - ring_total.
  - rewrite IH, obj_set_total. ring_total.
Qed.

Lemma total_ones {A} (l : list A) :
  total (map (fun _ => 1) l) == JS.of_nat (List.length l).
Proof.
  induction l as [|e l IH]; cbn [map total List.length].
  - reflexivity.
  - rewrite IH. unfold JS.of_nat. rewrite Nat2Z.inj_succ, <- Z.add_1_l, inject_Z_plus.
    reflexivity.
Qed.

Lemma total_Permutation (l l' : list Q) : Permutation l l' -> total l == total l'.
Proof.
  induction 1; cbn [total].
  - reflexivity.
  - now rewrite IHPermutation.
  - ring.
  - now rewrite IHPermutation1.
Qed.

Lemma occurrences_le_length (k : string) (l : list string) :
  (occurrences k l <= List.length l)%nat.
Proof. unfold occurrences. apply List.filter_length_le. Qed.

End Counting.

(** ** Mood trends, emotion shares and the dominant emotion *)

Section Distributions.

Local Open Scope Q_scope.
Import Tally useWellbeingStats.

Lemma NoDup_sorted_keys {B} (key : B -> Q) (name : B -> string)
    (mk : string * Q -> B) (o : JS.Obj Q) :
  (forall kv, name (mk kv) = fst kv) ->
  List.NoDup (map fst o) ->
  List.NoDup (map name (JS.Array_sort (fun a b => key b - key a) (map mk o))).
Proof.
  intros Hname Hnd.
  apply (Permutation_NoDup (l := map fst o)); [|assumption].
  rewrite (Permutation_map name (Array_sort_Permutation key (map mk o))).
  rewrite map_map. rewrite (map_ext _ fst Hname). reflexivity.
Qed.

Lemma In_sorted {B} (key : B -> Q) (l : list B) (b : B) :
  In b (JS.Array_sort (fun a b => key b - key a) l) <-> In b l.
Proof.
  split; apply Permutation_in;
    [|symmetry]; apply Array_sort_Permutation.
Qed.

(** X6.  The mood trends list every label logged exactly once, with the
    number of logs that carry it, the most frequent first; the counts add up
    to the number of logs. *)
Theorem moodTrends_count_every_log (emotionsList : list emotion_logs.row) :
  let trends := moodTrends emotionsList in
  let labels := map mood_label emotionsList in
  List.NoDup (map MoodTrend.mood trends)
  /\ (forall t, In t trends ->
        In (MoodTrend.mood t) labels
        /\ MoodTrend.count t == JS.of_nat (occurrences (MoodTrend.mood t) labels))
  /\ (forall e, In e emotionsList -> In (mood_label e) (map MoodTrend.mood trends))
  /\ descending (map MoodTrend.count trends)
  /\ total (map MoodTrend.count trends) == JS.of_nat (List.length emotionsList).
Proof.
  intros trends labels.
  pose (o := fold_left (fun counts e => JS.obj_add counts (mood_label e) 1)
                       emotionsList []).
  assert (Ht : tallies o labels) by apply tallies_fold.
  assert (Hs : total (map snd o) == JS.of_nat (List.length emotionsList)).
  { unfold o. rewrite (total_fold mood_label (fun _ => 1) emotionsList []).
    cbn [map total]. rewrite total_ones. apply Qplus_0_l. }
  set (mk := fun kv : string * Q =>
               {| MoodTrend.mood := fst kv; MoodTrend.count := snd kv |}).
  assert (Htrends : trends = JS.Array_sort
            (fun a b => MoodTrend.count b - MoodTrend.count a) (map mk o)).
  { unfold trends, moodTrends. f_equal. apply map_ext. now intros []. }
  clearbody trends o. subst trends.
  split; [|split; [|split; [|split]]].
  - apply NoDup_sorted_keys; [reflexivity|apply Ht].
  - intros t Hin. apply (proj1 (In_sorted MoodTrend.count _ _)) in Hin.
    apply in_map_iff in Hin as [[k v] [<- Hin]].
    cbn [mk fst snd MoodTrend.mood MoodTrend.count].
    destruct (tallies_entry o labels k v Ht Hin). auto.
  - intros e He.
    destruct (tallies_label o labels (mood_label e) Ht) as [v [Hin _]].
    { now apply in_map. }
    apply in_map_iff. exists (mk (mood_label e, v)). split; [reflexivity|].
    apply In_sorted, in_map. exact Hin.
  - apply Array_sort_descending.
  - rewrite (total_Permutation _ _
      (Permutation_map MoodTrend.count
         (Array_sort_Permutation MoodTrend.count (map mk o)))).
    rewrite map_map.
    rewrite (map_ext (fun x => MoodTrend.count (mk x)) snd) by reflexivity.
    exact Hs.
Qed.

Import EndOfDaySummary.

Lemma analyzeEmotions_counts (l : list emotion_logs.row) :
  emotionCounts (analyzeEmotions l)
  = fold_left (fun counts e => JS.obj_add counts (emotion_logs.emotion e) 1) l [].
Proof.
  unfold analyzeEmotions.
  enough (H : forall acc,
            emotionCounts (fold_left emotionStep l acc)
            = fold_left (fun counts e => JS.obj_add counts (emotion_logs.emotion e) 1)
                        l (emotionCounts acc))
    by apply H.
  induction l as [|e l IH]; intros acc; cbn [fold_left]; [reflexivity|].
  rewrite IH. f_equal. unfold emotionStep.
  destruct (JS.truthyZ (emotion_logs.focus_level e));
    destruct (JS.truthyZ (emotion_logs.stress_level e)); reflexivity.
Qed.

Lemma descending_head (x : Q) (l : list Q) (y : Q) :
  descending (x :: l) -> In y (x :: l) -> y <= x.
Proof.
  intros [H _] [<-|Hin]; [apply Qle_refl|auto].
Qed.

(** X8.  The dominant emotion of the day's summary is an emotion that
    was logged, and none was logged more often. *)
Theorem dominantEmotion_most_frequent today sessions emotions completions schedule
    (e : string) :
  dominantEmotion (baseData today sessions emotions completions schedule) = Some e ->
  let labels := map emotion_logs.emotion (JS.or_empty emotions) in
  In e labels
  /\ forall e', (occurrences e' labels <= occurrences e labels)%nat.
Proof.
  intros Hdom labels.
  unfold baseData in Hdom.
  destruct (match schedule with Some _ => _ | None => _ end) as [g t].
  cbn [dominantEmotion] in Hdom.
  rewrite analyzeEmotions_counts in Hdom.
  pose (o := fold_left (fun counts e => JS.obj_add counts (emotion_logs.emotion e) 1)
                       (JS.or_empty emotions) []).
  assert (Ht : tallies o labels) by apply tallies_fold.
  fold o in Hdom.
  pose proof (Array_sort_descending (@snd string Q) o) as Hdesc.
  pose proof (In_sorted (@snd string Q) o) as Hin.
  clearbody o.
  destruct (JS.Array_sort (fun a b : string * Q => snd b - snd a) o)
    as [|[k v] rest] eqn:Es; [discriminate|].
  destruct (JS.truthyS (Some k)); [|discriminate].
  injection Hdom as ->.
  assert (Hev : In (e, v) o) by (apply Hin; now left).
  destruct (tallies_entry o labels e v Ht Hev) as [Hv He].
  split; [assumption|].
  intros e'.
  destruct (occurrences e' labels) as [|n] eqn:En; [lia|].
  destruct (tallies_label o labels e' Ht) as [v' [Hin' Hv']].
  { apply occurrences_In. lia. }
  apply Hin in Hin'.
  assert (Hle : v' <= v).
  { apply (descending_head v (map snd rest)); [exact Hdesc|].
    change (v :: map snd rest) with (map snd ((e, v) :: rest)).
    now apply (in_map snd) in Hin'. }
  rewrite Hv, Hv', En in Hle. unfold JS.of_nat in Hle.
  rewrite <- Zle_Qle in Hle. lia.
Qed.

End Distributions.

(** ** The emotion distribution in binary64 *)

Section EmotionShares64.

Import Floats.
Import Tally useWellbeingStats.
Import Binary64.

Lemma counts_nil : Stats.counts [] [].
Proof. split; [constructor|intros k; reflexivity]. Qed.

Lemma counts_up (o : JS.Obj nat) (labels : list string) (k : string) :
  Stats.counts o labels -> Stats.counts (Stats.count_up o k) (labels ++ [k]).
Proof.
  intros [Hnd Hget]. split.
  - now apply obj_set_NoDup.
  - intros k'. rewrite occurrences_app. unfold Stats.count_up.
    destruct (String.eqb_spec k k') as [<-|Hne].
    + rewrite obj_get_set_eq. specialize (Hget k).
      assert (Hk : occurrences k [k] = 1%nat)
        by (unfold occurrences; cbn [List.filter]; now rewrite String.eqb_refl).
      rewrite Hk. split; [|lia].
      destruct (JS.obj_get o k) as [v|].
      * destruct Hget as [-> _]. reflexivity.
      * rewrite Hget. reflexivity.
    + rewrite obj_get_set_ne by assumption. specialize (Hget k').
      assert (Hk : occurrences k' [k] = 0%nat).
      { unfold occurrences; cbn [List.filter].
        destruct (String.eqb_spec k' k); [congruence|reflexivity]. }
      rewrite Hk, Nat.add_0_r. exact Hget.
Qed.

Lemma counts_fold {A} (label : A -> string) (l : list A) :
  Stats.counts (fold_left (fun o e => Stats.count_up o (label e)) l []) (map label l).
Proof.
  enough (H : forall o labels, Stats.counts o labels ->
            Stats.counts (fold_left (fun o e => Stats.count_up o (label e)) l o)
                   (labels ++ map label l))
    by apply (H [] [] counts_nil).
  induction l as [|x l IH]; intros o labels Ht; cbn [fold_left map].
  - now rewrite app_nil_r.
  - change (label x :: map label l) with ([label x] ++ map label l).
    rewrite app_assoc. apply IH, counts_up, Ht.
Qed.

(** The percentage rounded in exact arithmetic, as an integer quotient. *)
Lemma exact_share_div (count total : nat) :
  (0 < total)%nat ->
  JS.Math_round (JS.of_nat count / JS.of_nat total * 100)%Q
  = ((200 * Z.of_nat count + Z.of_nat total) / (2 * Z.of_nat total))%Z.
Proof.
  intros H. rewrite <- (exact_percentage_div count total H).
  unfold ClaimedFormulas.completionRate.
  destruct (Nat.eqb_spec total 0); [lia|reflexivity].
Qed.

(** X7.  The emotion distribution lists every emotion logged exactly
    once, the largest share first; the share is
    [Math.round((count / total) * 100)] with the quotient and the product
    rounded as the language rounds them.  With at most 500 logs it is a whole
    number from 0 to 100: the percentage rounded in exact arithmetic, or one
    less than that where the exact percentage lies halfway between two whole
    numbers.  Of 40 logs, 23 of one emotion and 17 of another are shown as
    57 and 43 percent. *)
Theorem emotionDistribution_shares :
  (forall emotionsList : list emotion_logs.row,
     let dist := Stats.emotionDistribution emotionsList in
     let labels := map emotion_logs.emotion emotionsList in
     let total := List.length emotionsList in
     List.NoDup (map EmotionShare.emotion dist)
     /\ (forall s, In s dist ->
           let count := occurrences (EmotionShare.emotion s) labels in
           In (EmotionShare.emotion s) labels
           /\ EmotionShare.percentage s
              = Math_round (of_nat count / of_nat total * 100%float)%b64
           /\ ((total <= 500)%nat ->
               let exact := JS.Math_round (JS.of_nat count / JS.of_nat total * 100)%Q in
               (0 <= EmotionShare.percentage s <= 100)%Z
               /\ (exact - 1 <= EmotionShare.percentage s <= exact)%Z
               /\ (~ Claimed.percentage_tie count total ->
                   EmotionShare.percentage s = exact)))
     /\ (forall e, In e emotionsList ->
           In (emotion_logs.emotion e) (map EmotionShare.emotion dist))
     /\ descending (map (fun s => JS.of_Z (EmotionShare.percentage s)) dist))
  /\ Stats.emotionDistribution (Doubles.logs "calm" 23 ++ Doubles.logs "tense" 17)
     = [ {| EmotionShare.emotion := "calm"; EmotionShare.percentage := 57 |};
         {| EmotionShare.emotion := "tense"; EmotionShare.percentage := 43 |} ].
Proof.
  split; [|vm_compute; reflexivity].
  intros emotionsList dist labels total.
  pose (o := fold_left (fun counts e => Stats.count_up counts (emotion_logs.emotion e))
                       emotionsList []).
  assert (Ht : Stats.counts o labels) by apply counts_fold.
  pose (totalEmotions :=
          if (0 <? List.length emotionsList)%nat
          then List.length emotionsList else 1%nat).
  pose (mk := fun kv : string * nat =>
               {| EmotionShare.emotion := fst kv;
                  EmotionShare.percentage :=
                    Math_round (of_nat (snd kv) / of_nat totalEmotions * 100%float)%b64 |}).
  pose (key := fun s => JS.of_Z (EmotionShare.percentage s)).
  assert (Hdist : dist = JS.Array_sort (fun a b => key b - key a)%Q (map mk o)).
  { unfold dist, Stats.emotionDistribution. f_equal. apply map_ext. now intros []. }
  assert (Hperm : Permutation dist (map mk o))
    by (rewrite Hdist; apply Array_sort_Permutation).
  clearbody dist o.
  split; [|split; [|split]].
  - apply (Permutation_NoDup (l := map fst o)); [|apply Ht].
    symmetry. etransitivity; [apply Permutation_map, Hperm|].
    rewrite map_map.
    now rewrite (map_ext (fun x => EmotionShare.emotion (mk x)) fst).
  - intros s Hin count. subst count.
    apply (Permutation_in _ Hperm) in Hin.
    apply in_map_iff in Hin as [[k v] [<- Hin]].
    cbn [mk fst snd EmotionShare.emotion EmotionShare.percentage].
    destruct Ht as [Hnd Hget]. specialize (Hget k).
    rewrite (In_obj_get o k v Hnd Hin) in Hget. destruct Hget as [Hv Hpos].
    assert (Hk : In k labels) by (apply occurrences_In; lia).
    assert (Hlen : (0 < total)%nat).
    { unfold labels in Hk. apply in_map_iff in Hk as [e [_ He]]. unfold total.
      destruct emotionsList; [destruct He|cbn; lia]. }
    assert (Htot : totalEmotions = total).
    { unfold totalEmotions. fold total. apply Nat.ltb_lt in Hlen. now rewrite Hlen. }
    rewrite Htot, Hv.
    split; [assumption|]. split; [reflexivity|].
    intros Hsmall. cbv zeta. rewrite exact_share_div by assumption.
    assert (Hc : (occurrences k labels <= total)%nat).
    { unfold labels, total. rewrite <- (List.length_map emotion_logs.emotion).
      apply occurrences_le_length. }
    destruct (percentage_near_exact (occurrences k labels) total) as (H0 & Hnear & Hexact);
      [lia|lia|].
    split; [|split; [exact Hnear|exact Hexact]].
    split; [exact H0|].
    assert ((200 * Z.of_nat (occurrences k labels) + Z.of_nat total)
            / (2 * Z.of_nat total) <= 100)%Z
      by (apply Z.lt_succ_r, Z.div_lt_upper_bound; lia).
    lia.
  - intros e He.
    destruct Ht as [Hnd Hget]. specialize (Hget (emotion_logs.emotion e)).
    assert (Hocc : (0 < occurrences (emotion_logs.emotion e) labels)%nat)
      by (apply occurrences_In; now apply in_map).
    destruct (JS.obj_get o (emotion_logs.emotion e)) as [v|] eqn:E; [|lia].
    apply in_map_iff. exists (mk (emotion_logs.emotion e, v)). split; [reflexivity|].
    apply (Permutation_in _ (Permutation_sym Hperm)), in_map.
    now apply obj_get_In.
  - rewrite Hdist. apply (Array_sort_descending key).
Qed.

End EmotionShares64.

(** ** Averages and the wellness score *)

Section Averages.

Local Open Scope Z_scope.
Import Tally useWellbeingStats.

Lemma fold_left_Zadd (l : list Z) (a : Z) :
  fold_left Z.add l a = a + fold_left Z.add l 0.
Proof.
  revert a. induction l as [|y l IH]; intros a; cbn [fold_left].
  - lia.
  - rewrite (IH (a + y)), (IH (0 + y)). lia.
Qed.

Lemma sum_of_cons (x : Z) (l : list Z) : sum_of (x :: l) = x + sum_of l.
Proof.
  unfold sum_of. cbn [fold_left]. rewrite fold_left_Zadd. lia.
Qed.

Lemma sum_of_bounds (lo hi : Z) (l : list Z) :
  (forall x, In x l -> lo <= x <= hi) ->
  lo * Z.of_nat (List.length l) <= sum_of l <= hi * Z.of_nat (List.length l).
Proof.
  induction l as [|x l IH]; intros H.
  - cbn. lia.
  - rewrite sum_of_cons. cbn [List.length]. rewrite Nat2Z.inj_succ.
    assert (lo <= x <= hi) by (apply H; now left).
    assert (lo * Z.of_nat (List.length l) <= sum_of l <= hi * Z.of_nat (List.length l))
      by (apply IH; intros y Hy; apply H; now right).
    lia.
Qed.

Lemma average_div (l : list Z) :
  l <> [] ->
  average l = (2 * sum_of l + Z.of_nat (List.length l))
              / (2 * Z.of_nat (List.length l)).
Proof.
  intros Hl. unfold average.
  destruct l as [|x l]; [congruence|].
  cbn [List.length Nat.ltb Nat.leb]. unfold JS.of_Z, JS.of_nat.
  apply Math_round_frac. lia.
Qed.

(** The average of a non-empty list lies between its bounds. *)
Lemma average_between (lo hi : Z) (l : list Z) :
  l <> [] -> (forall x, In x l -> lo <= x <= hi) -> lo <= average l <= hi.
Proof.
  intros Hl H. rewrite average_div by assumption.
  pose proof (sum_of_bounds lo hi l H) as Hs.
  assert (Hn : 0 < Z.of_nat (List.length l)) by (destruct l; [congruence|cbn; lia]).
  split.
  - apply Z.div_le_lower_bound; nia.
  - apply Z.lt_succ_r, Z.div_lt_upper_bound; nia.
Qed.

Lemma focusLevels_in_scale (lo hi : Z) (l : list emotion_logs.row) :
  (forall e, In e l -> in_scale lo hi (emotion_logs.focus_level e)) ->
  forall x, In x (focusLevels l) -> lo <= x <= hi.
Proof.
  intros H x Hx. unfold focusLevels in Hx.
  apply in_map_iff in Hx as [e [<- He]]. apply List.filter_In in He as [He Ht].
  specialize (H e He). destruct (emotion_logs.focus_level e); [exact H|discriminate].
Qed.

Lemma stressLevels_in_scale (lo hi : Z) (l : list emotion_logs.row) :
  (forall e, In e l -> in_scale lo hi (emotion_logs.stress_level e)) ->
  forall x, In x (stressLevels l) -> lo <= x <= hi.
Proof.
  intros H x Hx. unfold stressLevels in Hx.
  apply in_map_iff in Hx as [e [<- He]]. apply List.filter_In in He as [He Ht].
  specialize (H e He). destruct (emotion_logs.stress_level e); [exact H|discriminate].
Qed.

Lemma average_nil_or_between (lo hi : Z) (l : list Z) :
  (forall x, In x l -> lo <= x <= hi) ->
  (l = [] /\ average l = 0) \/ (l <> [] /\ lo <= average l <= hi).
Proof.
  intros H. destruct l as [|x l].
  - left. split; reflexivity.
  - right. split; [discriminate|]. apply average_between; [discriminate|exact H].
Qed.

Lemma nonzero_levels (column : emotion_logs.row -> option Z)
    (l : list emotion_logs.row) :
  List.filter (fun v => negb (v =? 0)) (map (fun e => JS.or0 (column e)) l)
  = map (fun e => JS.or0 (column e))
        (List.filter (fun e => JS.truthyZ (column e)) l).
Proof.
  induction l as [|e l IH]; cbn [map List.filter]; [reflexivity|].
  rewrite IH.
  destruct (column e) as [z|] eqn:E; cbn [JS.or0 JS.truthyZ];
    [destruct (z =? 0)|]; cbn [negb map JS.or0]; rewrite ?E; reflexivity.
Qed.

(** X10.  The stored average focus and stress levels lie within the
    range of the levels logged; a log without a level, or with level 0, does
    not enter the average, and without any level the average is 0. *)
Theorem averages_within_logged_levels emotions sessions completions schedule
    (lo hi : Z) :
  (forall e, In e (JS.or_empty emotions) ->
     in_scale lo hi (emotion_logs.focus_level e)
     /\ in_scale lo hi (emotion_logs.stress_level e)) ->
  let stats := fst (aggregate emotions sessions completions schedule) in
  let levels (column : emotion_logs.row -> option Z) :=
    List.filter (fun v => negb (v =? 0))
      (map (fun e => JS.or0 (column e)) (JS.or_empty emotions)) in
  WellbeingStats.avgFocusLevel stats = average (levels emotion_logs.focus_level)
  /\ WellbeingStats.avgStressLevel stats = average (levels emotion_logs.stress_level)
  /\ (levels emotion_logs.focus_level = [] /\ WellbeingStats.avgFocusLevel stats = 0
      \/ lo <= WellbeingStats.avgFocusLevel stats <= hi)
  /\ (levels emotion_logs.stress_level = [] /\ WellbeingStats.avgStressLevel stats = 0
      \/ lo <= WellbeingStats.avgStressLevel stats <= hi).
Proof.
  intros H stats levels.
  assert (Hlev : forall column,
            levels column
            = map (fun e => JS.or0 (column e))
                  (List.filter (fun e => JS.truthyZ (column e)) (JS.or_empty emotions)))
    by (intros column; apply nonzero_levels).
  assert (Hf : WellbeingStats.avgFocusLevel stats = average (levels emotion_logs.focus_level))
    by (rewrite Hlev; reflexivity).
  assert (Hs : WellbeingStats.avgStressLevel stats = average (levels emotion_logs.stress_level))
    by (rewrite Hlev; reflexivity).
  split; [exact Hf|]. split; [exact Hs|].
  rewrite Hf, Hs, !Hlev. split.
  - destruct (average_nil_or_between lo hi (focusLevels (JS.or_empty emotions)))
      as [[E A]|[_ A]]; [|left; split; assumption|right; exact A].
    apply focusLevels_in_scale. intros e He. apply H, He.
  - destruct (average_nil_or_between lo hi (stressLevels (JS.or_empty emotions)))
      as [[E A]|[_ A]]; [|left; split; assumption|right; exact A].
    apply stressLevels_in_scale. intros e He. apply H, He.
Qed.

Lemma Math_min_Z (a b : Z) :
  (JS.Math_min (inject_Z a) (inject_Z b) == inject_Z (Z.min a b))%Q.
Proof.
  unfold JS.Math_min.
  destruct (JS.lt (inject_Z b) (inject_Z a)) eqn:E.
  - apply lt_iff in E. rewrite <- Zlt_Qlt in E. rewrite Z.min_r by lia. reflexivity.
  - assert (a <= b).
    { destruct (Z.le_gt_cases a b) as [|Hlt]; [assumption|].
      rewrite Zlt_Qlt in Hlt. apply lt_iff in Hlt. congruence. }
    rewrite Z.min_l by lia. reflexivity.
Qed.

(** The wellness score as an integer division (in exact arithmetic). *)
Lemma wellnessScore_div (f s : Z) (n : nat) :
  wellnessScore f s n
  = (4 * f - 3 * s + 305 + 10 * Z.min (5 * Z.of_nat n) 30) / 10.
Proof.
  unfold wellnessScore.
  assert (E : (JS.of_Z f * 0.4 + (100 - JS.of_Z s) * 0.3
               + JS.Math_min (JS.of_nat n * 5) 30
               == inject_Z (4 * f - 3 * s + 300 + 10 * Z.min (5 * Z.of_nat n) 30)
                  / inject_Z 10)%Q).
  { unfold JS.of_Z, JS.of_nat.
    assert (E5 : (inject_Z (Z.of_nat n) * 5 == inject_Z (5 * Z.of_nat n))%Q)
      by (rewrite inject_Z_mult; ring).
    assert (Em : (JS.Math_min (inject_Z (Z.of_nat n) * 5) 30
                  == inject_Z (Z.min (5 * Z.of_nat n) 30))%Q).
    { rewrite <- Math_min_Z. unfold JS.Math_min.
      rewrite (lt_proper 30%Q (inject_Z 30) (Qeq_refl _) _ _ E5).
      destruct (JS.lt (inject_Z 30) (inject_Z (5 * Z.of_nat n))); [reflexivity|exact E5]. }
    rewrite Em.
    rewrite !inject_Z_plus, !inject_Z_mult. unfold Zminus.
    rewrite !inject_Z_plus, inject_Z_opp, !inject_Z_mult.
    generalize (inject_Z (Z.min (5 * Z.of_nat n) 30)). intros m.
    field. }
  rewrite (Math_round_proper _ _ E), Math_round_frac by lia.
  replace (2 * (4 * f - 3 * s + 300 + 10 * Z.min (5 * Z.of_nat n) 30) + 10)
    with (2 * (4 * f - 3 * s + 305 + 10 * Z.min (5 * Z.of_nat n) 30)) by lia.
  apply Z.div_mul_cancel_l; lia.
Qed.

(** X11.  The wellness score lies between 0 and 100 for averages on a
    percent scale, does not decrease when focus rises, stress falls or logs
    are added, and no longer depends on the number of logs from six logs
    on. *)
Theorem wellnessScore_range_monotone :
  (forall f s n, 0 <= f <= 100 -> 0 <= s <= 100 ->
     0 <= wellnessScore f s n <= 100)
  /\ (forall f f' s s' n n', f <= f' -> s' <= s -> (n <= n')%nat ->
        wellnessScore f s n <= wellnessScore f' s' n')
  /\ (forall f s n, (6 <= n)%nat -> wellnessScore f s n = wellnessScore f s 6).
Proof.
  split; [|split].
  - intros f s n Hf Hs. rewrite wellnessScore_div. split.
    + apply Z.div_pos; lia.
    + apply Z.lt_succ_r, Z.div_lt_upper_bound; lia.
  - intros f f' s s' n n' Hf Hs Hn. rewrite !wellnessScore_div.
    apply Z.div_le_mono; lia.
  - intros f s n Hn. rewrite !wellnessScore_div. f_equal. lia.
Qed.

End Averages.

(** ** The wellness score in binary64 *)

Section WellnessScore64.

Import useWellbeingStats.
Import Floats Binary64.

(** The claimed formula in exact arithmetic, as an integer quotient. *)
Lemma exact_wellnessScore_div (f s : Z) (n : nat) :
  ClaimedFormulas.wellnessScore f s n
  = ((4 * f - 3 * s + 305 + 10 * Z.min (5 * Z.of_nat n) 30) / 10)%Z.
Proof. rewrite <- wellnessScore_exact_reading. apply wellnessScore_div. Qed.

(** C4, as the code has it.  For every average focus level, average stress
    level and number of emotion logs, the wellness score is
    [round(0.4*avgFocus + 0.3*(100-avgStress) + min(emotionCount*5, 30))]
    with its products and sums rounded as the language rounds them; it is 86
    for 80, 20 and 10.  For whole averages from 0 to 100 and at most 100000
    logs the score is the exact value of the formula rounded to the nearest
    whole number, or one less than that where the exact value lies halfway
    between two whole numbers. *)
Theorem wellnessScore_formula :
  (forall avgFocus avgStress emotionCount,
     Stats.wellnessScore avgFocus avgStress emotionCount
     = Claimed.wellnessScore avgFocus avgStress emotionCount) /\
  Stats.wellnessScore 80 20 10 = 86%Z /\
  (forall avgFocus avgStress emotionCount,
     (0 <= avgFocus <= 100)%Z -> (0 <= avgStress <= 100)%Z ->
     (Z.of_nat emotionCount <= 100000)%Z ->
     let score := Stats.wellnessScore avgFocus avgStress emotionCount in
     let exact := ClaimedFormulas.wellnessScore avgFocus avgStress emotionCount in
     (exact - 1 <= score <= exact)%Z /\
     (~ Claimed.wellnessScore_tie avgFocus avgStress -> score = exact)).
Proof.
  split; [|split].
  - intros f s n. unfold Stats.wellnessScore, Claimed.wellnessScore.
    now rewrite (b64_mul_comm (of_Z f)), (b64_mul_comm (_ - _)%b64).
  - vm_compute. reflexivity.
  - intros f s n Hf Hs Hn score exact. subst score exact.
    rewrite exact_wellnessScore_div.
    apply wellnessScore_near_exact; assumption.
Qed.

(** The claim as stated fails where the exact value is a tie: for an average
    focus of 1, an average stress of 13 and one log the contributions are
    0.4, 26.1 and 5; their sum is 31.5 in exact arithmetic, which rounds to
    32, and just below 31.5 in binary64, which rounds to 31. *)
Lemma wellnessScore_below_exact_round :
  Stats.wellnessScore 1 13 1 = 31%Z /\
  Claimed.wellnessScore 1 13 1 = 31%Z /\
  ClaimedFormulas.wellnessScore 1 13 1 = 32%Z /\
  Claimed.wellnessScore_tie 1 13.
Proof. repeat split; vm_compute; reflexivity. Qed.

End WellnessScore64.

(** ** Levels logged on the sliders' scale *)

Section SliderScale.

Local Open Scope Z_scope.
Import Tally useWellbeingStats WellbeingPage.

Lemma burnoutRisk_low_stress (s T : Z) : s <= 50 -> burnoutRisk s T = burnoutRisk 0 T.
Proof.
  intros Hs. unfold burnoutRisk.
  destruct (Z.gtb_spec s 70); [lia|]. destruct (Z.gtb_spec s 50); [lia|].
  reflexivity.
Qed.

(** X12.  When every logged focus and stress level lies on the 1 to 10
    scale of the emotion analyzer's sliders, the stored averages are at most
    10, the wellness score lies between 27 and 64, the burnout risk depends
    on the study time alone, and the well-being page shows the score, never
    the dash, and never "Excellent", "Great Focus!" or "Manage Stress", its
    daily tip being the one for low focus. *)
Theorem slider_scale_limits emotions sessions completions schedule :
  (forall e, In e (JS.or_empty emotions) ->
     in_scale 1 10 (emotion_logs.focus_level e)
     /\ in_scale 1 10 (emotion_logs.stress_level e)) ->
  let stats := fst (aggregate emotions sessions completions schedule) in
  0 <= WellbeingStats.avgFocusLevel stats <= 10
  /\ 0 <= WellbeingStats.avgStressLevel stats <= 10
  /\ 27 <= WellbeingStats.wellnessScore stats <= 64
  /\ WellbeingStats.burnoutRisk stats
     = burnoutRisk 0 (WellbeingStats.totalStudyTime stats)
  /\ wellnessValue stats = Some (WellbeingStats.wellnessScore stats)
  /\ wellnessSubtitle stats <> "Excellent"%string
  /\ focusInsightTitle stats = "Boost Your Focus"%string
  /\ stressInsightTitle stats = "Low Stress"%string
  /\ dailyTip stats = pomodoro_technique.
Proof.
  intros H stats.
  assert (Hf : 0 <= WellbeingStats.avgFocusLevel stats <= 10).
  { destruct (average_nil_or_between 1 10 (focusLevels (JS.or_empty emotions)))
      as [[_ A]|[_ A]].
    - apply focusLevels_in_scale. intros e He. apply H, He.
    - unfold stats. cbn [aggregate fst WellbeingStats.avgFocusLevel]. lia.
    - unfold stats. cbn [aggregate fst WellbeingStats.avgFocusLevel]. lia. }
  assert (Hs : 0 <= WellbeingStats.avgStressLevel stats <= 10).
  { destruct (average_nil_or_between 1 10 (stressLevels (JS.or_empty emotions)))
      as [[_ A]|[_ A]].
    - apply stressLevels_in_scale. intros e He. apply H, He.
    - unfold stats. cbn [aggregate fst WellbeingStats.avgStressLevel]. lia.
    - unfold stats. cbn [aggregate fst WellbeingStats.avgStressLevel]. lia. }
  assert (Hw : 27 <= WellbeingStats.wellnessScore stats <= 64).
  { change (WellbeingStats.wellnessScore stats)
      with (wellnessScore (WellbeingStats.avgFocusLevel stats)
                          (WellbeingStats.avgStressLevel stats)
                          (List.length (JS.or_empty emotions))).
    rewrite wellnessScore_div. split.
    - apply Z.div_le_lower_bound; lia.
    - apply Z.lt_succ_r, Z.div_lt_upper_bound; lia. }
  split; [exact Hf|]. split; [exact Hs|]. split; [exact Hw|].
  split; [|split; [|split; [|split; [|split]]]].
  - change (WellbeingStats.burnoutRisk stats)
      with (burnoutRisk (WellbeingStats.avgStressLevel stats)
                        (WellbeingStats.totalStudyTime stats)).
    apply burnoutRisk_low_stress. lia.
  - unfold wellnessValue.
    destruct (Z.gtb_spec (WellbeingStats.wellnessScore stats) 0); [reflexivity|lia].
  - unfold wellnessSubtitle.
    destruct (Z.geb_spec (WellbeingStats.wellnessScore stats) 70); [lia|].
    destruct (WellbeingStats.wellnessScore stats >=? 50); discriminate.
  - unfold focusInsightTitle.
    destruct (Z.geb_spec (WellbeingStats.avgFocusLevel stats) 70); [lia|reflexivity].
  - unfold stressInsightTitle.
    destruct (Z.leb_spec (WellbeingStats.avgStressLevel stats) 40); [reflexivity|lia].
  - unfold dailyTip.
    destruct (Z.gtb_spec (WellbeingStats.avgStressLevel stats) 50); [lia|].
    destruct (Z.ltb_spec (WellbeingStats.avgFocusLevel stats) 50); [reflexivity|lia].
Qed.

Lemma slice_last7_suffix {A} (l : list A) :
  l = firstn (List.length l - 7) l ++ slice_last7 l
  /\ List.length (slice_last7 l) = Nat.min 7 (List.length l).
Proof.
  unfold slice_last7. split.
  - symmetry. apply firstn_skipn.
  - rewrite List.length_skipn. lia.
Qed.

(** X13.  The focus and stress trends are the last seven non-zero levels
    logged, in the order of the logs, and all of them when there are fewer
    than seven. *)
Theorem trends_are_last_seven emotions sessions completions schedule :
  let stats := fst (aggregate emotions sessions completions schedule) in
  let l := JS.or_empty emotions in
  (exists earlier, focusLevels l = earlier ++ WellbeingStats.focusTrend stats)
  /\ List.length (WellbeingStats.focusTrend stats)
     = Nat.min 7 (List.length (focusLevels l))
  /\ (exists earlier, stressLevels l = earlier ++ WellbeingStats.stressTrend stats)
  /\ List.length (WellbeingStats.stressTrend stats)
     = Nat.min 7 (List.length (stressLevels l))
  /\ (forall x, In x (WellbeingStats.focusTrend stats ++ WellbeingStats.stressTrend stats)
        -> x <> 0).
Proof.
  intros stats l.
  cbn [stats aggregate fst WellbeingStats.focusTrend WellbeingStats.stressTrend].
  fold l.
  destruct (slice_last7_suffix (focusLevels l)) as [Ef Lf].
  destruct (slice_last7_suffix (stressLevels l)) as [Es Ls].
  split; [eexists; exact Ef|]. split; [exact Lf|].
  split; [eexists; exact Es|]. split; [exact Ls|].
  intros x Hx.
  assert (Hin : In x (focusLevels l) \/ In x (stressLevels l)).
  { apply in_app_iff in Hx as [Hx|Hx]; [left; rewrite Ef|right; rewrite Es];
      apply in_app_iff; now right. }
  unfold focusLevels, stressLevels in Hin.
  destruct Hin as [Hin|Hin];
    apply in_map_iff in Hin as [e [<- He]]; apply List.filter_In in He as [_ Ht];
    unfold JS.truthyZ in Ht.
  - destruct (emotion_logs.focus_level e) as [z|]; [|discriminate].
    cbn [JS.or0]. destruct (Z.eqb_spec z 0); [discriminate|assumption].
  - destruct (emotion_logs.stress_level e) as [z|]; [|discriminate].
    cbn [JS.or0]. destruct (Z.eqb_spec z 0); [discriminate|assumption].
Qed.

End SliderScale.

(** ** The weekly analytics *)

Section Analytics.

Local Open Scope Z_scope.
Import Tally useWellbeingStats.

(** X14.  The break-to-study ratio of the weekly analytics is 20 when
    there is no study time, when the study time is a multiple of 5 seconds,
    and whenever it exceeds 80 seconds: the estimate of the break time is a
    fifth of the study time. *)
Theorem breakVsStudyRatio_is_20 emotions sessions completions schedule :
  let T := totalStudyTime (JS.or_empty sessions) in
  T <= 0 \/ T mod 5 = 0 \/ 80 < T ->
  WeeklyAnalytics.breakVsStudyRatio
    (snd (aggregate emotions sessions completions schedule)) = 20.
Proof.
  intros T H.
  cbn [aggregate snd WeeklyAnalytics.breakVsStudyRatio]. fold T.
  destruct (Z.gtb_spec T 0) as [HT|HT]; [|reflexivity].
  assert (H' : T mod 5 = 0 \/ 80 < T) by (destruct H as [?|[?|?]]; [lia|auto|auto]).
  rewrite totalBreakTime_div.
  assert (Hb : 10 * ((2 * T + 5) / 10) <= 2 * T + 5 < 10 * ((2 * T + 5) / 10) + 10).
  { pose proof (Z.div_mod (2 * T + 5) 10 ltac:(lia)).
    pose proof (Z.mod_pos_bound (2 * T + 5) 10 ltac:(lia)). lia. }
  set (b := (2 * T + 5) / 10) in *.
  transitivity (JS.Math_round (inject_Z (100 * b) / inject_Z T)%Q).
  - apply Math_round_proper. unfold JS.of_Z. rewrite inject_Z_mult. field.
    intros E. apply (inject_Z_injective T 0) in E. lia.
  - rewrite Math_round_frac by lia.
    symmetry. apply (Z.div_unique_pos _ _ 20 (2 * (100 * b) + T - 20 * (2 * T))); [|lia].
    destruct H' as [H'|H']; [|lia].
    apply Z.mod_divide in H'; [|lia]. destruct H' as [k Hk]. lia.
Qed.

Lemma onDay_count (d : JS.Date) :
  (JS.getDay d < 7)%nat ->
  list_sum (map (fun day => if onDay d day then 1%nat else 0%nat) dayNames) = 1%nat.
Proof.
  unfold onDay. generalize (JS.getDay d) as g. intros g Hg.
  do 7 (destruct g as [|g]; [reflexivity|]). lia.
Qed.

Lemma list_sum_map_add {A} (f g : A -> nat) (l : list A) :
  list_sum (map (fun a => f a + g a)%nat l)
  = (list_sum (map f l) + list_sum (map g l))%nat.
Proof.
  induction l as [|a l IH]; cbn [map list_sum].
  - reflexivity.
  - change (list_sum (?x :: ?t)) with (x + list_sum t)%nat. rewrite IH. lia.
Qed.

(** X15.  The daily breakdown has one entry for each day name, Sunday
    first, and counts every session on exactly one day: the session counts
    add up to the number of sessions. *)
Theorem dailyBreakdown_counts_each_session (sessionsList : list study_sessions.row) :
  (forall s, In s sessionsList -> (JS.getDay (study_sessions.created_at s) < 7)%nat) ->
  map DailyBreakdown.day (dailyBreakdown sessionsList) = dayNames
  /\ list_sum (map DailyBreakdown.sessions (dailyBreakdown sessionsList))
     = List.length sessionsList.
Proof.
  intros H. split; [reflexivity|].
  unfold dailyBreakdown. rewrite map_map. cbn [DailyBreakdown.sessions].
  induction sessionsList as [|s l IH].
  - reflexivity.
  - cbn [List.length].
    replace (S (List.length l))
      with (list_sum (map (fun day => if onDay (study_sessions.created_at s) day
                                      then 1%nat else 0%nat) dayNames)
            + list_sum (map (fun day =>
                List.length (List.filter
                  (fun s => onDay (study_sessions.created_at s) day) l)) dayNames))%nat.
    + rewrite <- list_sum_map_add. f_equal. apply map_ext. intros day.
      cbn [List.filter].
      destruct (onDay (study_sessions.created_at s) day); reflexivity.
    + rewrite onDay_count by (apply H; now left).
      rewrite IH by (intros s' Hs'; apply H; now right). reflexivity.
Qed.

(** X16.  The completion rate is never negative; it is at most 100 when
    there are no more completion records than planned sessions, and exactly
    100 when there are as many. *)
Theorem completionRate_bounds
    (completionsList : list schedule_session_completions.row)
    (schedule : option study_schedules.row) :
  0 <= completionRate completionsList schedule
  /\ ((List.length completionsList <= plannedSessions schedule)%nat ->
      completionRate completionsList schedule <= 100)
  /\ ((0 < plannedSessions schedule)%nat ->
      List.length completionsList = plannedSessions schedule ->
      completionRate completionsList schedule = 100).
Proof.
  destruct (Nat.ltb_spec 0 (plannedSessions schedule)) as [Hp|Hp].
  - rewrite completionRate_div by assumption.
    split; [apply Z.div_pos; lia|]. split.
    + intros Hc. apply Z.lt_succ_r, Z.div_lt_upper_bound; lia.
    + intros _ Hc. rewrite Hc. symmetry.
      apply (Z.div_unique_pos _ _ 100 (Z.of_nat (plannedSessions schedule))); lia.
  - unfold completionRate.
    destruct (Nat.ltb_spec 0 (plannedSessions schedule)); [lia|].
    split; [lia|]. split; [lia|]. intros; lia.
Qed.

End Analytics.

(** ** What the pages show *)

Section Pages.

Local Open Scope Z_scope.
Import Tally useWellbeingStats.

Lemma moodTrends_nil : moodTrends [] = [].
Proof. reflexivity. Qed.

Lemma moodTrends_nonempty (e : emotion_logs.row) (l : list emotion_logs.row) :
  moodTrends (e :: l) <> [].
Proof.
  pose (o := fold_left (fun counts e => JS.obj_add counts (mood_label e) 1%Q) (e :: l) []).
  assert (Ht : tallies o (map mood_label (e :: l))) by apply tallies_fold.
  destruct (tallies_label o _ (mood_label e) Ht) as [v [Hin _]]; [now left|].
  pose (mk := fun kv : string * Q =>
               {| MoodTrend.mood := fst kv; MoodTrend.count := snd kv |}).
  assert (Htrends : moodTrends (e :: l) = JS.Array_sort
            (fun a b => (MoodTrend.count b - MoodTrend.count a)%Q) (map mk o)).
  { unfold moodTrends. f_equal. apply map_ext. now intros []. }
  rewrite Htrends. intros Hnil.
  apply (in_map mk) in Hin. apply (In_sorted MoodTrend.count) in Hin.
  rewrite Hnil in Hin. destruct Hin.
Qed.

(** X17.  After a completed fetch the well-being page reports data
    exactly when the week holds at least one emotion log; study sessions
    alone do not count. *)
Theorem wellbeing_hasData_iff_logs emotions sessions completions schedule :
  WellbeingPage.hasData (fst (aggregate emotions sessions completions schedule)) = true
  <-> JS.or_empty emotions <> [].
Proof.
  unfold WellbeingPage.hasData.
  cbn [aggregate fst WellbeingStats.moodTrends WellbeingStats.avgFocusLevel].
  destruct (JS.or_empty emotions) as [|e l].
  - split; [discriminate|congruence].
  - split; [discriminate|]. intros _.
    pose proof (moodTrends_nonempty e l) as Hne.
    destruct (moodTrends (e :: l)); [congruence|reflexivity].
Qed.

Lemma totalStudyTime_cons (s : study_sessions.row) (l : list study_sessions.row) :
  totalStudyTime (s :: l) = JS.or0 (study_sessions.duration_seconds s) + totalStudyTime l.
Proof.
  unfold totalStudyTime. cbn [fold_left]. rewrite Z.add_0_l.
  generalize (JS.or0 (study_sessions.duration_seconds s)) as a.
  assert (H : forall a b,
            fold_left (fun acc s => acc + JS.or0 (study_sessions.duration_seconds s)) l (a + b)
            = a + fold_left (fun acc s => acc + JS.or0 (study_sessions.duration_seconds s)) l b).
  { induction l as [|x l IH]; intros a b; cbn [fold_left]; [reflexivity|].
    rewrite <- Z.add_assoc. apply IH. }
  intros a. rewrite <- (H a 0). now rewrite Z.add_0_r.
Qed.

Lemma totalStudyTime_filter_le (p : study_sessions.row -> bool)
    (l : list study_sessions.row) :
  (forall s, In s l -> 0 <= JS.or0 (study_sessions.duration_seconds s)) ->
  0 <= totalStudyTime (List.filter p l) <= totalStudyTime l.
Proof.
  induction l as [|s l IH]; intros H; cbn [List.filter].
  - unfold totalStudyTime. cbn. lia.
  - assert (0 <= JS.or0 (study_sessions.duration_seconds s)) by (apply H; now left).
    assert (0 <= totalStudyTime (List.filter p l) <= totalStudyTime l)
      by (apply IH; intros s' Hs'; apply H; now right).
    destruct (p s); rewrite ?totalStudyTime_cons; lia.
Qed.

(** Hours rounded to one decimal are positive from 180 seconds on (in exact
    arithmetic). *)
Lemma round1_hours_positive (T : Z) :
  JS.gt (round1 (JS.of_Z T / 3600)%Q) 0%Q = true <-> 180 <= T.
Proof.
  unfold JS.gt, round1. rewrite lt_iff.
  assert (E : JS.Math_round (JS.of_Z T / 3600 * 10)%Q = (2 * T + 360) / 720).
  { transitivity (JS.Math_round (inject_Z T / inject_Z 360)%Q).
    - apply Math_round_proper. unfold JS.of_Z. field.
    - now rewrite Math_round_frac by lia. }
  rewrite E. unfold JS.of_Z.
  assert (Hq : (0 < inject_Z ((2 * T + 360) / 720) / 10)%Q <-> 0 < (2 * T + 360) / 720).
  { rewrite (Zlt_Qlt 0 ((2 * T + 360) / 720)).
    generalize (inject_Z ((2 * T + 360) / 720)). intros q.
    change (inject_Z 0) with 0%Q.
    assert (Hx : (q == q / 10 * 10)%Q) by field.
    set (r := (q / 10)%Q) in *. clearbody r. split; intros Hlt; lra. }
  rewrite Hq. split.
  - intros Hpos. destruct (Z.le_gt_cases 180 T) as [|Hlt]; [assumption|].
    assert ((2 * T + 360) / 720 <= 0); [|lia].
    apply Z.lt_succ_r, Z.div_lt_upper_bound; lia.
  - intros HT. apply Z.lt_le_trans with 1; [lia|].
    apply Z.div_le_lower_bound; lia.
Qed.

(** X18.  With durations that are not negative, the analytics page
    reports data exactly when the week's study time is at least 180 seconds,
    the least that rounds to a tenth of an hour; shorter totals show as no
    data. *)
Theorem analytics_hasData_iff_three_minutes emotions sessions completions schedule :
  (forall s, In s (JS.or_empty sessions) ->
     0 <= JS.or0 (study_sessions.duration_seconds s)) ->
  AnalyticsPage.hasData (snd (aggregate emotions sessions completions schedule)) = true
  <-> 180 <= totalStudyTime (JS.or_empty sessions).
Proof.
  intros Hnn. unfold AnalyticsPage.hasData.
  cbn [aggregate snd WeeklyAnalytics.totalStudyHours WeeklyAnalytics.dailyBreakdown].
  rewrite orb_true_iff, round1_hours_positive. split.
  - intros [H|H]; [assumption|].
    apply existsb_exists in H as [d [Hd Hpos]].
    unfold dailyBreakdown in Hd. apply in_map_iff in Hd as [day [<- _]].
    cbn [DailyBreakdown.studyHours] in Hpos.
    apply round1_hours_positive in Hpos.
    pose proof (totalStudyTime_filter_le
                  (fun s => onDay (study_sessions.created_at s) day) _ Hnn).
    lia.
  - intros H. now left.
Qed.

End Pages.

(** ** The summary of a day by its sessions *)

Section DaySessions.

Local Open Scope Q_scope.
Import EndOfDaySummary DecisionTable SessionsCheck.

(** What the completion rate must be for five of the states. *)
Lemma state_needs_rate (d : BaseData) :
  let rate := completionRate d in
  (state (generateMessage d) = stressed -> JS.lt rate 0.5 = true)
  /\ (state (generateMessage d) = tired_but_consistent -> JS.lt rate 0.5 = true)
  /\ (state (generateMessage d) = discouraged ->
        JS.lt rate 0.3 = true /\ JS.gt (goalHours d) 0 = true)
  /\ (state (generateMessage d) = proud -> JS.ge rate 0.8 = true)
  /\ (state (generateMessage d) = motivated -> JS.ge rate 0.6 = true).
Proof.
  intros rate.
  pose proof (generateMessage_table d) as T.
  unfold rows, first_match in T. fold rate in T.
  destruct (JS.lt rate 0.5) eqn:E5, (JS.lt rate 0.3) eqn:E3,
           (JS.ge rate 0.8) eqn:E8, (JS.ge rate 0.6) eqn:E6,
           (JS.gt (goalHours d) 0) eqn:Eg;
    rewrite ?andb_true_r, ?andb_false_r, ?andb_true_l, ?andb_false_l in T;
    cbn [andb] in T;
    repeat match type of T with
           | context [if ?b then _ else _] => destruct b
           end;
    injection T as <-; repeat split; intros; try discriminate; reflexivity.
Qed.

Lemma filter_filter_length {A} (p q : A -> bool) (l : list A) :
  (List.length (List.filter p (List.filter q l)) <= List.length (List.filter p l))%nat.
Proof.
  induction l as [|a l IH]; cbn [List.filter]; [lia|].
  destruct (q a), (p a) eqn:E; cbn [List.filter List.length]; rewrite ?E;
    cbn [List.length]; lia.
Qed.

Lemma rate_at_least_one (d : BaseData) :
  (0 < totalSessions d <= completedSessions d)%nat -> 1 <= completionRate d.
Proof.
  intros [Ht Hc]. unfold completionRate.
  destruct (Nat.eqb_spec (totalSessions d) 0); [lia|].
  apply Qle_shift_div_l.
  - unfold JS.of_nat. change 0 with (inject_Z 0). rewrite <- Zlt_Qlt. lia.
  - rewrite Qmult_1_l. unfold JS.of_nat. rewrite <- Zle_Qle. lia.
Qed.

(** X19.  When [checkAllSessionsComplete] answers yes, the summary built
    from the same schedule and from completions that include the ones it
    counted has a plan for today with every session completed, and its state
    is none of stressed, tired-but-consistent and discouraged. *)
Theorem all_complete_summary_states (user : option string) (today : JS.Date)
    (schedule : option study_schedules.row)
    (completions : list schedule_session_completions.row)
    (counted : schedule_session_completions.row -> bool)
    sessions emotions :
  checkAllSessionsComplete user today
    {| c_schedule := JS.Resolved schedule;
       c_completions := JS.Resolved (Some (List.filter counted completions)) |} = true ->
  let b := baseData today sessions emotions (Some completions) schedule in
  (0 < totalSessions b <= completedSessions b)%nat
  /\ state (generateMessage b) <> stressed
  /\ state (generateMessage b) <> tired_but_consistent
  /\ state (generateMessage b) <> discouraged.
Proof.
  intros Hcheck b.
  assert (Hb : (0 < totalSessions b <= completedSessions b)%nat).
  { unfold checkAllSessionsComplete in Hcheck.
    destruct user; [|discriminate]. cbn [JS.await c_schedule c_completions] in Hcheck.
    destruct schedule as [sch|]; [|discriminate].
    unfold b, baseData.
    destruct (findTodayPlan (study_schedules.weekly_plan sch) (JS.weekdayLong today))
      as [[dy [planned|]]|]; try discriminate.
    destruct (Nat.eqb_spec (List.length planned) 0); [discriminate|].
    apply andb_true_iff in Hcheck as [Hle _]. apply Nat.leb_le in Hle.
    unfold completedCount in Hle. cbn [JS.or_empty] in Hle.
    cbn [totalSessions completedSessions JS.or_empty].
    pose proof (filter_filter_length
      (fun c => String.eqb (schedule_session_completions.status c) "completed")
      counted completions).
    lia. }
  split; [exact Hb|].
  pose proof (rate_at_least_one b Hb) as Hrate.
  destruct (state_needs_rate b) as (Hs & Ht & Hd & _).
  repeat split; intros E.
  - apply Hs, lt_iff in E. lra.
  - apply Ht, lt_iff in E. lra.
  - apply Hd in E as [E _]. apply lt_iff in E. lra.
Qed.

(** X20.  Without an active schedule, or without an entry for today in
    its weekly plan, the summary has no planned sessions and no goal, and its
    state is none of proud, motivated and discouraged, whatever was studied
    or completed. *)
Theorem no_plan_never_proud today sessions emotions completions schedule :
  match schedule with
  | Some sch =>
      findTodayPlan (study_schedules.weekly_plan sch) (JS.weekdayLong today) = None
  | None => True
  end ->
  let b := baseData today sessions emotions completions schedule in
  totalSessions b = 0%nat
  /\ goalHours b = 0
  /\ state (generateMessage b) <> proud
  /\ state (generateMessage b) <> motivated
  /\ state (generateMessage b) <> discouraged.
Proof.
  intros Hplan b.
  assert (Hb : totalSessions b = 0%nat /\ goalHours b = 0).
  { unfold b, baseData. destruct schedule as [sch|]; [rewrite Hplan|]; split; reflexivity. }
  destruct Hb as [Ht Hg]. split; [exact Ht|]. split; [exact Hg|].
  destruct (state_needs_rate b) as (_ & _ & Hd & Hp & Hm).
  assert (Hrate : completionRate b = 0) by (unfold completionRate; now rewrite Ht).
  rewrite Hrate, Hg in *.
  repeat split; intros E.
  - apply Hp in E. discriminate.
  - apply Hm in E. discriminate.
  - apply Hd in E as [_ E]. discriminate.
Qed.

End DaySessions.

(** ** The schedule-generation function: fences and the gateway *)

Section Fences.

Import generate_schedule Markdown.
Local Open Scope string_scope.

Lemma append_cons (c : ascii) (s t : string) :
  String.append (String c s) t = String c (String.append s t).
Proof. reflexivity. Qed.

Lemma append_nil (t : string) : String.append "" t = t.
Proof. reflexivity. Qed.

Lemma append_empty (s : string) : String.append s "" = s.
Proof. induction s as [|c s IH]; [reflexivity|]. now rewrite append_cons, IH. Qed.

Lemma remove_fences_plain (f' : string) (body tail : string) :
  has_backquote body = false ->
  remove_fences (String "`" f') 0 (String.append body tail)
  = String.append body (remove_fences (String "`" f') 0 tail).
Proof.
  induction body as [|c body IH]; cbn [has_backquote]; [reflexivity|].
  intros H. apply orb_false_iff in H as [Hc Hb].
  rewrite !append_cons. cbn [remove_fences strip_prefix].
  rewrite Ascii.eqb_sym, Hc. now rewrite IH.
Qed.

Lemma remove_fences_no_backquote (f' : string) (s : string) :
  has_backquote s = false -> remove_fences (String "`" f') 0 s = s.
Proof.
  intros H. rewrite <- (append_empty s) at 1.
  rewrite remove_fences_plain by assumption. cbn [remove_fences]. apply append_empty.
Qed.

Lemma trim_end_line_end (s : string) :
  trim_end (String.append s line_end) = trim_end s.
Proof.
  induction s as [|c s IH]; [reflexivity|].
  rewrite append_cons. cbn [trim_end]. now rewrite IH.
Qed.

Lemma trim_line_end (s : string) : trim (String.append s line_end) = trim s.
Proof.
  unfold trim.
  induction s as [|c s IH]; [reflexivity|].
  rewrite append_cons. cbn [trim_start].
  destruct (is_space c); [exact IH|].
  rewrite <- append_cons. apply trim_end_line_end.
Qed.

Lemma json_fence_opening (rest : string) :
  remove_fences json_fence 0 (String.append json_fence (String.append line_end rest))
  = remove_fences json_fence 0 rest.
Proof. destruct rest; reflexivity. Qed.

Lemma json_fence_leaves_fence (rest : string) :
  remove_fences json_fence 0 (String.append fence (String.append line_end rest))
  = String.append fence (String.append line_end (remove_fences json_fence 0 rest)).
Proof. destruct rest; reflexivity. Qed.

Lemma fence_opening (rest : string) :
  remove_fences fence 0 (String.append fence (String.append line_end rest))
  = remove_fences fence 0 rest.
Proof. destruct rest; reflexivity. Qed.

Lemma clean_markdown_fenced (text : string) :
  has_backquote text = false ->
  clean_markdown (fenced json_fence text) = trim text
  /\ clean_markdown (fenced fence text) = trim text.
Proof.
  intros H. unfold clean_markdown, fenced.
  assert (Hj : remove_fences json_fence 0
                 (String.append text (String.append line_end fence))
               = String.append text (String.append line_end fence)).
  { unfold json_fence. rewrite remove_fences_plain by assumption. reflexivity. }
  assert (Hf : remove_fences fence 0
                 (String.append text (String.append line_end fence))
               = String.append text line_end).
  { unfold fence at 1. rewrite remove_fences_plain by assumption. reflexivity. }
  split.
  - rewrite json_fence_opening, Hj, Hf. apply trim_line_end.
  - rewrite json_fence_leaves_fence, Hj, fence_opening, Hf. apply trim_line_end.
Qed.

(** X21.  A reply without backquotes is only trimmed, and a reply that
    wraps such a text in a code fence, opened with or without the word json,
    is cleaned to the same trimmed text. *)
Theorem clean_markdown_unwraps_fence (text : string) :
  has_backquote text = false ->
  clean_markdown text = trim text
  /\ clean_markdown (fenced json_fence text) = trim text
  /\ clean_markdown (fenced fence text) = trim text.
Proof.
  intros H. split; [|now apply clean_markdown_fenced].
  unfold clean_markdown, json_fence, fence.
  rewrite (remove_fences_no_backquote _ text) by assumption.
  rewrite (remove_fences_no_backquote _ text) by assumption. reflexivity.
Qed.

Variable Json : Type.
Variable JSON_parse : string -> attempt Json.

Lemma prompt_subjects_listed (l : list Subject) :
  prompt_subjects (elements (map Some l)) = returned tt.
Proof.
  unfold prompt_subjects.
  replace (forallb _ (map Some l)) with true; [reflexivity|].
  induction l as [|s l IH]; [reflexivity|]. cbn [map forallb andb]. exact IH.
Qed.


(** The prompt can be written exactly from an array without a [null]. *)
Lemma prompt_subjects_returned (s : Subjects) :
  prompt_subjects s = returned tt <-> exists l, s = elements (map Some l).
Proof.
  split.
  - destruct s as [| | |l]; try discriminate. cbn [prompt_subjects].
    intros H. assert (Hl : forallb (fun s => match s with Some _ => true | None => false end) l = true)
      by (destruct (forallb _ l); [reflexivity|discriminate]).
    clear H. induction l as [|[s|] l IH]; cbn [forallb andb] in Hl.
    + now exists [].
    + destruct (IH Hl) as [l' [= ->]]. now exists (s :: l').
    + discriminate.
  - intros [l ->]. apply prompt_subjects_listed.
Qed.


End Fences.

(** ** The study-session hook *)

Section StudySession.

Import useStudySession.

Lemma run_app (t t' : list Event) (h : Hook) : run (t ++ t') h = run t' (run t h).
Proof. revert h. induction t as [|e t IH]; intros h; cbn [run app]; auto. Qed.

Lemma perform_cons (c : Call) (calls : list Call) (h : Hook) :
  perform (c :: calls) h = perform calls (run (events_of c h) h).
Proof. reflexivity. Qed.

(** One awaited call, from a state with nothing in flight. *)
Lemma call_cases (c : Call) (h : Hook) :
  pending h = [] ->
  run (events_of c h) h
  = match c with
    | create_then user r =>
        match user with
        | None => h
        | Some _ =>
            if sessionCreatedRef h then h
            else createSession_resume r
                   {| currentSession := currentSession h;
                      isCreatingSession := true;
                      sessionCreatedRef := true;
                      requests := requests h ++ [insert_session];
                      pending := [] |}
        end
    | update_then r => updated (currentSession h) r h
    | end_then r => ended (currentSession h) r h
    | kept_update_then captured r => updated captured r h
    | kept_end_then captured r => ended captured r h
    end.
Proof.
  intros Hp. destruct h as [cur creating ref reqs pend]. cbn [pending] in Hp. subst pend.
  destruct c as [[u|] r|r|r|captured r|captured r]; cbn [events_of run step].
  - unfold createSession. cbn [sessionCreatedRef].
    destruct ref; reflexivity.
  - reflexivity.
  - unfold updateSession, updated. cbn [currentSession]. destruct cur; reflexivity.
  - unfold endSession, ended. cbn [currentSession]. destruct cur; reflexivity.
  - unfold updateSession, updated. destruct captured; reflexivity.
  - unfold endSession, ended. destruct captured; reflexivity.
Qed.

Lemma settled_cases (h : Hook) :
  settled h ->
  (sessionCreatedRef h = true /\ exists s, currentSession h = Some s)
  \/ (sessionCreatedRef h = false /\ currentSession h = None).
Proof.
  intros (_ & _ & Hr).
  destruct (sessionCreatedRef h), (currentSession h) as [s|]; eauto;
    exfalso; intuition congruence.
Qed.

Lemma call_keeps_settled (c : Call) (h : Hook) :
  latest c = true -> settled h -> settled (run (events_of c h) h).
Proof.
  intros Hl Hs. pose proof (settled_cases h Hs) as Hcases.
  destruct Hs as (Hp & Hc & Hr). rewrite call_cases by assumption.
  destruct h as [cur creating ref reqs pend].
  cbn [pending isCreatingSession sessionCreatedRef currentSession] in *. subst.
  destruct Hcases as [[-> [s ->]]|[-> ->]];
    destruct c as [[u|] r|r|r|captured r|captured r]; try discriminate Hl;
    try destruct r as [|[x|]];
    cbn [updated ended createSession_resume updateSession_resume endSession_resume];
    unfold settled;
    cbn [pending isCreatingSession sessionCreatedRef currentSession];
    intuition congruence.
Qed.

(** With a session open, an awaited call that does not end it keeps it open
    and the guard set, whichever render its callback is from. *)
Lemma call_keeps_open (c : Call) (h : Hook) :
  settled h -> currentSession h <> None -> ends_session c = false ->
  settled (run (events_of c h) h)
  /\ inserts (requests (run (events_of c h) h)) = inserts (requests h)
  /\ currentSession (run (events_of c h) h) <> None.
Proof.
  intros Hs Hopen Hc.
  destruct (settled_cases h Hs) as [[Href [s Ecur]]|[_ Ecur]]; [|congruence].
  destruct Hs as (Hp & Hcr & _). rewrite call_cases by assumption.
  destruct h as [cur creating ref reqs pend].
  cbn [pending isCreatingSession sessionCreatedRef currentSession requests] in *. subst.
  assert (Hin : forall q, q <> insert_session ->
                  inserts (reqs ++ [q]) = inserts reqs).
  { intros q Hq. unfold inserts. rewrite List.filter_app, List.length_app.
    destruct q; [congruence| |]; cbn; lia. }
  destruct c as [[u|] r|r|r|[s'|] r|[s'|] r];
    try destruct r as [|[x|]]; try discriminate Hc;
    cbn [updated ended updateSession_resume endSession_resume];
    unfold settled;
    cbn [pending isCreatingSession sessionCreatedRef currentSession requests];
    rewrite ?Hin by discriminate;
    intuition congruence.
Qed.

(** X24.  When every call of the hook is awaited before the next one is
    made and uses the callback of the latest render, nothing stays in flight
    and the guard flag is set exactly while a session is open, whatever the
    requests resolve to.  Not so with callbacks kept from one render: after
    [await endSession(); await updateSession(u)] with the two callbacks of a
    render in which a session was open, the session that [endSession] has
    closed is stored again as [currentSession], with the guard cleared. *)
Theorem awaited_calls_keep_guard :
  (forall (calls : list Call) (h : Hook),
     forallb latest calls = true -> settled h -> settled (perform calls h)) /\
  (forall (h : Hook) (s data : StudySession),
     settled h -> currentSession h = Some s ->
     let h' := perform [ kept_end_then (Some s) (JS.Resolved (Some tt));
                         kept_update_then (Some s) (JS.Resolved (Some data)) ] h in
     currentSession h' = Some data /\ sessionCreatedRef h' = false /\
     pending h' = [] /\ ~ settled h' /\
     requests h' = requests h ++ [close_session (id s); update_session (id s)]).
Proof.
  split.
  - intros calls. induction calls as [|c calls IH]; intros h Hl Hs.
    + exact Hs.
    + cbn [forallb] in Hl. apply andb_true_iff in Hl as [Hc Hl].
      rewrite perform_cons. apply IH; [exact Hl|].
      now apply call_keeps_settled.
  - intros h s data (Hp & Hc & Hr) Hcur h'. subst h'.
    destruct h as [cur creating ref reqs pend].
    cbn [pending isCreatingSession currentSession] in *. subst.
    cbn. rewrite <- app_assoc. repeat split.
    unfold settled. cbn. intros (_ & _ & [_ H]).
    specialize (H ltac:(discriminate)). discriminate.
Qed.

(** X25.  While a session is open, awaited calls insert no further
    session row and keep a session open, until a call of [endSession]
    succeeds. *)
Theorem open_session_blocks_insert (calls : list Call) (h : Hook) :
  settled h ->
  currentSession h <> None ->
  forallb (fun c => negb (ends_session c)) calls = true ->
  inserts (requests (perform calls h)) = inserts (requests h)
  /\ currentSession (perform calls h) <> None.
Proof.
  revert h. induction calls as [|c calls IH]; intros h Hs Hopen Hno.
  - split; [reflexivity|exact Hopen].
  - cbn [forallb] in Hno. apply andb_true_iff in Hno as [Hc Hno].
    apply negb_true_iff in Hc.
    rewrite perform_cons.
    destruct (call_keeps_open c h Hs Hopen Hc) as (Hs' & Hi & Hopen').
    destruct (IH (run (events_of c h) h) Hs' Hopen' Hno) as [Hi' Hopen''].
    split; [congruence|assumption].
Qed.

(** X26.  A call of [createSession] whose insert fails, by an error or
    a rejection, leaves the hook as it was but for the request made, so that
    the next call inserts again and a success opens the session. *)
Theorem failed_insert_can_be_retried (h : Hook) (user user' : string)
    (r : JS.response StudySession) (data : StudySession) :
  settled h ->
  currentSession h = None ->
  r = JS.Rejected \/ r = JS.Resolved None ->
  let h' := perform [create_then (Some user) r] h in
  currentSession h' = None
  /\ sessionCreatedRef h' = false
  /\ requests h' = requests h ++ [insert_session]
  /\ let h'' := perform [create_then (Some user') (JS.Resolved (Some data))] h' in
     currentSession h'' = Some data
     /\ requests h'' = requests h ++ [insert_session; insert_session].
Proof.
  intros Hs Hcur Hr h'.
  assert (Eh' : h' = {| currentSession := None; isCreatingSession := false;
                        sessionCreatedRef := false;
                        requests := requests h ++ [insert_session];
                        pending := [] |}).
  { unfold h'. rewrite perform_cons. change (perform [] ?x) with x.
    destruct (settled_cases h Hs) as [[_ [s Hs']]|[Href _]]; [congruence|].
    destruct Hs as (Hp & Hc & _). rewrite call_cases by assumption.
    rewrite Href. destruct Hr as [->| ->]; cbn [createSession_resume];
      now rewrite Hcur. }
  clearbody h'. subst h'.
  cbn [currentSession sessionCreatedRef requests].
  split; [reflexivity|]. split; [reflexivity|]. split; [reflexivity|].
  rewrite perform_cons. change (perform [] ?x) with x.
  rewrite call_cases by reflexivity.
  cbn [createSession_resume currentSession sessionCreatedRef requests].
  split; [reflexivity|]. now rewrite <- app_assoc.
Qed.

(** X27.  Calls that overlap can part the guard from the session: when
    [updateSession] and [endSession] are both in flight and the update
    resolves after the end has succeeded, the hook holds a session again
    with the guard cleared, and the next [createSession] inserts a second
    row. *)
Theorem late_update_reopens_session (h : Hook) (s data : StudySession)
    (user : string) :
  pending h = [] ->
  currentSession h = Some s ->
  let h' := run [ Update (currentSession h); End_ (currentSession h);
                  Settle 1 (done_result (JS.Resolved (Some tt)));
                  Settle 0 (row_result (JS.Resolved (Some data))) ] h in
  currentSession h' = Some data
  /\ sessionCreatedRef h' = false
  /\ requests (createSession (Some user) h') = requests h' ++ [insert_session].
Proof.
  intros Hp Hcur h'.
  destruct h as [cur creating ref reqs pend].
  cbn [pending currentSession] in Hp, Hcur. subst.
  unfold h'. cbn. repeat split.
Qed.

End StudySession.

(** ** The triggers across dates, after a failed fetch, and by hand *)

Section AcrossDates.

Import EndOfDaySummary TriggerRuns.

(** X5.  The date the triggers store and compare is the UTC date of
    [toISOString], while the 20:00 test reads the local hour.  After a
    dismissal with nothing in flight, an interval tick at or after 20:00
    whose UTC date differs from the one stored starts a new evaluation, and
    the popup appears again, also when both moments lie on the same local
    day. *)
Theorem later_date_rearms_time_trigger (now later : JS.Date) (h : Hook)
    (s : DaySummary) :
  pending h = [] ->
  (20 <= JS.getHours later)%nat ->
  JS.isoDate later <> JS.isoDate now ->
  let trace := [Dismiss now; Tick later; Settle 0 (summary_result (Some s))] in
  showPopup (run trace h) = true
  /\ summary (run trace h) = Some s
  /\ appearances trace h = 1%nat.
Proof.
  intros Hp Hhour Hdate trace.
  destruct (dismiss_closes now h Hp) as (Hshow & Hpend & _ & Hkey & _).
  assert (Htick : step (Tick later) (dismissSummary now h)
                  = suspend time_awaits_summary (fetch_started (dismissSummary now h))).
  { cbn [step]. unfold checkAndShowSummary.
    destruct (Nat.ltb_spec (JS.getHours later) 20); [lia|].
    rewrite Hkey. rewrite bool_decide_eq_false_2; [reflexivity|congruence]. }
  unfold trace. cbn [run appearances]. change (step (Dismiss now) h) with (dismissSummary now h).
  rewrite Htick.
  set (h1 := dismissSummary now h) in *.
  assert (Hsettle : step (Settle 0 (summary_result (Some s)))
                         (suspend time_awaits_summary (fetch_started h1))
                    = show s (fetch_finished
                        (set_pending [] (suspend time_awaits_summary (fetch_started h1))))).
  { assert (Hp2 : pending (suspend time_awaits_summary (fetch_started h1))
                   = [time_awaits_summary])
      by (cbn [suspend pending fetch_started]; now rewrite Hpend).
    cbn [step]. rewrite Hp2. reflexivity. }
  rewrite Hsettle. split; [reflexivity|]. split; [reflexivity|].
  unfold appears.
  cbn [show showPopup suspend fetch_started fetch_finished set_pending].
  rewrite !Hshow, andb_false_r. reflexivity.
Qed.

Lemma completions_after_dismissal (dates : list JS.Date) (h : Hook) :
  hasTriggeredRef h = true -> run (map Completion dates) h = h.
Proof.
  intros Hr. induction dates as [|d dates IH]; cbn [map run step]; [reflexivity|].
  now rewrite triggerOnAllSessionsComplete_closed.
Qed.

(** X28.  After a dismissal the all-sessions-complete trigger stays off
    on every date, until the effect runs again: completions change nothing,
    and a run of the effect on another date starts the check anew. *)
Theorem completion_trigger_needs_effect (now later : JS.Date)
    (dates : list JS.Date) (h : Hook) :
  pending h = [] ->
  JS.isoDate later <> JS.isoDate now ->
  run (map Completion dates) (dismissSummary now h) = dismissSummary now h
  /\ In (complete_awaits_check (JS.isoDate later))
        (pending (step (Mount later) (dismissSummary now h))).
Proof.
  intros Hp Hdate.
  destruct (dismiss_closes now h Hp) as (_ & Hpend & Href & Hk1 & Hk2).
  split; [now apply completions_after_dismissal|].
  cbn [step]. unfold effect.
  rewrite Hk2. rewrite bool_decide_eq_false_2 by congruence.
  set (h1 := {| summary := _; hasTriggeredRef := false |}).
  assert (Ht : triggerOnAllSessionsComplete later h1
               = suspend (complete_awaits_check (JS.isoDate later)) h1).
  { unfold triggerOnAllSessionsComplete. cbn [h1 hasTriggeredRef localStorage].
    rewrite Hk2. now rewrite bool_decide_eq_false_2 by congruence. }
  rewrite Ht. unfold checkAndShowSummary.
  destruct (JS.getHours later <? 20)%nat.
  - cbn [suspend pending h1]. rewrite Hpend. now left.
  - destruct (bool_decide _).
    + cbn [suspend pending h1]. rewrite Hpend. now left.
    + cbn [suspend pending fetch_started h1]. rewrite Hpend. now left.
Qed.

(** X29.  [fetchDaySummary] yields no summary exactly when no user is
    signed in or one of its four queries rejects (a query that resolves with
    an error counts as empty data); the callback that resumes with no
    summary opens nothing and records nothing, so a later evaluation tries
    again. *)
Theorem failed_fetch_shows_nothing (user : option string) (today : JS.Date)
    (q : DayQueries) (i : nat) (h : Hook) :
  (fetchDaySummary user today q = None
   <-> user = None \/ q_sessions q = JS.Rejected \/ q_emotions q = JS.Rejected
       \/ q_completions q = JS.Rejected \/ q_schedule q = JS.Rejected)
  /\ let h' := step (Settle i (summary_result None)) h in
     showPopup h' = showPopup h
     /\ summary h' = summary h
     /\ localStorage h' = localStorage h
     /\ hasTriggeredRef h' = hasTriggeredRef h.
Proof.
  split.
  - unfold fetchDaySummary.
    destruct user as [u|]; [|split; auto].
    destruct (q_sessions q), (q_emotions q), (q_completions q), (q_schedule q);
      cbn [JS.await]; split; auto; intros H;
      try discriminate H;
      repeat (destruct H as [H|H]; try discriminate H); discriminate H.
  - cbn [step].
    destruct (nth_error (pending h) i) as [t|]; [|repeat split].
    destruct t; cbn [resume]; repeat split.
Qed.

(** X30.  The manual trigger passes no guard: after a dismissal with
    nothing in flight, [showSummaryNow] followed by a fetched summary opens
    the popup again on the same date. *)
Theorem manual_trigger_bypasses_guards (now : JS.Date) (h : Hook)
    (s : DaySummary) :
  pending h = [] ->
  let trace := [Dismiss now; Manual; Settle 0 (summary_result (Some s))] in
  showPopup (run trace h) = true
  /\ summary (run trace h) = Some s
  /\ appearances trace h = 1%nat.
Proof.
  intros Hp trace.
  destruct (dismiss_closes now h Hp) as (Hshow & Hpend & _).
  unfold trace. cbn [run appearances].
  change (step (Dismiss now) h) with (dismissSummary now h).
  set (h1 := dismissSummary now h) in *.
  change (step Manual h1) with (suspend manual_awaits_summary (fetch_started h1)).
  assert (Hsettle : step (Settle 0 (summary_result (Some s)))
                         (suspend manual_awaits_summary (fetch_started h1))
                    = show s (fetch_finished
                        (set_pending [] (suspend manual_awaits_summary (fetch_started h1))))).
  { assert (Hp2 : pending (suspend manual_awaits_summary (fetch_started h1))
                   = [manual_awaits_summary])
      by (cbn [suspend pending fetch_started]; now rewrite Hpend).
    cbn [step]. rewrite Hp2. reflexivity. }
  rewrite Hsettle. split; [reflexivity|]. split; [reflexivity|].
  unfold appears.
  cbn [show showPopup suspend fetch_started fetch_finished set_pending].
  rewrite !Hshow, andb_false_r. reflexivity.
Qed.

End AcrossDates.

(** ** The further properties at sample data *)

Section AtSamples.

Import Tally Cases Samples.Day Samples.Week Samples.Gateway.

Lemma dominantEmotion_most_frequent_witness :
  In "calm"%string (map emotion_logs.emotion three_logs)
  /\ forall e', (occurrences e' (map emotion_logs.emotion three_logs)
                 <= occurrences "calm" (map emotion_logs.emotion three_logs))%nat.
Proof.
  apply (dominantEmotion_most_frequent noon None (Some three_logs) None None "calm").
  reflexivity.
Defined.

Lemma three_logs_in_scale :
  forall e, In e (JS.or_empty (Some three_logs)) ->
    in_scale 1 10 (emotion_logs.focus_level e)
    /\ in_scale 1 10 (emotion_logs.stress_level e).
Proof.
  intros e [<-|[<-|[<-|[]]]]; cbn; lia.
Defined.

Lemma averages_within_logged_levels_witness :
  useWellbeingStats.WellbeingStats.avgFocusLevel
    (fst (useWellbeingStats.aggregate (Some three_logs) None None None))
  = useWellbeingStats.average [7; 4; 8]%Z.
Proof.
  exact (proj1 (averages_within_logged_levels (Some three_logs) None None None
                  1 10 three_logs_in_scale)).
Defined.

Lemma slider_scale_limits_witness :
  (0 <= useWellbeingStats.WellbeingStats.avgFocusLevel
          (fst (useWellbeingStats.aggregate (Some three_logs) None None None)) <= 10)%Z.
Proof.
  exact (proj1 (slider_scale_limits (Some three_logs) None None None
                  three_logs_in_scale)).
Defined.

Lemma breakVsStudyRatio_is_20_witness :
  useWellbeingStats.WeeklyAnalytics.breakVsStudyRatio
    (snd (useWellbeingStats.aggregate None (Some two_sessions) None None)) = 20%Z.
Proof.
  apply (breakVsStudyRatio_is_20 None (Some two_sessions) None None).
  right. left. reflexivity.
Defined.

Lemma dailyBreakdown_counts_each_session_witness :
  list_sum (map useWellbeingStats.DailyBreakdown.sessions
                (useWellbeingStats.dailyBreakdown two_sessions)) = 2%nat.
Proof.
  apply (dailyBreakdown_counts_each_session two_sessions).
  intros s [<-|[<-|[]]]; cbn; lia.
Defined.

Lemma analytics_hasData_iff_three_minutes_witness :
  AnalyticsPage.hasData
    (snd (useWellbeingStats.aggregate None (Some two_sessions) None None)) = true
  <-> (180 <= useWellbeingStats.totalStudyTime (JS.or_empty (Some two_sessions)))%Z.
Proof.
  apply (analytics_hasData_iff_three_minutes None (Some two_sessions) None None).
  intros s [<-|[<-|[]]]; cbn; lia.
Defined.

Lemma all_complete_summary_states_witness :
  (0 < EndOfDaySummary.totalSessions
         (EndOfDaySummary.baseData noon None None (Some monday_completions)
            (Some four_session_schedule))
   <= EndOfDaySummary.completedSessions
        (EndOfDaySummary.baseData noon None None (Some monday_completions)
           (Some four_session_schedule)))%nat.
Proof.
  exact (proj1 (all_complete_summary_states (Some "user-1"%string) noon
                  (Some four_session_schedule) monday_completions keep_all
                  None None eq_refl)).
Defined.

Lemma no_plan_never_proud_witness :
  EndOfDaySummary.totalSessions
    (EndOfDaySummary.baseData noon (Some two_sessions) None
       (Some monday_completions) (Some tuesday_only_schedule)) = 0%nat.
Proof.
  exact (proj1 (no_plan_never_proud noon (Some two_sessions) None
                  (Some monday_completions) (Some tuesday_only_schedule) eq_refl)).
Defined.

Lemma clean_markdown_unwraps_fence_witness :
  generate_schedule.clean_markdown (Markdown.fenced generate_schedule.json_fence "{}")
  = generate_schedule.trim "{}".
Proof.
  exact (proj1 (proj2 (clean_markdown_unwraps_fence "{}" eq_refl))).
Defined.

Lemma post_request_well_formed :
  Markdown.well_formed post_request (Some "key"%string).
Proof.
  split; [discriminate|]. split.
  - eexists _, [_]. split; reflexivity.
  - eexists _, _. reflexivity.
Defined.


Lemma initialHook_settled : useStudySession.settled useStudySession.initialHook.
Proof. unfold useStudySession.settled; cbn; intuition congruence. Defined.

Lemma open_hook_settled : useStudySession.settled open_hook.
Proof. unfold useStudySession.settled; cbn; intuition congruence. Defined.

Lemma awaited_calls_keep_guard_witness :
  useStudySession.settled
    (useStudySession.perform
       [ useStudySession.create_then (Some "user-1"%string) (JS.Resolved (Some a_session));
         useStudySession.update_then JS.Rejected;
         useStudySession.end_then (JS.Resolved (Some tt)) ]
       useStudySession.initialHook).
Proof.
  apply (proj1 awaited_calls_keep_guard); [reflexivity | exact initialHook_settled].
Defined.

Lemma open_session_blocks_insert_witness :
  useStudySession.inserts
    (useStudySession.requests
       (useStudySession.perform
          [ useStudySession.create_then (Some "user-1"%string)
              (JS.Resolved (Some an_update));
            useStudySession.update_then (JS.Resolved (Some an_update));
            useStudySession.end_then (JS.Resolved None) ]
          open_hook))
  = useStudySession.inserts (useStudySession.requests open_hook)
  /\ useStudySession.currentSession
       (useStudySession.perform
          [ useStudySession.create_then (Some "user-1"%string)
              (JS.Resolved (Some an_update));
            useStudySession.update_then (JS.Resolved (Some an_update));
            useStudySession.end_then (JS.Resolved None) ]
          open_hook) <> None.
Proof.
  apply (open_session_blocks_insert _ open_hook open_hook_settled).
  - discriminate.
  - reflexivity.
Defined.

Lemma failed_insert_can_be_retried_witness :
  useStudySession.currentSession
    (useStudySession.perform
       [useStudySession.create_then (Some "user-1"%string) JS.Rejected]
       useStudySession.initialHook) = None.
Proof.
  exact (proj1 (failed_insert_can_be_retried useStudySession.initialHook
                  "user-1" "user-1" JS.Rejected a_session
                  initialHook_settled eq_refl (or_introl eq_refl))).
Defined.

Lemma late_update_reopens_session_witness :
  useStudySession.currentSession
    (useStudySession.run
       [ useStudySession.Update (Some a_session); useStudySession.End_ (Some a_session);
         useStudySession.Settle 1 (useStudySession.done_result (JS.Resolved (Some tt)));
         useStudySession.Settle 0 (useStudySession.row_result (JS.Resolved (Some an_update))) ]
       open_hook) = Some an_update.
Proof.
  exact (proj1 (late_update_reopens_session open_hook a_session an_update "user-1"
                  eq_refl eq_refl)).
Defined.

Lemma later_date_rearms_time_trigger_witness :
  EndOfDaySummary.showPopup
    (EndOfDaySummary.run
       [ EndOfDaySummary.Dismiss monday_afternoon;
         EndOfDaySummary.Tick monday_evening_west;
         EndOfDaySummary.Settle 0 (EndOfDaySummary.summary_result (Some a_summary)) ]
       TriggerRuns.mounted) = true
  /\ JS.getDay monday_afternoon = JS.getDay monday_evening_west.
Proof.
  split; [|reflexivity].
  apply (later_date_rearms_time_trigger monday_afternoon monday_evening_west
           TriggerRuns.mounted a_summary eq_refl).
  - cbn. lia.
  - discriminate.
Defined.

Lemma completion_trigger_needs_effect_witness :
  EndOfDaySummary.run (map EndOfDaySummary.Completion [tuesday; tuesday])
    (EndOfDaySummary.dismissSummary noon TriggerRuns.mounted)
  = EndOfDaySummary.dismissSummary noon TriggerRuns.mounted.
Proof.
  refine (proj1 (completion_trigger_needs_effect noon tuesday [tuesday; tuesday]
                   TriggerRuns.mounted eq_refl _)).
  discriminate.
Defined.

Lemma manual_trigger_bypasses_guards_witness :
  EndOfDaySummary.showPopup
    (EndOfDaySummary.run
       [ EndOfDaySummary.Dismiss evening; EndOfDaySummary.Manual;
         EndOfDaySummary.Settle 0 (EndOfDaySummary.summary_result (Some a_summary)) ]
       TriggerRuns.mounted) = true.
Proof.
  exact (proj1 (manual_trigger_bypasses_guards evening TriggerRuns.mounted a_summary
                  eq_refl)).
Defined.

End AtSamples.
